(** * Managed-position lifecycle engine: a shallow embedding

    The Go package [services] (file [services/position_manager.go]) keeps a
    working set of managed positions, submits entry and protective orders to a
    broker, polls them on a timer and hands records to a store.  This file embeds
    that code function by function and states its behaviour as theorems.

    Modelling choices:
    - [float64] is Rocq's primitive binary64 float, so products, quotients and
      comparisons are the ones the Go program computes (round to nearest even,
      NaN unordered, division by zero giving an infinity);
    - [time.Time] is an integer count of nanoseconds since the Unix epoch;
    - the broker, the quote feed, the database and the wall clock are oracles
      over an arbitrary outside-world state [W]; every theorem that does not
      name a stub holds for all of them;
    - the engine runs in a small state monad whose state carries the working
      set, the outside world and the chronological trace of the calls made
      through the three service interfaces; a nil dereference is the outcome
      [Panic];
    - a call through an interface that returns a pointer and an error yields
      either a value or an error (the Go convention that a nil error comes with a
      non-nil result); fields of pointer type inside a value, such as
      [Order.FilledAvgPrice], stay optional;
    - a record is reached through one pointer held by the working set, so a
      write to the record is a write to the working set; each operation is
      taken as running alone, the interleaving of the monitoring goroutine
      with the request handlers being outside the model;
    - logging is left out. *)

From Stdlib Require Import ZArith Floats Uint63 List Lia.
From stdpp Require Import base strings gmap pretty.

Local Open Scope string_scope.

(** ** Numbers and time *)

Module math.

(** [math.Floor]: the greatest integer value not above [x]; zeros, infinities
    and NaN are returned unchanged.  A finite binary64 with a non-negative
    exponent is already integral; otherwise the integral part is below 2^53
    and converts exactly. *)
Definition Floor (x : float) : float :=
  match Prim2SF x with
  | S754_finite s m e =>
      if (0 <=? e)%Z then x
      else
        let d := (2 ^ (- e))%Z in
        let q := (Z.pos m / d)%Z in
        let r := (Z.pos m mod d)%Z in
        if s
        then PrimFloat.opp
               (PrimFloat.of_uint63
                  (Uint63.of_Z (if (r =? 0)%Z then q else (q + 1)%Z)))
        else PrimFloat.of_uint63 (Uint63.of_Z q)
  | _ => x
  end.

(** [math.Abs]. *)
Definition Abs (x : float) : float := PrimFloat.abs x.

End math.

(** Go's [a > b] on [float64]. *)
Definition fgt (a b : float) : bool := PrimFloat.ltb b a.

(** [time.Time] as nanoseconds since the epoch, [time.Duration] as [int64]
    nanoseconds. *)
Definition Time := Z.
Definition Duration := Z.

Module time.

Definition Hour : Duration := 3600000000000%Z.
Definition maxDuration : Duration := (2 ^ 63 - 1)%Z.
Definition minDuration : Duration := (- 2 ^ 63)%Z.

(** [t.Sub(u)]: the difference, saturated to the range of [Duration]. *)
Definition Sub (t u : Time) : Duration :=
  let d := (t - u)%Z in
  if (maxDuration <? d)%Z then maxDuration
  else if (d <? minDuration)%Z then minDuration
  else d.

(** [t.UnixNano()]: an [int64], wrapping outside its range. *)
Definition UnixNano (t : Time) : Z :=
  ((t + 2 ^ 63) mod 2 ^ 64 - 2 ^ 63)%Z.

End time.

Definition error := string.

(** A nil pointer. *)
Definition isNil {A : Type} (p : option A) : bool :=
  match p with
  | None => true
  | Some _ => false
  end.

(** ** Package [interfaces] *)

Module Order.
Record t := {
  ID : string;
  Symbol : string;
  Qty : float;
  Side : string;
  Type_ : string;
  TimeInForce : string;
  LimitPrice : option float;
  StopPrice : option float;
  Status : string;
  FilledQty : float;
  FilledAvgPrice : option float;
  SubmittedAt : Time;
  FilledAt : option Time;
  CanceledAt : option Time
}.
End Order.

Module OrderResult.
Record t := {
  OrderID : string;
  Status : string;
  Message : string
}.
End OrderResult.

Module Quote.
Record t := {
  Symbol : string;
  BidPrice : float;
  BidSize : Z;
  AskPrice : float;
  AskSize : Z;
  Timestamp : Time
}.
End Quote.

(** ** Package [services]: the data model *)

Record PartialExitConfig := {
  Enabled : bool;
  Percent : float;
  TargetPercent : float;
  TargetPrice : float
}.

Record ManagedPosition := {
  ID : string;
  Symbol : string;
  Side : string;
  Strategy : string;
  Quantity : float;
  EntryPrice : float;
  EntryOrderID : string;
  EntryOrderType : string;
  AllocationDollars : float;
  StopLossPrice : float;
  StopLossPercent : float;
  StopLossOrderID : string;
  TrailingStop : bool;
  TrailingPercent : float;
  TakeProfitPrice : float;
  TakeProfitPercent : float;
  TakeProfitOrderID : string;
  PartialExit : option PartialExitConfig;
  PartialExitOrders : list string;
  Status : string;
  CurrentPrice : float;
  UnrealizedPL : float;
  UnrealizedPLPC : float;
  RemainingQty : float;
  CreatedAt : Time;
  UpdatedAt : Time;
  ClosedAt : option Time;
  Notes : string;
  Tags : list string
}.

(** Field assignments through the [*ManagedPosition] pointer: one setter per
    field that the engine writes after the record is built. *)

Definition set_EntryPrice (v : float) (p : ManagedPosition) : ManagedPosition :=
  {| ID := ID p; Symbol := Symbol p; Side := Side p; Strategy := Strategy p;
     Quantity := Quantity p; EntryPrice := v;
     EntryOrderID := EntryOrderID p; EntryOrderType := EntryOrderType p;
     AllocationDollars := AllocationDollars p;
     StopLossPrice := StopLossPrice p; StopLossPercent := StopLossPercent p;
     StopLossOrderID := StopLossOrderID p; TrailingStop := TrailingStop p;
     TrailingPercent := TrailingPercent p;
     TakeProfitPrice := TakeProfitPrice p;
     TakeProfitPercent := TakeProfitPercent p;
     TakeProfitOrderID := TakeProfitOrderID p; PartialExit := PartialExit p;
     PartialExitOrders := PartialExitOrders p; Status := Status p;
     CurrentPrice := CurrentPrice p; UnrealizedPL := UnrealizedPL p;
     UnrealizedPLPC := UnrealizedPLPC p; RemainingQty := RemainingQty p;
     CreatedAt := CreatedAt p; UpdatedAt := UpdatedAt p;
     ClosedAt := ClosedAt p; Notes := Notes p; Tags := Tags p |}.

Definition set_EntryOrderID (v : string) (p : ManagedPosition) : ManagedPosition :=
  {| ID := ID p; Symbol := Symbol p; Side := Side p; Strategy := Strategy p;
     Quantity := Quantity p; EntryPrice := EntryPrice p; EntryOrderID := v;
     EntryOrderType := EntryOrderType p;
     AllocationDollars := AllocationDollars p;
     StopLossPrice := StopLossPrice p; StopLossPercent := StopLossPercent p;
     StopLossOrderID := StopLossOrderID p; TrailingStop := TrailingStop p;
     TrailingPercent := TrailingPercent p;
     TakeProfitPrice := TakeProfitPrice p;
     TakeProfitPercent := TakeProfitPercent p;
     TakeProfitOrderID := TakeProfitOrderID p; PartialExit := PartialExit p;
     PartialExitOrders := PartialExitOrders p; Status := Status p;
     CurrentPrice := CurrentPrice p; UnrealizedPL := UnrealizedPL p;
     UnrealizedPLPC := UnrealizedPLPC p; RemainingQty := RemainingQty p;
     CreatedAt := CreatedAt p; UpdatedAt := UpdatedAt p;
     ClosedAt := ClosedAt p; Notes := Notes p; Tags := Tags p |}.

Definition set_StopLossPrice (v : float) (p : ManagedPosition) : ManagedPosition :=
  {| ID := ID p; Symbol := Symbol p; Side := Side p; Strategy := Strategy p;
     Quantity := Quantity p; EntryPrice := EntryPrice p;
     EntryOrderID := EntryOrderID p; EntryOrderType := EntryOrderType p;
     AllocationDollars := AllocationDollars p; StopLossPrice := v;
     StopLossPercent := StopLossPercent p;
     StopLossOrderID := StopLossOrderID p; TrailingStop := TrailingStop p;
     TrailingPercent := TrailingPercent p;
     TakeProfitPrice := TakeProfitPrice p;
     TakeProfitPercent := TakeProfitPercent p;
     TakeProfitOrderID := TakeProfitOrderID p; PartialExit := PartialExit p;
     PartialExitOrders := PartialExitOrders p; Status := Status p;
     CurrentPrice := CurrentPrice p; UnrealizedPL := UnrealizedPL p;
     UnrealizedPLPC := UnrealizedPLPC p; RemainingQty := RemainingQty p;
     CreatedAt := CreatedAt p; UpdatedAt := UpdatedAt p;
     ClosedAt := ClosedAt p; Notes := Notes p; Tags := Tags p |}.

Definition set_StopLossOrderID (v : string) (p : ManagedPosition) : ManagedPosition :=
  {| ID := ID p; Symbol := Symbol p; Side := Side p; Strategy := Strategy p;
     Quantity := Quantity p; EntryPrice := EntryPrice p;
     EntryOrderID := EntryOrderID p; EntryOrderType := EntryOrderType p;
     AllocationDollars := AllocationDollars p;
     StopLossPrice := StopLossPrice p; StopLossPercent := StopLossPercent p;
     StopLossOrderID := v; TrailingStop := TrailingStop p;
     TrailingPercent := TrailingPercent p;
     TakeProfitPrice := TakeProfitPrice p;
     TakeProfitPercent := TakeProfitPercent p;
     TakeProfitOrderID := TakeProfitOrderID p; PartialExit := PartialExit p;
     PartialExitOrders := PartialExitOrders p; Status := Status p;
     CurrentPrice := CurrentPrice p; UnrealizedPL := UnrealizedPL p;
     UnrealizedPLPC := UnrealizedPLPC p; RemainingQty := RemainingQty p;
     CreatedAt := CreatedAt p; UpdatedAt := UpdatedAt p;
     ClosedAt := ClosedAt p; Notes := Notes p; Tags := Tags p |}.

Definition set_TakeProfitOrderID (v : string) (p : ManagedPosition) : ManagedPosition :=
  {| ID := ID p; Symbol := Symbol p; Side := Side p; Strategy := Strategy p;
     Quantity := Quantity p; EntryPrice := EntryPrice p;
     EntryOrderID := EntryOrderID p; EntryOrderType := EntryOrderType p;
     AllocationDollars := AllocationDollars p;
     StopLossPrice := StopLossPrice p; StopLossPercent := StopLossPercent p;
     StopLossOrderID := StopLossOrderID p; TrailingStop := TrailingStop p;
     TrailingPercent := TrailingPercent p;
     TakeProfitPrice := TakeProfitPrice p;
     TakeProfitPercent := TakeProfitPercent p; TakeProfitOrderID := v;
     PartialExit := PartialExit p; PartialExitOrders := PartialExitOrders p;
     Status := Status p; CurrentPrice := CurrentPrice p;
     UnrealizedPL := UnrealizedPL p; UnrealizedPLPC := UnrealizedPLPC p;
     RemainingQty := RemainingQty p; CreatedAt := CreatedAt p;
     UpdatedAt := UpdatedAt p; ClosedAt := ClosedAt p; Notes := Notes p;
     Tags := Tags p |}.

Definition set_PartialExitOrders (v : list string) (p : ManagedPosition) : ManagedPosition :=
  {| ID := ID p; Symbol := Symbol p; Side := Side p; Strategy := Strategy p;
     Quantity := Quantity p; EntryPrice := EntryPrice p;
     EntryOrderID := EntryOrderID p; EntryOrderType := EntryOrderType p;
     AllocationDollars := AllocationDollars p;
     StopLossPrice := StopLossPrice p; StopLossPercent := StopLossPercent p;
     StopLossOrderID := StopLossOrderID p; TrailingStop := TrailingStop p;
     TrailingPercent := TrailingPercent p;
     TakeProfitPrice := TakeProfitPrice p;
     TakeProfitPercent := TakeProfitPercent p;
     TakeProfitOrderID := TakeProfitOrderID p; PartialExit := PartialExit p;
     PartialExitOrders := v; Status := Status p;
     CurrentPrice := CurrentPrice p; UnrealizedPL := UnrealizedPL p;
     UnrealizedPLPC := UnrealizedPLPC p; RemainingQty := RemainingQty p;
     CreatedAt := CreatedAt p; UpdatedAt := UpdatedAt p;
     ClosedAt := ClosedAt p; Notes := Notes p; Tags := Tags p |}.

Definition set_Status (v : string) (p : ManagedPosition) : ManagedPosition :=
  {| ID := ID p; Symbol := Symbol p; Side := Side p; Strategy := Strategy p;
     Quantity := Quantity p; EntryPrice := EntryPrice p;
     EntryOrderID := EntryOrderID p; EntryOrderType := EntryOrderType p;
     AllocationDollars := AllocationDollars p;
     StopLossPrice := StopLossPrice p; StopLossPercent := StopLossPercent p;
     StopLossOrderID := StopLossOrderID p; TrailingStop := TrailingStop p;
     TrailingPercent := TrailingPercent p;
     TakeProfitPrice := TakeProfitPrice p;
     TakeProfitPercent := TakeProfitPercent p;
     TakeProfitOrderID := TakeProfitOrderID p; PartialExit := PartialExit p;
     PartialExitOrders := PartialExitOrders p; Status := v;
     CurrentPrice := CurrentPrice p; UnrealizedPL := UnrealizedPL p;
     UnrealizedPLPC := UnrealizedPLPC p; RemainingQty := RemainingQty p;
     CreatedAt := CreatedAt p; UpdatedAt := UpdatedAt p;
     ClosedAt := ClosedAt p; Notes := Notes p; Tags := Tags p |}.

Definition set_CurrentPrice (v : float) (p : ManagedPosition) : ManagedPosition :=
  {| ID := ID p; Symbol := Symbol p; Side := Side p; Strategy := Strategy p;
     Quantity := Quantity p; EntryPrice := EntryPrice p;
     EntryOrderID := EntryOrderID p; EntryOrderType := EntryOrderType p;
     AllocationDollars := AllocationDollars p;
     StopLossPrice := StopLossPrice p; StopLossPercent := StopLossPercent p;
     StopLossOrderID := StopLossOrderID p; TrailingStop := TrailingStop p;
     TrailingPercent := TrailingPercent p;
     TakeProfitPrice := TakeProfitPrice p;
     TakeProfitPercent := TakeProfitPercent p;
     TakeProfitOrderID := TakeProfitOrderID p; PartialExit := PartialExit p;
     PartialExitOrders := PartialExitOrders p; Status := Status p;
     CurrentPrice := v; UnrealizedPL := UnrealizedPL p;
     UnrealizedPLPC := UnrealizedPLPC p; RemainingQty := RemainingQty p;
     CreatedAt := CreatedAt p; UpdatedAt := UpdatedAt p;
     ClosedAt := ClosedAt p; Notes := Notes p; Tags := Tags p |}.

Definition set_UnrealizedPL (v : float) (p : ManagedPosition) : ManagedPosition :=
  {| ID := ID p; Symbol := Symbol p; Side := Side p; Strategy := Strategy p;
     Quantity := Quantity p; EntryPrice := EntryPrice p;
     EntryOrderID := EntryOrderID p; EntryOrderType := EntryOrderType p;
     AllocationDollars := AllocationDollars p;
     StopLossPrice := StopLossPrice p; StopLossPercent := StopLossPercent p;
     StopLossOrderID := StopLossOrderID p; TrailingStop := TrailingStop p;
     TrailingPercent := TrailingPercent p;
     TakeProfitPrice := TakeProfitPrice p;
     TakeProfitPercent := TakeProfitPercent p;
     TakeProfitOrderID := TakeProfitOrderID p; PartialExit := PartialExit p;
     PartialExitOrders := PartialExitOrders p; Status := Status p;
     CurrentPrice := CurrentPrice p; UnrealizedPL := v;
     UnrealizedPLPC := UnrealizedPLPC p; RemainingQty := RemainingQty p;
     CreatedAt := CreatedAt p; UpdatedAt := UpdatedAt p;
     ClosedAt := ClosedAt p; Notes := Notes p; Tags := Tags p |}.

Definition set_UnrealizedPLPC (v : float) (p : ManagedPosition) : ManagedPosition :=
  {| ID := ID p; Symbol := Symbol p; Side := Side p; Strategy := Strategy p;
     Quantity := Quantity p; EntryPrice := EntryPrice p;
     EntryOrderID := EntryOrderID p; EntryOrderType := EntryOrderType p;
     AllocationDollars := AllocationDollars p;
     StopLossPrice := StopLossPrice p; StopLossPercent := StopLossPercent p;
     StopLossOrderID := StopLossOrderID p; TrailingStop := TrailingStop p;
     TrailingPercent := TrailingPercent p;
     TakeProfitPrice := TakeProfitPrice p;
     TakeProfitPercent := TakeProfitPercent p;
     TakeProfitOrderID := TakeProfitOrderID p; PartialExit := PartialExit p;
     PartialExitOrders := PartialExitOrders p; Status := Status p;
     CurrentPrice := CurrentPrice p; UnrealizedPL := UnrealizedPL p;
     UnrealizedPLPC := v; RemainingQty := RemainingQty p;
     CreatedAt := CreatedAt p; UpdatedAt := UpdatedAt p;
     ClosedAt := ClosedAt p; Notes := Notes p; Tags := Tags p |}.

Definition set_RemainingQty (v : float) (p : ManagedPosition) : ManagedPosition :=
  {| ID := ID p; Symbol := Symbol p; Side := Side p; Strategy := Strategy p;
     Quantity := Quantity p; EntryPrice := EntryPrice p;
     EntryOrderID := EntryOrderID p; EntryOrderType := EntryOrderType p;
     AllocationDollars := AllocationDollars p;
     StopLossPrice := StopLossPrice p; StopLossPercent := StopLossPercent p;
     StopLossOrderID := StopLossOrderID p; TrailingStop := TrailingStop p;
     TrailingPercent := TrailingPercent p;
     TakeProfitPrice := TakeProfitPrice p;
     TakeProfitPercent := TakeProfitPercent p;
     TakeProfitOrderID := TakeProfitOrderID p; PartialExit := PartialExit p;
     PartialExitOrders := PartialExitOrders p; Status := Status p;
     CurrentPrice := CurrentPrice p; UnrealizedPL := UnrealizedPL p;
     UnrealizedPLPC := UnrealizedPLPC p; RemainingQty := v;
     CreatedAt := CreatedAt p; UpdatedAt := UpdatedAt p;
     ClosedAt := ClosedAt p; Notes := Notes p; Tags := Tags p |}.

Definition set_UpdatedAt (v : Time) (p : ManagedPosition) : ManagedPosition :=
  {| ID := ID p; Symbol := Symbol p; Side := Side p; Strategy := Strategy p;
     Quantity := Quantity p; EntryPrice := EntryPrice p;
     EntryOrderID := EntryOrderID p; EntryOrderType := EntryOrderType p;
     AllocationDollars := AllocationDollars p;
     StopLossPrice := StopLossPrice p; StopLossPercent := StopLossPercent p;
     StopLossOrderID := StopLossOrderID p; TrailingStop := TrailingStop p;
     TrailingPercent := TrailingPercent p;
     TakeProfitPrice := TakeProfitPrice p;
     TakeProfitPercent := TakeProfitPercent p;
     TakeProfitOrderID := TakeProfitOrderID p; PartialExit := PartialExit p;
     PartialExitOrders := PartialExitOrders p; Status := Status p;
     CurrentPrice := CurrentPrice p; UnrealizedPL := UnrealizedPL p;
     UnrealizedPLPC := UnrealizedPLPC p; RemainingQty := RemainingQty p;
     CreatedAt := CreatedAt p; UpdatedAt := v; ClosedAt := ClosedAt p;
     Notes := Notes p; Tags := Tags p |}.

Definition set_ClosedAt (v : option Time) (p : ManagedPosition) : ManagedPosition :=
  {| ID := ID p; Symbol := Symbol p; Side := Side p; Strategy := Strategy p;
     Quantity := Quantity p; EntryPrice := EntryPrice p;
     EntryOrderID := EntryOrderID p; EntryOrderType := EntryOrderType p;
     AllocationDollars := AllocationDollars p;
     StopLossPrice := StopLossPrice p; StopLossPercent := StopLossPercent p;
     StopLossOrderID := StopLossOrderID p; TrailingStop := TrailingStop p;
     TrailingPercent := TrailingPercent p;
     TakeProfitPrice := TakeProfitPrice p;
     TakeProfitPercent := TakeProfitPercent p;
     TakeProfitOrderID := TakeProfitOrderID p; PartialExit := PartialExit p;
     PartialExitOrders := PartialExitOrders p; Status := Status p;
     CurrentPrice := CurrentPrice p; UnrealizedPL := UnrealizedPL p;
     UnrealizedPLPC := UnrealizedPLPC p; RemainingQty := RemainingQty p;
     CreatedAt := CreatedAt p; UpdatedAt := UpdatedAt p; ClosedAt := v;
     Notes := Notes p; Tags := Tags p |}.

Module Request.
(** [PlaceManagedPositionRequest]. *)
Record t := {
  Symbol : string;
  Side : string;
  Strategy : string;
  AllocationDollars : float;
  EntryStrategy : string;
  EntryPrice : option float;
  StopLossPrice : option float;
  StopLossPercent : option float;
  TrailingStop : bool;
  TrailingPercent : float;
  TakeProfitPrice : option float;
  TakeProfitPercent : option float;
  PartialExit : option PartialExitConfig;
  Notes : string;
  Tags : list string
}.
End Request.

(** ** The service interfaces

    Each method takes the outside world and returns it, possibly changed. *)

Record TradingService (W : Type) := {
  PlaceOrder : Order.t -> W -> (OrderResult.t + error) * W;
  CancelOrder : string -> W -> option error * W;
  GetOrder : string -> W -> (Order.t + error) * W
}.

Record DataService (W : Type) := {
  GetLatestQuote : string -> W -> (Quote.t + error) * W
}.

(** [database.LocalStorage.SaveManagedPosition]; the conversion
    [managedPositionToDB] copies the fields of the record, so the storage
    oracle receives the record itself. *)
Record LocalStorage (W : Type) := {
  SaveManagedPosition : ManagedPosition -> W -> option error * W
}.

(** [time.Now]. *)
Record Clock (W : Type) := {
  Now : W -> Time * W
}.

Arguments PlaceOrder {W}.
Arguments CancelOrder {W}.
Arguments GetOrder {W}.
Arguments GetLatestQuote {W}.
Arguments SaveManagedPosition {W}.
Arguments Now {W}.

(** What the engine did at its boundary, oldest call first. *)
Inductive Event :=
| EvPlaceOrder (order : Order.t)
| EvCancelOrder (orderID : string)
| EvGetOrder (orderID : string)
| EvGetLatestQuote (symbol : string)
| EvSaveManagedPosition (position : ManagedPosition).

(** ** The engine *)

Section Engine.

Context {W : Type}.

(** The [PositionManager] struct: its three services (with the clock) are
    fixed for the life of the engine; [positions] is the working set. *)
Record Services := {
  tradingService : TradingService W;
  dataService : DataService W;
  storageService : LocalStorage W;
  clock : Clock W
}.

Record PositionManager := {
  positions : gmap string ManagedPosition;
  world : W;
  trace : list Event
}.

(** A run either returns or panics.  No caller recovers a panic of the
    monitoring goroutine, so a panic ends the process: what survives is the
    outside world and the trace, and the working set carried by [Panic] is the
    one at the last completed write. *)
Inductive Outcome (A : Type) :=
| Ok (a : A) (pm : PositionManager)
| Panic (pm : PositionManager).
Arguments Ok {A}.
Arguments Panic {A}.

Definition M (A : Type) : Type := PositionManager -> Outcome A.

#[export] Instance M_ret : MRet M := fun A a pm => Ok a pm.
#[export] Instance M_bind : MBind M := fun A B f m pm =>
  match m pm with
  | Ok a pm' => f a pm'
  | Panic pm' => Panic pm'
  end.

Definition panic {A : Type} : M A := fun pm => Panic pm.

Variable svc : Services.

(** One call through an interface: run the oracle on the outside world and
    append the call to the trace. *)
Definition call {A : Type} (ev : Event) (f : W -> A * W) : M A := fun pm =>
  let '(a, w) := f (world pm) in
  Ok a {| positions := positions pm; world := w; trace := trace pm ++ [ev] |}.

Definition now : M Time := fun pm =>
  let '(t, w) := Now (clock svc) (world pm) in
  Ok t {| positions := positions pm; world := w; trace := trace pm |}.

Definition callPlaceOrder (order : Order.t) : M (OrderResult.t + error) :=
  call (EvPlaceOrder order) (PlaceOrder (tradingService svc) order).

Definition callCancelOrder (orderID : string) : M (option error) :=
  call (EvCancelOrder orderID) (CancelOrder (tradingService svc) orderID).

Definition callGetOrder (orderID : string) : M (Order.t + error) :=
  call (EvGetOrder orderID) (GetOrder (tradingService svc) orderID).

Definition callGetLatestQuote (symbol : string) : M (Quote.t + error) :=
  call (EvGetLatestQuote symbol) (GetLatestQuote (dataService svc) symbol).

(** [savePositionToDB]. *)
Definition savePositionToDB (position : ManagedPosition) : M (option error) :=
  call (EvSaveManagedPosition position)
       (SaveManagedPosition (storageService svc) position).

(** [pm.positions[id] = position]. *)
Definition storePosition (id : string) (position : ManagedPosition) : M unit :=
  fun pm =>
    Ok tt {| positions := <[id := position]> (positions pm);
             world := world pm; trace := trace pm |}.

Definition getPositions : M (gmap string ManagedPosition) :=
  fun pm => Ok (positions pm) pm.

(** *** Helper functions *)

Definition validateRequest (req : Request.t) : option error :=
  if negb (Request.Side req =? "buy") && negb (Request.Side req =? "sell")
  then Some "side must be 'buy' or 'sell'"
  else if (Request.EntryStrategy req =? "limit") && isNil (Request.EntryPrice req)
  then Some "entry_price required for limit orders"
  else if isNil (Request.StopLossPrice req) && isNil (Request.StopLossPercent req)
  then Some "either stop_loss_price or stop_loss_percent required"
  else if isNil (Request.TakeProfitPrice req) && isNil (Request.TakeProfitPercent req)
  then Some "either take_profit_price or take_profit_percent required"
  else None.

Definition getCurrentPrice (symbol : string) : M (float + error) :=
  r ← callGetLatestQuote symbol;
  match r with
  | inr err => mret (inr err)
  | inl quote =>
      if fgt (Quote.AskPrice quote) 0
      then mret (inl (Quote.AskPrice quote))
      else mret (inl (Quote.BidPrice quote))
  end.

Definition calculateQuantity (allocation price : float) : float :=
  math.Floor (allocation / price).

(** The percentage is dereferenced without a nil check. *)
Definition calculateStopLoss (entryPrice : float) (stopPrice stopPercent : option float)
    (side : string) : M float :=
  match stopPrice with
  | Some sp => mret sp
  | None =>
      match stopPercent with
      | None => panic
      | Some pct =>
          if side =? "buy" then mret (entryPrice * (1 - pct / 100))%float
          else mret (entryPrice * (1 + pct / 100))%float
      end
  end.

Definition calculateTakeProfit (entryPrice : float) (profitPrice profitPercent : option float)
    (side : string) : M float :=
  match profitPrice with
  | Some pp => mret pp
  | None =>
      match profitPercent with
      | None => panic
      | Some pct =>
          if side =? "buy" then mret (entryPrice * (1 + pct / 100))%float
          else mret (entryPrice * (1 - pct / 100))%float
      end
  end.

Definition calculatePartialExitPrice (entryPrice targetPercent : float) (side : string)
    : float :=
  if side =? "buy" then (entryPrice * (1 + targetPercent / 100))%float
  else (entryPrice * (1 - targetPercent / 100))%float.

Definition generatePositionID : M string :=
  t ← now;
  mret ("pos_" ++ pretty (time.UnixNano t)).

(** The side of an order that closes the position. *)
Definition exitSide (position : ManagedPosition) : string :=
  if Side position =? "sell" then "buy" else "sell".

(** *** Orders *)

(** The order built by [placeEntryOrder], submitted at [t]. *)
Definition entryOrder (position : ManagedPosition) (t : Time) : Order.t :=
  let orderType := if EntryOrderType position =? "limit" then "limit" else "market" in
  {| Order.ID := ""; Order.Symbol := Symbol position;
     Order.Qty := Quantity position; Order.Side := Side position;
     Order.Type_ := orderType; Order.TimeInForce := "gtc";
     Order.LimitPrice :=
       if orderType =? "limit" then Some (EntryPrice position) else None;
     Order.StopPrice := None; Order.Status := "pending";
     Order.FilledQty := 0; Order.FilledAvgPrice := None;
     Order.SubmittedAt := t; Order.FilledAt := None;
     Order.CanceledAt := None |}.

Definition placeEntryOrder (position : ManagedPosition)
    : M (ManagedPosition * option error) :=
  t ← now;
  r ← callPlaceOrder (entryOrder position t);
  match r with
  | inr err => mret (position, Some err)
  | inl result =>
      mret (set_Status "PENDING"
              (set_EntryOrderID (OrderResult.OrderID result) position), None)
  end.

(** The order built by [placeStopLossOrder]. *)
Definition stopLossOrder (position : ManagedPosition) (t : Time) : Order.t :=
  {| Order.ID := ""; Order.Symbol := Symbol position;
     Order.Qty := RemainingQty position; Order.Side := exitSide position;
     Order.Type_ := "stop"; Order.TimeInForce := "gtc";
     Order.LimitPrice := None;
     Order.StopPrice := Some (StopLossPrice position);
     Order.Status := "pending";
     Order.FilledQty := 0; Order.FilledAvgPrice := None;
     Order.SubmittedAt := t; Order.FilledAt := None;
     Order.CanceledAt := None |}.

Definition placeStopLossOrder (position : ManagedPosition)
    : M (ManagedPosition * option error) :=
  t ← now;
  r ← callPlaceOrder (stopLossOrder position t);
  match r with
  | inr err => mret (position, Some err)
  | inl result =>
      mret (set_StopLossOrderID (OrderResult.OrderID result) position, None)
  end.

(** The order built by [placeTakeProfitOrder]. *)
Definition takeProfitOrder (position : ManagedPosition) (t : Time) : Order.t :=
  {| Order.ID := ""; Order.Symbol := Symbol position;
     Order.Qty := RemainingQty position; Order.Side := exitSide position;
     Order.Type_ := "limit"; Order.TimeInForce := "gtc";
     Order.LimitPrice := Some (TakeProfitPrice position);
     Order.StopPrice := None; Order.Status := "pending";
     Order.FilledQty := 0; Order.FilledAvgPrice := None;
     Order.SubmittedAt := t; Order.FilledAt := None;
     Order.CanceledAt := None |}.

Definition placeTakeProfitOrder (position : ManagedPosition)
    : M (ManagedPosition * option error) :=
  t ← now;
  r ← callPlaceOrder (takeProfitOrder position t);
  match r with
  | inr err => mret (position, Some err)
  | inl result =>
      mret (set_TakeProfitOrderID (OrderResult.OrderID result) position, None)
  end.

(** The order built by [placePartialExitOrder]. *)
Definition partialExitOrder (position : ManagedPosition) (cfg : PartialExitConfig)
    (t : Time) : Order.t :=
  let partialQty := (Quantity position * (Percent cfg / 100))%float in
  {| Order.ID := ""; Order.Symbol := Symbol position;
     Order.Qty := partialQty; Order.Side := exitSide position;
     Order.Type_ := "limit"; Order.TimeInForce := "gtc";
     Order.LimitPrice := Some (TargetPrice cfg);
     Order.StopPrice := None; Order.Status := "pending";
     Order.FilledQty := 0; Order.FilledAvgPrice := None;
     Order.SubmittedAt := t; Order.FilledAt := None;
     Order.CanceledAt := None |}.

(** Called only when [PartialExit] is non-nil; a nil configuration would be
    dereferenced. *)
Definition placePartialExitOrder (position : ManagedPosition)
    : M (ManagedPosition * option error) :=
  match PartialExit position with
  | None => panic
  | Some cfg =>
      t ← now;
      r ← callPlaceOrder (partialExitOrder position cfg t);
      match r with
      | inr err => mret (position, Some err)
      | inl result =>
          mret (set_PartialExitOrders
                  (PartialExitOrders position ++ [OrderResult.OrderID result])
                  position, None)
      end
  end.

(** Errors of the three submissions are logged and dropped. *)
Definition placeRiskOrders (position : ManagedPosition) : M ManagedPosition :=
  '(position, _) ← placeStopLossOrder position;
  '(position, _) ← placeTakeProfitOrder position;
  match PartialExit position with
  | Some cfg =>
      if Enabled cfg
      then '(position, _) ← placePartialExitOrder position; mret position
      else mret position
  | None => mret position
  end.

(** *** The supervisor *)

(** [checkEntryOrder]: the status is written before the fill average is
    dereferenced. *)
Definition checkEntryOrder (position : ManagedPosition) : M ManagedPosition :=
  r ← callGetOrder (EntryOrderID position);
  match r with
  | inr _ => mret position
  | inl order =>
      if Order.Status order =? "filled"
      then
        let position := set_Status "ACTIVE" position in
        match Order.FilledAvgPrice order with
        | None => panic
        | Some fillAvg =>
            let position := set_EntryPrice fillAvg position in
            t ← now;
            let position := set_UpdatedAt t position in
            position ← placeRiskOrders position;
            _ ← savePositionToDB position;
            mret position
        end
      else mret position
  end.

(** The loop over [position.PartialExitOrders] in [manageRiskOrders]. *)
Fixpoint checkPartialExitOrders (orderIDs : list string) (position : ManagedPosition)
    : M ManagedPosition :=
  match orderIDs with
  | [] => mret position
  | orderID :: rest =>
      r ← callGetOrder orderID;
      match r with
      | inl order =>
          if Order.Status order =? "filled"
          then
            let position := set_Status "PARTIAL" position in
            let position :=
              set_RemainingQty (RemainingQty position - Order.FilledQty order)%float
                               position in
            _ ← savePositionToDB position;
            checkPartialExitOrders rest position
          else checkPartialExitOrders rest position
      | inr _ => checkPartialExitOrders rest position
      end
  end.

(** The part of [manageRiskOrders] after the stop-loss check. *)
Definition checkTakeProfitThenPartial (position : ManagedPosition) : M ManagedPosition :=
  let continue_ := checkPartialExitOrders (PartialExitOrders position) position in
  if negb (TakeProfitOrderID position =? "")
  then
    r ← callGetOrder (TakeProfitOrderID position);
    match r with
    | inl order =>
        if Order.Status order =? "filled"
        then
          let position := set_Status "CLOSED" position in
          t ← now;
          let position := set_ClosedAt (Some t) position in
          _ ← savePositionToDB position;
          mret position
        else continue_
    | inr _ => continue_
    end
  else continue_.

Definition manageRiskOrders (position : ManagedPosition) : M ManagedPosition :=
  if negb (StopLossOrderID position =? "")
  then
    r ← callGetOrder (StopLossOrderID position);
    match r with
    | inl order =>
        if Order.Status order =? "filled"
        then
          let position := set_Status "STOPPED_OUT" position in
          t ← now;
          let position := set_ClosedAt (Some t) position in
          _ ← savePositionToDB position;
          mret position
        else checkTakeProfitThenPartial position
    | inr _ => checkTakeProfitThenPartial position
    end
  else checkTakeProfitThenPartial position.

(** What both branches of [updateTrailingStop] do once the candidate is
    adopted: cancel the old stop order if there is one, write the price,
    submit a new stop order; every error is dropped. *)
Definition replaceStop (newStopPrice : float) (position : ManagedPosition)
    : M ManagedPosition :=
  _ ← (if negb (StopLossOrderID position =? "")
       then callCancelOrder (StopLossOrderID position)
       else mret None);
  let position := set_StopLossPrice newStopPrice position in
  '(position, _) ← placeStopLossOrder position;
  mret position.

Definition updateTrailingStop (position : ManagedPosition) : M ManagedPosition :=
  if Side position =? "buy"
  then
    let newStopPrice :=
      (CurrentPrice position * (1 - TrailingPercent position / 100))%float in
    if fgt newStopPrice (StopLossPrice position)
    then replaceStop newStopPrice position
    else mret position
  else
    let newStopPrice :=
      (CurrentPrice position * (1 + TrailingPercent position / 100))%float in
    if PrimFloat.ltb newStopPrice (StopLossPrice position)
    then replaceStop newStopPrice position
    else mret position.

Definition updatePositionPrice (position : ManagedPosition)
    : M (ManagedPosition * option error) :=
  r ← getCurrentPrice (Symbol position);
  match r with
  | inr err => mret (position, Some err)
  | inl currentPrice =>
      let position := set_CurrentPrice currentPrice position in
      let position :=
        if Side position =? "buy"
        then
          set_UnrealizedPLPC
            ((currentPrice - EntryPrice position) / EntryPrice position * 100)%float
            (set_UnrealizedPL
               ((currentPrice - EntryPrice position) * RemainingQty position)%float
               position)
        else
          set_UnrealizedPLPC
            ((EntryPrice position - currentPrice) / EntryPrice position * 100)%float
            (set_UnrealizedPL
               ((EntryPrice position - currentPrice) * RemainingQty position)%float
               position) in
      t ← now;
      mret (set_UpdatedAt t position, None)
  end.

(** The body of the loop of [checkPositions], for one position. *)
Definition checkPosition (position : ManagedPosition) : M ManagedPosition :=
  if (Status position =? "CLOSED") || (Status position =? "STOPPED_OUT")
  then mret position
  else if Status position =? "PENDING"
  then checkEntryOrder position
  else
    '(position, err) ← updatePositionPrice position;
    match err with
    | Some _ => mret position
    | None =>
        position ← (if Status position =? "ACTIVE"
                    then manageRiskOrders position
                    else mret position);
        if TrailingStop position
        then updateTrailingStop position
        else mret position
    end.

(** [checkPositions] visits a snapshot of the working set.  Go iterates a map
    in an unspecified order, so the order of the visit is a parameter; each
    visit reads the record through its pointer and leaves its writes in the
    same record. *)
Fixpoint checkPositionsIn (ids : list string) : M unit :=
  match ids with
  | [] => mret tt
  | id :: rest =>
      ps ← getPositions;
      match ps !! id with
      | None => checkPositionsIn rest
      | Some position =>
          position ← checkPosition position;
          _ ← storePosition id position;
          checkPositionsIn rest
      end
  end.

Definition checkPositions : M unit := fun pm =>
  checkPositionsIn ((map_to_list (positions pm)).*1) pm.

(** *** The gateway operations *)

Definition GetManagedPosition (positionID : string) : M (ManagedPosition + error) :=
  ps ← getPositions;
  match ps !! positionID with
  | Some position => mret (inl position)
  | None => mret (inr ("position not found: " ++ positionID))
  end.

(** A [PENDING] record created more than 24 hours before [now_]. *)
Definition stalePending (now_ : Time) (pos : ManagedPosition) : bool :=
  (Status pos =? "PENDING")
  && (24 * time.Hour <? time.Sub now_ (CreatedAt pos))%Z.

Definition listed (now_ : Time) (status : string) (pos : ManagedPosition) : bool :=
  negb (stalePending now_ pos)
  && ((status =? "") || (Status pos =? status)).

(** The result follows the iteration order of the map, which Go leaves
    unspecified: statements about it speak of membership. *)
Definition ListManagedPositions (status : string) : M (list ManagedPosition) :=
  ps ← getPositions;
  now_ ← now;
  mret (List.filter (listed now_ status) ((map_to_list ps).*2)).

Fixpoint cancelEach (orderIDs : list string) : M unit :=
  match orderIDs with
  | [] => mret tt
  | orderID :: rest => _ ← callCancelOrder orderID; cancelEach rest
  end.

Definition cancelIfSet (orderID : string) : M unit :=
  if negb (orderID =? "")
  then _ ← callCancelOrder orderID; mret tt
  else mret tt.

(** The market order by which [CloseManagedPosition] exits the position. *)
Definition exitOrder (position : ManagedPosition) (t : Time) : Order.t :=
  {| Order.ID := ""; Order.Symbol := Symbol position;
     Order.Qty := RemainingQty position;
     Order.Side := exitSide position;
     Order.Type_ := "market"; Order.TimeInForce := "day";
     Order.LimitPrice := None; Order.StopPrice := None;
     Order.Status := "pending";
     Order.FilledQty := 0; Order.FilledAvgPrice := None;
     Order.SubmittedAt := t; Order.FilledAt := None;
     Order.CanceledAt := None |}.

Definition CloseManagedPosition (positionID : string) : M (option error) :=
  ps ← getPositions;
  match ps !! positionID with
  | None => mret (Some ("position not found: " ++ positionID))
  | Some position =>
      _ ← cancelIfSet (EntryOrderID position);
      _ ← cancelIfSet (StopLossOrderID position);
      _ ← cancelIfSet (TakeProfitOrderID position);
      _ ← cancelEach (PartialExitOrders position);
      _ ← (if (Status position =? "ACTIVE") || (Status position =? "PARTIAL")
           then
             if fgt (RemainingQty position) 0
             then
               t ← now;
               _ ← callPlaceOrder (exitOrder position t); mret tt
             else mret tt
           else mret tt);
      let position := set_Status "CLOSED" position in
      t ← now;
      let position := set_ClosedAt (Some t) position in
      _ ← storePosition positionID position;
      _ ← savePositionToDB position;
      mret None
  end.

(** *** The planner *)

Definition PlaceManagedPosition (req : Request.t) : M (ManagedPosition + error) :=
  match validateRequest req with
  | Some err => mret (inr ("invalid request: " ++ err))
  | None =>
      r ← getCurrentPrice (Request.Symbol req);
      match r with
      | inr err => mret (inr ("failed to get current price: " ++ err))
      | inl currentPrice =>
          let entryPrice := default currentPrice (Request.EntryPrice req) in
          let quantity := calculateQuantity (Request.AllocationDollars req) entryPrice in
          stopLossPrice ← calculateStopLoss entryPrice (Request.StopLossPrice req)
                            (Request.StopLossPercent req) (Request.Side req);
          let stopLossPercent :=
            math.Abs ((stopLossPrice - entryPrice) / entryPrice * 100)%float in
          takeProfitPrice ← calculateTakeProfit entryPrice (Request.TakeProfitPrice req)
                              (Request.TakeProfitPercent req) (Request.Side req);
          let takeProfitPercent :=
            math.Abs ((takeProfitPrice - entryPrice) / entryPrice * 100)%float in
          let partialExit :=
            match Request.PartialExit req with
            | Some cfg =>
                if Enabled cfg
                then Some {| Enabled := Enabled cfg; Percent := Percent cfg;
                             TargetPercent := TargetPercent cfg;
                             TargetPrice :=
                               calculatePartialExitPrice entryPrice
                                 (TargetPercent cfg) (Request.Side req) |}
                else Some cfg
            | None => None
            end in
          id ← generatePositionID;
          createdAt ← now;
          updatedAt ← now;
          let position :=
            {| ID := id; Symbol := Request.Symbol req; Side := Request.Side req;
               Strategy := Request.Strategy req; Quantity := quantity;
               EntryPrice := entryPrice; EntryOrderID := "";
               EntryOrderType := Request.EntryStrategy req;
               AllocationDollars := Request.AllocationDollars req;
               StopLossPrice := stopLossPrice; StopLossPercent := stopLossPercent;
               StopLossOrderID := ""; TrailingStop := Request.TrailingStop req;
               TrailingPercent := Request.TrailingPercent req;
               TakeProfitPrice := takeProfitPrice;
               TakeProfitPercent := takeProfitPercent; TakeProfitOrderID := "";
               PartialExit := partialExit; PartialExitOrders := [];
               Status := "PENDING"; CurrentPrice := currentPrice;
               UnrealizedPL := 0; UnrealizedPLPC := 0; RemainingQty := quantity;
               CreatedAt := createdAt; UpdatedAt := updatedAt; ClosedAt := None;
               Notes := Request.Notes req; Tags := Request.Tags req |} in
          '(position, err) ← placeEntryOrder position;
          match err with
          | Some err => mret (inr ("failed to place entry order: " ++ err))
          | None =>
              _ ← storePosition (ID position) position;
              _ ← savePositionToDB position;
              mret (inl position)
          end
      end
  end.

End Engine.

Arguments Ok {W A}.
Arguments Panic {W A}.

(** ** Recovery: the database form of a record

    [gorm.Model] and [encoding/json] are libraries.  Of the first only the
    four fields of the struct matter; of the second, what [json.Marshal]
    writes for a list of strings and what [json.Unmarshal] leaves in the
    target slice (its error is dropped by the caller) are parameters. *)

Module gorm.
Record Model := {
  ID : Z;
  CreatedAt : Time;
  UpdatedAt : Time;
  DeletedAt : option Time
}.
End gorm.

(** The zero [time.Time]: the first instant of year 1. *)
Definition zeroTime : Time := (-62135596800 * 1000000000)%Z.

Module models.
Record DBManagedPosition := {
  Model : gorm.Model;
  PositionID : string;
  Symbol : string;
  Side : string;
  Strategy : string;
  Quantity : float;
  EntryPrice : float;
  EntryOrderID : string;
  EntryOrderType : string;
  AllocationDollars : float;
  StopLossPrice : float;
  StopLossPercent : float;
  StopLossOrderID : string;
  TrailingStop : bool;
  TrailingPercent : float;
  TakeProfitPrice : float;
  TakeProfitPercent : float;
  TakeProfitOrderID : string;
  PartialExitEnabled : bool;
  PartialExitPercent : float;
  PartialExitTargetPercent : float;
  PartialExitTargetPrice : float;
  PartialExitOrders : string;
  Status : string;
  CurrentPrice : float;
  UnrealizedPL : float;
  UnrealizedPLPC : float;
  RemainingQty : float;
  Notes : string;
  Tags : string;
  ClosedAt : option Time
}.
End models.

(** [database.LocalStorage.GetAllManagedPositions]. *)
Record PositionReader (W : Type) := {
  GetAllManagedPositions : string -> W -> (list models.DBManagedPosition + error) * W
}.
Arguments GetAllManagedPositions {W}.

Section Recovery.

Variable jsonMarshal : list string -> string.
Variable jsonUnmarshal : string -> list string.

(** [managedPositionToDB]: the embedded [gorm.Model] is left at its zero
    value, and the four columns of the partial exit stay zero without a
    configuration. *)
Definition managedPositionToDB (pos : ManagedPosition) : models.DBManagedPosition :=
  {| models.Model := {| gorm.ID := 0; gorm.CreatedAt := zeroTime;
                        gorm.UpdatedAt := zeroTime; gorm.DeletedAt := None |};
     models.PositionID := ID pos; models.Symbol := Symbol pos;
     models.Side := Side pos; models.Strategy := Strategy pos;
     models.Quantity := Quantity pos; models.EntryPrice := EntryPrice pos;
     models.EntryOrderID := EntryOrderID pos;
     models.EntryOrderType := EntryOrderType pos;
     models.AllocationDollars := AllocationDollars pos;
     models.StopLossPrice := StopLossPrice pos;
     models.StopLossPercent := StopLossPercent pos;
     models.StopLossOrderID := StopLossOrderID pos;
     models.TrailingStop := TrailingStop pos;
     models.TrailingPercent := TrailingPercent pos;
     models.TakeProfitPrice := TakeProfitPrice pos;
     models.TakeProfitPercent := TakeProfitPercent pos;
     models.TakeProfitOrderID := TakeProfitOrderID pos;
     models.PartialExitEnabled :=
       match PartialExit pos with Some cfg => Enabled cfg | None => false end;
     models.PartialExitPercent :=
       match PartialExit pos with Some cfg => Percent cfg | None => 0%float end;
     models.PartialExitTargetPercent :=
       match PartialExit pos with Some cfg => TargetPercent cfg | None => 0%float end;
     models.PartialExitTargetPrice :=
       match PartialExit pos with Some cfg => TargetPrice cfg | None => 0%float end;
     models.PartialExitOrders := jsonMarshal (PartialExitOrders pos);
     models.Status := Status pos; models.CurrentPrice := CurrentPrice pos;
     models.UnrealizedPL := UnrealizedPL pos;
     models.UnrealizedPLPC := UnrealizedPLPC pos;
     models.RemainingQty := RemainingQty pos;
     models.Notes := Notes pos; models.Tags := jsonMarshal (Tags pos);
     models.ClosedAt := ClosedAt pos |}.

(** [dbToManagedPosition]. *)
Definition dbToManagedPosition (dbPos : models.DBManagedPosition) : ManagedPosition :=
  let partialExitOrders :=
    if negb (models.PartialExitOrders dbPos =? "")
    then jsonUnmarshal (models.PartialExitOrders dbPos) else [] in
  let tags :=
    if negb (models.Tags dbPos =? "")
    then jsonUnmarshal (models.Tags dbPos) else [] in
  {| ID := models.PositionID dbPos; Symbol := models.Symbol dbPos;
     Side := models.Side dbPos; Strategy := models.Strategy dbPos;
     Quantity := models.Quantity dbPos; EntryPrice := models.EntryPrice dbPos;
     EntryOrderID := models.EntryOrderID dbPos;
     EntryOrderType := models.EntryOrderType dbPos;
     AllocationDollars := models.AllocationDollars dbPos;
     StopLossPrice := models.StopLossPrice dbPos;
     StopLossPercent := models.StopLossPercent dbPos;
     StopLossOrderID := models.StopLossOrderID dbPos;
     TrailingStop := models.TrailingStop dbPos;
     TrailingPercent := models.TrailingPercent dbPos;
     TakeProfitPrice := models.TakeProfitPrice dbPos;
     TakeProfitPercent := models.TakeProfitPercent dbPos;
     TakeProfitOrderID := models.TakeProfitOrderID dbPos;
     PartialExit :=
       if models.PartialExitEnabled dbPos
       then Some {| Enabled := models.PartialExitEnabled dbPos;
                    Percent := models.PartialExitPercent dbPos;
                    TargetPercent := models.PartialExitTargetPercent dbPos;
                    TargetPrice := models.PartialExitTargetPrice dbPos |}
       else None;
     PartialExitOrders := partialExitOrders;
     Status := models.Status dbPos; CurrentPrice := models.CurrentPrice dbPos;
     UnrealizedPL := models.UnrealizedPL dbPos;
     UnrealizedPLPC := models.UnrealizedPLPC dbPos;
     RemainingQty := models.RemainingQty dbPos;
     CreatedAt := gorm.CreatedAt (models.Model dbPos);
     UpdatedAt := gorm.UpdatedAt (models.Model dbPos);
     ClosedAt := models.ClosedAt dbPos;
     Notes := models.Notes dbPos; Tags := tags |}.

Context {W : Type}.
Variable reader : PositionReader W.

(** The loop of [loadPositionsFromDB] over the rows read. *)
Fixpoint loadEach (dbPositions : list models.DBManagedPosition) : @M W unit :=
  match dbPositions with
  | [] => mret tt
  | dbPos :: rest =>
      if (models.Status dbPos =? "CLOSED") || (models.Status dbPos =? "STOPPED_OUT")
      then loadEach rest
      else
        let position := dbToManagedPosition dbPos in
        _ ← storePosition (ID position) position;
        loadEach rest
  end.

(** [loadPositionsFromDB].  The read of the store is not a call of the
    three traced interfaces and leaves the trace alone. *)
Definition loadPositionsFromDB : @M W (option error) := fun pm =>
  let '(r, w) := GetAllManagedPositions reader "" (world pm) in
  let pm := {| positions := positions pm; world := w; trace := trace pm |} in
  match r with
  | inr err => Ok (Some err) pm
  | inl dbPositions => (_ ← loadEach dbPositions; mret None) pm
  end.

(** [NewPositionManager]: an empty working set, then the load, whose error is
    logged and dropped. *)
Definition NewPositionManager (w : W) : @PositionManager W :=
  match loadPositionsFromDB {| positions := ∅; world := w; trace := [] |} with
  | Ok _ pm => pm
  | Panic pm => pm
  end.

End Recovery.

(** ** Package [controllers]: the HTTP handlers of managed positions

    A handler answers with a status code and a JSON object.  The request
    parsing of the web framework is taken as done: a handler receives the path
    or query parameter it reads, and [HandlePlaceManagedPosition] the outcome
    of binding the body.  The encoding of the answer is the framework's too:
    [c.JSON] sets the status code and then encodes the object, and when the
    encoder refuses the object nothing is written, so the client receives the
    status code with an empty body. *)

Module http.
Definition StatusOK : Z := 200.
Definition StatusBadRequest : Z := 400.
Definition StatusNotFound : Z := 404.
Definition StatusInternalServerError : Z := 500.
End http.

(** The JSON objects the four handlers write. *)
Inductive Body :=
| ErrorBody (error_ : string)
| ErrorDetailsBody (error_ details : string)
| CreatedBody (message : string) (position : ManagedPosition)
| PositionBody (position : ManagedPosition)
| ListBody (count : nat) (positions_ : list ManagedPosition)
| MessageBody (message : string).

(** What the client receives; [None] is the empty body. *)
Record Response := {
  code : Z;
  body : option Body
}.

Section Controllers.

Context {W : Type}.
Variable svc : @Services W.

(** Whether [encoding/json] encodes a record.  It is a parameter: the encoder
    refuses a record when, for one, a number in it is not finite. *)
Variable encodes : ManagedPosition -> bool.

(** Objects made of strings and a count always encode; an object holding
    records encodes when each of them does. *)
Definition encodable (obj : Body) : bool :=
  match obj with
  | CreatedBody _ position | PositionBody position => encodes position
  | ListBody _ positions_ => forallb encodes positions_
  | ErrorBody _ | ErrorDetailsBody _ _ | MessageBody _ => true
  end.

(** [c.JSON]. *)
Definition JSON (code_ : Z) (obj : Body) : Response :=
  {| code := code_; body := if encodable obj then Some obj else None |}.

Definition HandlePlaceManagedPosition (bound : Request.t + error) : M Response :=
  match bound with
  | inr err =>
      mret (JSON http.StatusBadRequest (ErrorDetailsBody "Invalid request" err))
  | inl req =>
      r ← PlaceManagedPosition svc req;
      match r with
      | inr err =>
          mret (JSON http.StatusInternalServerError
                  (ErrorDetailsBody "Failed to place managed position" err))
      | inl position =>
          mret (JSON http.StatusOK
                  (CreatedBody "Managed position created successfully" position))
      end
  end.

Definition HandleGetManagedPosition (positionID : string) : @M W Response :=
  if positionID =? ""
  then mret (JSON http.StatusBadRequest (ErrorBody "position ID required"))
  else
    r ← GetManagedPosition positionID;
    match r with
    | inr err =>
        mret (JSON http.StatusNotFound (ErrorDetailsBody "Position not found" err))
    | inl position => mret (JSON http.StatusOK (PositionBody position))
    end.

Definition HandleListManagedPositions (status : string) : M Response :=
  positions_ ← ListManagedPositions svc status;
  mret (JSON http.StatusOK (ListBody (length positions_) positions_)).

Definition HandleCloseManagedPosition (positionID : string) : M Response :=
  if positionID =? ""
  then mret (JSON http.StatusBadRequest (ErrorBody "position ID required"))
  else
    err ← CloseManagedPosition svc positionID;
    match err with
    | Some err =>
        mret (JSON http.StatusInternalServerError
                (ErrorDetailsBody "Failed to close position" err))
    | None =>
        mret (JSON http.StatusOK (MessageBody "Position closed successfully"))
    end.

End Controllers.

(** ** A scriptable stub of the outside world

    The broker answers [GetOrder] from a table, hands out order ids from a
    counter, and can be told to refuse submissions; the quote feed replays a
    list of marks and stays on the last one; the database can be told to fail;
    the clock advances by one nanosecond per reading. *)

Module Stub.

Record World := {
  clockNow : Time;
  nextOrder : Z;
  orders : list (string * Order.t);
  marks : list float;
  placeFails : bool;
  saveFails : bool
}.

Definition lookupOrder (orderID : string) (tbl : list (string * Order.t))
    : option Order.t :=
  match List.find (fun e => fst e =? orderID) tbl with
  | Some e => Some (snd e)
  | None => None
  end.

Definition trading : TradingService World := {|
  PlaceOrder := fun _ w =>
    if placeFails w then (inr "rejected by broker", w)
    else (inl {| OrderResult.OrderID := "ord_" ++ pretty (nextOrder w);
                 OrderResult.Status := "accepted";
                 OrderResult.Message := "" |},
          {| clockNow := clockNow w; nextOrder := (nextOrder w + 1)%Z;
             orders := orders w; marks := marks w;
             placeFails := placeFails w; saveFails := saveFails w |});
  CancelOrder := fun _ w => (None, w);
  GetOrder := fun orderID w =>
    match lookupOrder orderID (orders w) with
    | Some o => (inl o, w)
    | None => (inr "order not found", w)
    end
|}.

Definition spyQuote (mark : float) : Quote.t :=
  {| Quote.Symbol := "SPY"; Quote.BidPrice := mark; Quote.BidSize := 1%Z;
     Quote.AskPrice := mark; Quote.AskSize := 1%Z; Quote.Timestamp := 0%Z |}.

Definition data : DataService World := {|
  GetLatestQuote := fun _ w =>
    match marks w with
    | [] => (inr "no quote", w)
    | [mark] => (inl (spyQuote mark), w)
    | mark :: later =>
        (inl (spyQuote mark),
         {| clockNow := clockNow w; nextOrder := nextOrder w;
            orders := orders w; marks := later;
            placeFails := placeFails w; saveFails := saveFails w |})
    end
|}.

Definition storage : LocalStorage World := {|
  SaveManagedPosition := fun _ w =>
    (if saveFails w then Some "database is locked" else None, w)
|}.

Definition wallClock : Clock World := {|
  Now := fun w =>
    (clockNow w,
     {| clockNow := (clockNow w + 1)%Z; nextOrder := nextOrder w;
        orders := orders w; marks := marks w;
        placeFails := placeFails w; saveFails := saveFails w |})
|}.

Definition svc : Services := {|
  tradingService := trading;
  dataService := data;
  storageService := storage;
  clock := wallClock
|}.

(** An order as the broker reports it. *)
Definition reported (status : string) (filledQty : float) (fillAvg : option float)
    : Order.t :=
  {| Order.ID := ""; Order.Symbol := "SPY"; Order.Qty := filledQty;
     Order.Side := "buy"; Order.Type_ := "market"; Order.TimeInForce := "gtc";
     Order.LimitPrice := None; Order.StopPrice := None; Order.Status := status;
     Order.FilledQty := filledQty; Order.FilledAvgPrice := fillAvg;
     Order.SubmittedAt := 0%Z; Order.FilledAt := None;
     Order.CanceledAt := None |}.

Definition mkWorld (mark : float) (tbl : list (string * Order.t))
    (placeFails_ saveFails_ : bool) : World :=
  {| clockNow := 1000%Z; nextOrder := 1%Z; orders := tbl; marks := [mark];
     placeFails := placeFails_; saveFails := saveFails_ |}.

(** An engine with an empty working set. *)
Definition start (w : World) : PositionManager :=
  {| positions := ∅; world := w; trace := [] |}.

(** An engine whose working set holds the given records. *)
Definition holding (ps : list ManagedPosition) (w : World) : PositionManager :=
  {| positions := list_to_map (List.map (fun p => (ID p, p)) ps);
     world := w; trace := [] |}.

(** Long SPY, market entry, stop 5 percent below and target 10 percent above
    the entry. *)
Definition longSPY (allocation : float) : Request.t :=
  {| Request.Symbol := "SPY"; Request.Side := "buy";
     Request.Strategy := "SWING_TRADE"; Request.AllocationDollars := allocation;
     Request.EntryStrategy := "market"; Request.EntryPrice := None;
     Request.StopLossPrice := None; Request.StopLossPercent := Some 5%float;
     Request.TrailingStop := false; Request.TrailingPercent := 0%float;
     Request.TakeProfitPrice := None; Request.TakeProfitPercent := Some 10%float;
     Request.PartialExit := None; Request.Notes := ""; Request.Tags := [] |}.

(** The same with a limit entry at the given price. *)
Definition limitSPY (allocation entryPrice : float) : Request.t :=
  {| Request.Symbol := "SPY"; Request.Side := "buy";
     Request.Strategy := "SWING_TRADE"; Request.AllocationDollars := allocation;
     Request.EntryStrategy := "limit"; Request.EntryPrice := Some entryPrice;
     Request.StopLossPrice := None; Request.StopLossPercent := Some 5%float;
     Request.TrailingStop := false; Request.TrailingPercent := 0%float;
     Request.TakeProfitPrice := None; Request.TakeProfitPercent := Some 10%float;
     Request.PartialExit := None; Request.Notes := ""; Request.Tags := [] |}.

(** Ten shares of SPY planned at 100 with the stop at 95 and the target at
    110, awaiting the fill of entry order [ord_1]. *)
Definition pending : ManagedPosition :=
  {| ID := "pos_1"; Symbol := "SPY"; Side := "buy"; Strategy := "SWING_TRADE";
     Quantity := 10; EntryPrice := 100; EntryOrderID := "ord_1";
     EntryOrderType := "market"; AllocationDollars := 1000;
     StopLossPrice := 95; StopLossPercent := 5; StopLossOrderID := "";
     TrailingStop := false; TrailingPercent := 0;
     TakeProfitPrice := 110; TakeProfitPercent := 10; TakeProfitOrderID := "";
     PartialExit := None; PartialExitOrders := [];
     Status := "PENDING"; CurrentPrice := 100; UnrealizedPL := 0;
     UnrealizedPLPC := 0; RemainingQty := 10;
     CreatedAt := 900%Z; UpdatedAt := 900%Z; ClosedAt := None;
     Notes := ""; Tags := [] |}.

(** The same position once filled at 100: stop order [ord_2], take-profit
    order [ord_3], and a partial exit of half the position at 105 as order
    [ord_4]. *)
Definition active : ManagedPosition :=
  {| ID := "pos_1"; Symbol := "SPY"; Side := "buy"; Strategy := "SWING_TRADE";
     Quantity := 10; EntryPrice := 100; EntryOrderID := "ord_1";
     EntryOrderType := "market"; AllocationDollars := 1000;
     StopLossPrice := 95; StopLossPercent := 5; StopLossOrderID := "ord_2";
     TrailingStop := false; TrailingPercent := 5;
     TakeProfitPrice := 110; TakeProfitPercent := 10;
     TakeProfitOrderID := "ord_3";
     PartialExit := Some {| Enabled := true; Percent := 50; TargetPercent := 5;
                            TargetPrice := 105 |};
     PartialExitOrders := ["ord_4"];
     Status := "ACTIVE"; CurrentPrice := 100; UnrealizedPL := 0;
     UnrealizedPLPC := 0; RemainingQty := 10;
     CreatedAt := 900%Z; UpdatedAt := 950%Z; ClosedAt := None;
     Notes := ""; Tags := [] |}.

(** A [PENDING] record created two days before the stub's clock starts. *)
Definition stale : ManagedPosition :=
  {| ID := "pos_0"; Symbol := "SPY"; Side := "buy"; Strategy := "SWING_TRADE";
     Quantity := 10; EntryPrice := 100; EntryOrderID := "ord_0";
     EntryOrderType := "limit"; AllocationDollars := 1000;
     StopLossPrice := 95; StopLossPercent := 5; StopLossOrderID := "";
     TrailingStop := false; TrailingPercent := 0;
     TakeProfitPrice := 110; TakeProfitPercent := 10; TakeProfitOrderID := "";
     PartialExit := None; PartialExitOrders := [];
     Status := "PENDING"; CurrentPrice := 100; UnrealizedPL := 0;
     UnrealizedPLPC := 0; RemainingQty := 10;
     CreatedAt := (1000 - 48 * time.Hour)%Z; UpdatedAt := (1000 - 48 * time.Hour)%Z;
     ClosedAt := None; Notes := ""; Tags := [] |}.

(** An active long position with a 5 percent trailing stop, initially at 95,
    and no partial exit. *)
Definition trailing : ManagedPosition :=
  {| ID := "pos_1"; Symbol := "SPY"; Side := "buy"; Strategy := "SWING_TRADE";
     Quantity := 10; EntryPrice := 100; EntryOrderID := "ord_1";
     EntryOrderType := "market"; AllocationDollars := 1000;
     StopLossPrice := 95; StopLossPercent := 5; StopLossOrderID := "ord_2";
     TrailingStop := true; TrailingPercent := 5;
     TakeProfitPrice := 150; TakeProfitPercent := 50;
     TakeProfitOrderID := "ord_3";
     PartialExit := None; PartialExitOrders := [];
     Status := "ACTIVE"; CurrentPrice := 100; UnrealizedPL := 0;
     UnrealizedPLPC := 0; RemainingQty := 10;
     CreatedAt := 900%Z; UpdatedAt := 950%Z; ClosedAt := None;
     Notes := ""; Tags := [] |}.

(** Worlds for the scenarios: what the broker reports and what fails. *)
Definition quiet : World := mkWorld 100 [] false false.

Definition databaseDown : World := mkWorld 100 [] false true.

Definition entryCanceled : World :=
  mkWorld 100 [("ord_1", reported "canceled" 0 None)] false false.

Definition entryFilledAt110 : World :=
  mkWorld 100 [("ord_1", reported "filled" 10 (Some 110%float))] false false.

Definition entryFilledNoAverage : World :=
  mkWorld 100 [("ord_1", reported "filled" 10 None)] false false.

Definition stopAndTakeFilled : World :=
  mkWorld 100 [("ord_2", reported "filled" 10 (Some 95%float));
               ("ord_3", reported "filled" 10 (Some 110%float));
               ("ord_4", reported "accepted" 0 None)] false false.

Definition partialFilled : World :=
  mkWorld 105 [("ord_2", reported "accepted" 0 None);
               ("ord_3", reported "accepted" 0 None);
               ("ord_4", reported "filled" 5 (Some 105%float))] false false.

(** Marks 102, 110, 108, 105, 111 on successive passes; both protective
    orders stay open. *)
Definition markTrajectory : World :=
  {| clockNow := 1000%Z; nextOrder := 4%Z;
     orders := [("ord_2", reported "accepted" 0 None);
                ("ord_3", reported "accepted" 0 None)];
     marks := [102; 110; 108; 105; 111]%float;
     placeFails := false; saveFails := false |}.

(** The stop order is reported filled while the feed still quotes 120. *)
Definition stopFilledMarkAbove : World :=
  mkWorld 120 [("ord_2", reported "filled" 10 (Some 95%float))] false false.

End Stub.

(** A stub of the store for recovery, and a toy codec for lists of strings:
    a mark, then every element followed by a semicolon. *)
Module StubStore.

Definition marshal (l : list string) : string :=
  "#" ++ String.concat "" (List.map (fun x => x ++ ";") l).

Fixpoint terminated (s cur : string) : list string :=
  match s with
  | EmptyString => []
  | String c rest =>
      if String c "" =? ";" then cur :: terminated rest ""
      else terminated rest (cur ++ String c "")
  end.

Definition unmarshal (s : string) : list string :=
  match s with
  | EmptyString => []
  | String _ rest => terminated rest ""
  end.

(** The store answers with the given rows, or fails. *)
Definition reader (rows : list models.DBManagedPosition) (fails : bool)
    : PositionReader Stub.World :=
  {| GetAllManagedPositions := fun _ w =>
       (if fails then inr "failed to get managed positions: database is locked"
        else inl rows, w) |}.

(** The rows of the active position, of the same position stopped out, and
    of the stale pending one. *)
Definition rows : list models.DBManagedPosition :=
  [managedPositionToDB marshal Stub.active;
   managedPositionToDB marshal
     (set_Status "STOPPED_OUT" (Stub.trailing));
   managedPositionToDB marshal Stub.stale].

(** A request without a stop. *)
Definition noStop : Request.t :=
  {| Request.Symbol := "SPY"; Request.Side := "buy";
     Request.Strategy := "SWING_TRADE"; Request.AllocationDollars := 1000;
     Request.EntryStrategy := "market"; Request.EntryPrice := None;
     Request.StopLossPrice := None; Request.StopLossPercent := None;
     Request.TrailingStop := false; Request.TrailingPercent := 0%float;
     Request.TakeProfitPrice := None; Request.TakeProfitPercent := Some 10%float;
     Request.PartialExit := None; Request.Notes := ""; Request.Tags := [] |}.

(** The outcome of opening ten shares of SPY on the quiet stub, the record it
    created and the state it left. *)
Definition placedOutcome : @Outcome Stub.World (ManagedPosition + error) :=
  Eval vm_compute in
    PlaceManagedPosition Stub.svc (Stub.longSPY 1000) (Stub.start Stub.quiet).

Definition placedRecord : ManagedPosition :=
  match placedOutcome with
  | Ok (inl p) _ => p
  | _ => Stub.pending
  end.

Definition placedState : @PositionManager Stub.World :=
  match placedOutcome with
  | Ok _ pm => pm
  | Panic pm => pm
  end.

(** A world whose quote feed has nothing to give. *)
Definition noQuote : Stub.World :=
  {| Stub.clockNow := 1000%Z; Stub.nextOrder := 1%Z; Stub.orders := [];
     Stub.marks := []; Stub.placeFails := false; Stub.saveFails := false |}.

(** The stop is still open and the take-profit is reported filled. *)
Definition takeProfitFilled : Stub.World :=
  Stub.mkWorld 110 [("ord_2", Stub.reported "accepted" 0 None);
                    ("ord_3", Stub.reported "filled" 10 (Some 110%float))]
               false false.

End StubStore.

(** The record that a planner run created, if it did. *)
Definition created {W : Type} (o : @Outcome W (ManagedPosition + error))
    : option ManagedPosition :=
  match o with
  | Ok (inl position) _ => Some position
  | _ => None
  end.

Local Open Scope list_scope.

(** ** Reading outcomes *)

Definition final {W A : Type} (o : @Outcome W A) : PositionManager :=
  match o with
  | Ok _ pm => pm
  | Panic pm => pm
  end.

Definition returned {W A : Type} (o : @Outcome W A) : option A :=
  match o with
  | Ok a _ => Some a
  | Panic _ => None
  end.

(** Unfolding the monad down to the oracles. *)
Ltac unfold_monad :=
  unfold mbind, M_bind, mret, M_ret, panic, callPlaceOrder, callCancelOrder,
    callGetOrder, callGetLatestQuote, savePositionToDB, storePosition,
    getPositions, call, now in *.

(** ** Vocabulary of the statements *)

(** The state after a traced call that answered with world [w]. *)
Definition after {W : Type} (pm : @PositionManager W) (w : W) (evs : list Event)
    : PositionManager :=
  {| positions := positions pm; world := w; trace := trace pm ++ evs |}.

(** *** A small program logic

    [satisfies P R Q m]: from every state, [m] leaves the working set alone,
    makes only calls that pass [P], and either returns a value in [Q] or, when
    [R] allows it, panics. *)

Definition extends {W : Type} (P : Event -> bool) (pm pm' : @PositionManager W)
    : Prop :=
  positions pm' = positions pm
  /\ exists evs, trace pm' = trace pm ++ evs /\ forallb P evs = true.

Definition satisfies {W A : Type} (P : Event -> bool) (R : Prop) (Q : A -> Prop)
    (m : @M W A) : Prop :=
  forall pm,
    match m pm with
    | Ok a pm' => extends P pm pm' /\ Q a
    | Panic pm' => extends P pm pm' /\ R
    end.

(** Kinds of calls. *)
Definition anyCall (ev : Event) : bool := true.

Definition pollOrSave (ev : Event) : bool :=
  match ev with
  | EvGetOrder _ | EvSaveManagedPosition _ => true
  | _ => false
  end.

Definition isPlaceOrder (ev : Event) : bool :=
  match ev with
  | EvPlaceOrder _ => true
  | _ => false
  end.

Definition isCancelOrder (ev : Event) : bool :=
  match ev with
  | EvCancelOrder _ => true
  | _ => false
  end.

(** The calls of the price refresh and of the trailing update: no order is
    polled and nothing is saved. *)
Definition quoteCancelOrPlace (ev : Event) : bool :=
  match ev with
  | EvGetLatestQuote _ | EvCancelOrder _ | EvPlaceOrder _ => true
  | _ => false
  end.

(** *** Frames *)

(** The fields that no order submission writes. *)
Definition sameTerms (p p' : ManagedPosition) : Prop :=
  Symbol p' = Symbol p /\ Side p' = Side p /\ Status p' = Status p
  /\ Quantity p' = Quantity p /\ RemainingQty p' = RemainingQty p
  /\ EntryPrice p' = EntryPrice p /\ StopLossPrice p' = StopLossPrice p
  /\ TakeProfitPrice p' = TakeProfitPrice p /\ PartialExit p' = PartialExit p
  /\ TrailingStop p' = TrailingStop p /\ TrailingPercent p' = TrailingPercent p
  /\ CurrentPrice p' = CurrentPrice p /\ EntryOrderID p' = EntryOrderID p.

(** The fields that the risk-order check never writes: the two protective
    prices, the ids of the protective orders, and the terms of the position. *)
Definition sameProtection (p p' : ManagedPosition) : Prop :=
  Symbol p' = Symbol p /\ Side p' = Side p /\ Quantity p' = Quantity p
  /\ EntryPrice p' = EntryPrice p
  /\ StopLossPrice p' = StopLossPrice p /\ StopLossOrderID p' = StopLossOrderID p
  /\ TakeProfitPrice p' = TakeProfitPrice p
  /\ TakeProfitOrderID p' = TakeProfitOrderID p
  /\ PartialExitOrders p' = PartialExitOrders p
  /\ TrailingStop p' = TrailingStop p /\ TrailingPercent p' = TrailingPercent p
  /\ CurrentPrice p' = CurrentPrice p.

(** The protective submissions that follow a fill. *)
Definition protectiveSubmissions (position : ManagedPosition) (t1 t2 t3 : Time)
    : list Event :=
  [EvPlaceOrder (stopLossOrder position t1);
   EvPlaceOrder (takeProfitOrder position t2)]
  ++ match PartialExit position with
     | Some cfg =>
         if Enabled cfg
         then [EvPlaceOrder (partialExitOrder position cfg t3)]
         else []
     | None => []
     end.

(** *** The order of [float64] values and the ratchet *)

(** [new] is [old] or strictly above it. *)
Definition notLower (old new : float) : Prop :=
  new = old \/ PrimFloat.ltb old new = true.

(** [new] is [old] or strictly below it. *)
Definition notHigher (old new : float) : Prop :=
  new = old \/ PrimFloat.ltb new old = true.

(** The direction in which the stop of a position may move: up for a long
    position (side [buy]), down for any other side. *)
Definition ratchet (side : string) (old new : float) : Prop :=
  if side =? "buy" then notLower old new else notHigher old new.

(** The terminal statuses. *)
Definition terminal (status : string) : Prop :=
  status = "CLOSED" \/ status = "STOPPED_OUT" \/ status = "FAILED".

(** The candidate stop of the trailing update: below the mark for a long
    position, above it otherwise. *)
Definition candidateStop (position : ManagedPosition) : float :=
  if Side position =? "buy"
  then (CurrentPrice position * (1 - TrailingPercent position / 100))%float
  else (CurrentPrice position * (1 + TrailingPercent position / 100))%float.

(** The candidate is strictly better than the current stop: strictly higher
    for a long position, strictly lower otherwise. *)
Definition strictlyBetter (position : ManagedPosition) : bool :=
  if Side position =? "buy"
  then PrimFloat.ltb (StopLossPrice position) (candidateStop position)
  else PrimFloat.ltb (candidateStop position) (StopLossPrice position).

(** [n] successive passes of the supervisor over one position. *)
Fixpoint superviseN {W : Type} (svc : @Services W) (n : nat)
    (position : ManagedPosition) : M ManagedPosition :=
  match n with
  | O => mret position
  | S k => position ← checkPosition svc position; superviseN svc k position
  end.

(** What one pass over one position guarantees, whatever the status. *)
Definition passKeeps (p p' : ManagedPosition) : Prop :=
  Side p' = Side p
  /\ ratchet (Side p) (StopLossPrice p) (StopLossPrice p')
  /\ (terminal (Status p) -> Status p' = Status p).

(** *** Scenarios *)

(** The status of a record of the working set. *)
Definition statusOf {W : Type} (pm : @PositionManager W) (id : string)
    : option string :=
  Status <$> positions pm !! id.

(** Planning, then one supervisor pass. *)
Definition planThenPass {W : Type} (svc : @Services W) (req : Request.t) : M unit :=
  _ ← PlaceManagedPosition svc req; checkPositions svc.

(** The order of calls that persist-before-submit would give: every
    submission has a save before it. *)
Definition persistedBeforeSubmitted (tr : list Event) : Prop :=
  forall i order,
    tr !! i = Some (EvPlaceOrder order) ->
    exists j position, j < i /\ tr !! j = Some (EvSaveManagedPosition position).

(** The price the planner takes from a quote: the ask when it is positive,
    the bid otherwise. *)
Definition quotedPrice (quote : Quote.t) : float :=
  if fgt (Quote.AskPrice quote) 0 then Quote.AskPrice quote
  else Quote.BidPrice quote.

(** [n] successive readings of the clock, and the world they leave. *)
Fixpoint clockReads {W : Type} (svc : @Services W) (n : nat) (w : W)
    : list Time * W :=
  match n with
  | O => ([], w)
  | S k =>
      let '(t, w1) := Now (clock svc) w in
      let '(ts, w2) := clockReads svc k w1 in
      (t :: ts, w2)
  end.

(** *** Further vocabulary: what a pass may write and may call *)

(** The fields that no supervisor pass and no manual close writes. *)
Definition plan (p : ManagedPosition) :=
  (ID p, Symbol p, Side p, Strategy p, Quantity p, EntryOrderID p,
   EntryOrderType p, AllocationDollars p, StopLossPercent p,
   (TrailingStop p, TrailingPercent p, TakeProfitPrice p, TakeProfitPercent p,
    PartialExit p, CreatedAt p, Notes p, Tags p)).

(** The moves of the status that one pass can make. *)
Definition passTransition (s s' : string) : Prop :=
  s' = s
  \/ (s = "PENDING" /\ s' = "ACTIVE")
  \/ (s = "ACTIVE" /\ (s' = "PARTIAL" \/ s' = "CLOSED" \/ s' = "STOPPED_OUT")).

Definition isQuote (ev : Event) : bool :=
  match ev with
  | EvGetLatestQuote _ => true
  | _ => false
  end.

Definition cancelOrPlace (ev : Event) : bool :=
  match ev with
  | EvCancelOrder _ | EvPlaceOrder _ => true
  | _ => false
  end.

Definition quotePollOrSave (ev : Event) : bool :=
  match ev with
  | EvGetLatestQuote _ | EvGetOrder _ | EvSaveManagedPosition _ => true
  | _ => false
  end.

Definition pollPlaceOrSave (ev : Event) : bool :=
  match ev with
  | EvGetOrder _ | EvPlaceOrder _ | EvSaveManagedPosition _ => true
  | _ => false
  end.


(** Every record of the working set is stored under its own id. *)
Definition wellKeyed {W : Type} (pm : @PositionManager W) : Prop :=
  forall id p, positions pm !! id = Some p -> ID p = id.

(** A status that [checkPositions] skips. *)
Definition skipped (status : string) : bool :=
  (status =? "CLOSED") || (status =? "STOPPED_OUT").

(** What [validateRequest] refuses. *)
Definition malformed (req : Request.t) : Prop :=
  (Request.Side req <> "buy" /\ Request.Side req <> "sell")
  \/ (Request.EntryStrategy req = "limit" /\ Request.EntryPrice req = None)
  \/ (Request.StopLossPrice req = None /\ Request.StopLossPercent req = None)
  \/ (Request.TakeProfitPrice req = None /\ Request.TakeProfitPercent req = None).



(** What a poll answered was not a fill: an error, or any other status. *)
Definition notFilled (r : Order.t + error) : Prop :=
  match r with
  | inl order => Order.Status order <> "filled"
  | inr _ => True
  end.

(** *** Recovery *)

(** A row as the store hands it back: the columns written by
    [managedPositionToDB], under the [gorm.Model] the store keeps for it. *)
Definition withModel (m : gorm.Model) (row : models.DBManagedPosition)
    : models.DBManagedPosition :=
  {| models.Model := m;
     models.PositionID := models.PositionID row; models.Symbol := models.Symbol row;
     models.Side := models.Side row; models.Strategy := models.Strategy row;
     models.Quantity := models.Quantity row;
     models.EntryPrice := models.EntryPrice row;
     models.EntryOrderID := models.EntryOrderID row;
     models.EntryOrderType := models.EntryOrderType row;
     models.AllocationDollars := models.AllocationDollars row;
     models.StopLossPrice := models.StopLossPrice row;
     models.StopLossPercent := models.StopLossPercent row;
     models.StopLossOrderID := models.StopLossOrderID row;
     models.TrailingStop := models.TrailingStop row;
     models.TrailingPercent := models.TrailingPercent row;
     models.TakeProfitPrice := models.TakeProfitPrice row;
     models.TakeProfitPercent := models.TakeProfitPercent row;
     models.TakeProfitOrderID := models.TakeProfitOrderID row;
     models.PartialExitEnabled := models.PartialExitEnabled row;
     models.PartialExitPercent := models.PartialExitPercent row;
     models.PartialExitTargetPercent := models.PartialExitTargetPercent row;
     models.PartialExitTargetPrice := models.PartialExitTargetPrice row;
     models.PartialExitOrders := models.PartialExitOrders row;
     models.Status := models.Status row;
     models.CurrentPrice := models.CurrentPrice row;
     models.UnrealizedPL := models.UnrealizedPL row;
     models.UnrealizedPLPC := models.UnrealizedPLPC row;
     models.RemainingQty := models.RemainingQty row;
     models.Notes := models.Notes row; models.Tags := models.Tags row;
     models.ClosedAt := models.ClosedAt row |}.

(** What survives a save and a reload of a record: everything but the two
    timestamps, which become those of the row, and a partial-exit
    configuration that is not enabled, which is dropped. *)
Definition reloaded (m : gorm.Model) (p : ManagedPosition) : ManagedPosition :=
  {| ID := ID p; Symbol := Symbol p; Side := Side p; Strategy := Strategy p;
     Quantity := Quantity p; EntryPrice := EntryPrice p;
     EntryOrderID := EntryOrderID p; EntryOrderType := EntryOrderType p;
     AllocationDollars := AllocationDollars p;
     StopLossPrice := StopLossPrice p; StopLossPercent := StopLossPercent p;
     StopLossOrderID := StopLossOrderID p; TrailingStop := TrailingStop p;
     TrailingPercent := TrailingPercent p;
     TakeProfitPrice := TakeProfitPrice p;
     TakeProfitPercent := TakeProfitPercent p;
     TakeProfitOrderID := TakeProfitOrderID p;
     PartialExit :=
       match PartialExit p with
       | Some cfg => if Enabled cfg then Some cfg else None
       | None => None
       end;
     PartialExitOrders := PartialExitOrders p; Status := Status p;
     CurrentPrice := CurrentPrice p; UnrealizedPL := UnrealizedPL p;
     UnrealizedPLPC := UnrealizedPLPC p; RemainingQty := RemainingQty p;
     CreatedAt := gorm.CreatedAt m; UpdatedAt := gorm.UpdatedAt m;
     ClosedAt := ClosedAt p; Notes := Notes p; Tags := Tags p |}.

(** ** The rules of the program logic *)

Section Logic.

Context {W : Type}.

Lemma extends_refl P (pm : @PositionManager W) : extends P pm pm.
Proof. split; [reflexivity|]. exists []. rewrite app_nil_r. auto. Qed.

Lemma extends_trans P (pm1 pm2 pm3 : @PositionManager W) :
  extends P pm1 pm2 -> extends P pm2 pm3 -> extends P pm1 pm3.
Proof.
  intros [Hp1 (e1 & He1 & Hf1)] [Hp2 (e2 & He2 & Hf2)]. split.
  - congruence.
  - exists (e1 ++ e2). rewrite He2, He1, <- app_assoc. split; [reflexivity|].
    rewrite forallb_app, Hf1, Hf2. reflexivity.
Qed.

Lemma sat_ret {A} P R (Q : A -> Prop) (a : A) : Q a -> satisfies (W:=W) P R Q (mret a).
Proof. intros Ha pm. cbn. split; [apply extends_refl | exact Ha]. Qed.

Lemma sat_panic {A} P (R : Prop) (Q : A -> Prop) : R -> satisfies (W:=W) P R Q panic.
Proof. intros Hr pm. cbn. split; [apply extends_refl | exact Hr]. Qed.

Lemma sat_bind {A B} P R (Q1 : A -> Prop) (Q2 : B -> Prop) (m : M A) (f : A -> M B) :
  satisfies (W:=W) P R Q1 m ->
  (forall a, Q1 a -> satisfies (W:=W) P R Q2 (f a)) ->
  satisfies (W:=W) P R Q2 (m ≫= f).
Proof.
  intros Hm Hf pm. specialize (Hm pm). unfold mbind, M_bind.
  destruct (m pm) as [a pm1|pm1]; [|exact Hm].
  destruct Hm as [He Ha]. specialize (Hf a Ha pm1).
  destruct (f a pm1) as [b pm2|pm2]; destruct Hf as [He2 Hb];
    (split; [eapply extends_trans; eassumption | assumption]).
Qed.

Lemma sat_weaken {A} P R (Q Q' : A -> Prop) (m : M A) :
  satisfies (W:=W) P R Q m -> (forall a, Q a -> Q' a) -> satisfies (W:=W) P R Q' m.
Proof.
  intros Hm Hq pm. specialize (Hm pm).
  destruct (m pm); destruct Hm; split; auto.
Qed.

Lemma sat_call {A} P R (Q : A -> Prop) (ev : Event) (f : W -> A * W) :
  P ev = true -> (forall a, Q a) -> satisfies (W:=W) P R Q (call ev f).
Proof.
  intros Hev Hq pm. unfold call. destruct (f (world pm)) as [a w].
  split; [|apply Hq]. split; [reflexivity|]. exists [ev]. cbn. rewrite Hev. auto.
Qed.

Lemma sat_now (svc : Services) P R (Q : Time -> Prop) :
  (forall t, Q t) -> satisfies (W:=W) P R Q (now svc).
Proof.
  intros Hq pm. unfold now. destruct (Now (clock svc) (world pm)) as [t w].
  split; [|apply Hq]. split; [reflexivity|]. exists []. cbn.
  rewrite app_nil_r. auto.
Qed.

Lemma sat_mono {A} (P P' : Event -> bool) (R R' : Prop) (Q : A -> Prop) (m : M A) :
  (forall ev, P ev = true -> P' ev = true) -> (R -> R') ->
  satisfies (W:=W) P R Q m -> satisfies (W:=W) P' R' Q m.
Proof.
  intros HP HR Hm pm. specialize (Hm pm).
  assert (Hext : forall pm', extends P pm pm' -> extends P' pm pm').
  { intros pm' [Hpos (evs & Htr & Hall)]. split; [exact Hpos|].
    exists evs. split; [exact Htr|].
    rewrite forallb_forall in *. auto. }
  destruct (m pm); destruct Hm; split; auto.
Qed.

End Logic.

(** One traced call, or one reading of the clock, followed by the rest. *)
Ltac sat_call_step :=
  unfold callGetOrder, callCancelOrder, callPlaceOrder, callGetLatestQuote,
    savePositionToDB;
  eapply sat_bind;
  [ apply sat_call with (Q := fun _ => True); [reflexivity | intros; exact I]
  | intros ? _ ].

Ltac sat_now_step :=
  eapply sat_bind;
  [ apply sat_now with (Q := fun _ => True); intros; exact I | intros ? _ ].

(** ** Protective orders *)

Section Protective.

Context {W : Type} (svc : @Services W).

Lemma sameTerms_refl p : sameTerms p p.
Proof. repeat split. Qed.

(** [placeRiskOrders] never panics; it submits the stop, then the take-profit,
    then the partial exit when one is configured and enabled, each built from
    the record's current prices and sizes, and writes nothing but order ids. *)
Lemma placeRiskOrders_run position pm :
  exists position' pm' t1 t2 t3,
    placeRiskOrders svc position pm = Ok position' pm'
    /\ positions pm' = positions pm
    /\ trace pm'
       = trace pm
         ++ [EvPlaceOrder (stopLossOrder position t1);
             EvPlaceOrder (takeProfitOrder position t2)]
         ++ match PartialExit position with
            | Some cfg =>
                if Enabled cfg
                then [EvPlaceOrder (partialExitOrder position cfg t3)]
                else []
            | None => []
            end
    /\ sameTerms position position'.
Proof.
  unfold placeRiskOrders, placeStopLossOrder, placeTakeProfitOrder,
    placePartialExitOrder.
  unfold_monad.
  destruct (Now (clock svc) (world pm)) as [t1 w1] eqn:Hn1. cbn.
  destruct (PlaceOrder (tradingService svc) (stopLossOrder position t1) w1)
    as [r1 w2] eqn:Hp1.
  cbn.
  destruct (Now (clock svc) w2) as [t2 w3] eqn:Hn2.
  destruct r1 as [res1|e1]; cbn; rewrite Hn2; cbn.
  all: match goal with
       | |- context [PlaceOrder ?ts ?o ?w] =>
           destruct (PlaceOrder ts o w) as [r2 w4] eqn:Hp2
       end; cbn.
  all: destruct (Now (clock svc) w4) as [t3 w5] eqn:Hn3.
  all: destruct r2 as [res2|e2]; cbn.
  all: destruct (PartialExit position) as [cfg|] eqn:Hpe; cbn;
       [destruct (Enabled cfg) eqn:Hen; cbn|].
  all: try rewrite Hpe; cbn; try rewrite Hn3; cbn.
  all: try match goal with
       | |- context [PlaceOrder ?ts ?o ?w] =>
           destruct (PlaceOrder ts o w) as [[res3|e3] w6] eqn:Hp3
       end; cbn.
  all: do 2 eexists; exists t1, t2, t3.
  all: split; [reflexivity|]; cbn.
  all: split; [reflexivity|].
  all: split; [rewrite <- ?app_assoc; reflexivity|].
  all: repeat split.
Qed.

End Protective.

(** ** The pending-entry handler *)

Section EntryOrder.

Context {W : Type} (svc : @Services W).

Lemma checkEntryOrder_filled_run position pm order w fillAvg :
  GetOrder (tradingService svc) (EntryOrderID position) (world pm) = (inl order, w) ->
  Order.Status order = "filled" ->
  Order.FilledAvgPrice order = Some fillAvg ->
  exists position' pm' t1 t2 t3,
    checkEntryOrder svc position pm = Ok position' pm'
    /\ positions pm' = positions pm
    /\ Status position' = "ACTIVE"
    /\ EntryPrice position' = fillAvg
    /\ StopLossPrice position' = StopLossPrice position
    /\ TakeProfitPrice position' = TakeProfitPrice position
    /\ PartialExit position' = PartialExit position
    /\ trace pm'
       = trace pm
         ++ [EvGetOrder (EntryOrderID position)]
         ++ protectiveSubmissions position t1 t2 t3
         ++ [EvSaveManagedPosition position'].
Proof.
  intros Hget Hst Havg. unfold checkEntryOrder. unfold_monad.
  rewrite Hget. cbn -[placeRiskOrders]. rewrite Hst, Havg. cbn -[placeRiskOrders].
  destruct (Now (clock svc) w) as [t w1] eqn:Hn.
  match goal with
  | |- context [placeRiskOrders svc ?p ?s] =>
      destruct (placeRiskOrders_run svc p s)
        as (p' & pm' & t1 & t2 & t3 & Hrun & Hpos & Htr & Hsame)
  end.
  rewrite Hrun.
  destruct (SaveManagedPosition (storageService svc) p' (world pm')) as [r w2] eqn:Hs.
  destruct Hsame as (_ & _ & Hstat & _ & _ & Hentry & Hstop & Htake & Hpe & _).
  exists p'. eexists. exists t1, t2, t3.
  split; [reflexivity|]. cbn in *.
  repeat split; try assumption.
  rewrite Htr. unfold protectiveSubmissions. cbn. rewrite <- !app_assoc. reflexivity.
Qed.

Lemma checkEntryOrder_not_filled_run position pm order w :
  GetOrder (tradingService svc) (EntryOrderID position) (world pm) = (inl order, w) ->
  Order.Status order <> "filled" ->
  checkEntryOrder svc position pm
  = Ok position (after pm w [EvGetOrder (EntryOrderID position)]).
Proof.
  intros Hget Hst. unfold checkEntryOrder. unfold_monad. rewrite Hget. cbn.
  destruct (String.eqb_spec (Order.Status order) "filled") as [E|_];
    [contradiction|reflexivity].
Qed.

Lemma checkPosition_pending position :
  Status position = "PENDING" ->
  checkPosition svc position = checkEntryOrder svc position.
Proof. intros H. unfold checkPosition. rewrite H. reflexivity. Qed.

(** C5, as the code has it.  When the broker reports the entry order of a
    [PENDING] position filled at [fillAvg], the pass sets [EntryPrice] to
    [fillAvg] and the status to [ACTIVE], and at once submits the stop, the
    take-profit and (when enabled) the partial exit, then calls the store's
    save with the record; that save is its last call.  The stop, take-profit
    and partial-exit prices are the planned ones: they are not recomputed
    from the fill. *)
Theorem checkPosition_entry_filled position pm order w fillAvg :
  Status position = "PENDING" ->
  GetOrder (tradingService svc) (EntryOrderID position) (world pm) = (inl order, w) ->
  Order.Status order = "filled" ->
  Order.FilledAvgPrice order = Some fillAvg ->
  exists position' pm' t1 t2 t3,
    checkPosition svc position pm = Ok position' pm'
    /\ Status position' = "ACTIVE"
    /\ EntryPrice position' = fillAvg
    /\ StopLossPrice position' = StopLossPrice position
    /\ TakeProfitPrice position' = TakeProfitPrice position
    /\ PartialExit position' = PartialExit position
    /\ trace pm'
       = trace pm
         ++ [EvGetOrder (EntryOrderID position)]
         ++ protectiveSubmissions position t1 t2 t3
         ++ [EvSaveManagedPosition position'].
Proof.
  intros Hpending Hget Hst Havg.
  rewrite (checkPosition_pending position Hpending).
  destruct (checkEntryOrder_filled_run position pm order w fillAvg Hget Hst Havg)
    as (p' & pm' & t1 & t2 & t3 & Hrun & _ & H).
  exists p', pm', t1, t2, t3. split; assumption.
Qed.

(** C6, as the code has it.  When the broker reports the entry order of a
    [PENDING] position in any status other than [filled], [canceled] and
    [rejected] included, the pass changes nothing in the record and persists
    nothing: its only call is the poll. *)
Theorem checkPosition_entry_not_filled position pm order w :
  Status position = "PENDING" ->
  GetOrder (tradingService svc) (EntryOrderID position) (world pm) = (inl order, w) ->
  Order.Status order <> "filled" ->
  checkPosition svc position pm
  = Ok position (after pm w [EvGetOrder (EntryOrderID position)]).
Proof.
  intros Hpending Hget Hst.
  rewrite (checkPosition_pending position Hpending).
  eapply checkEntryOrder_not_filled_run; eassumption.
Qed.

(** C10.  When the broker reports the entry order filled, [checkEntryOrder]
    panics exactly when the report carries no fill average: with a nil
    [FilledAvgPrice] the handler dereferences it right after the poll, and with
    a fill average present it returns. *)
Theorem checkEntryOrder_panics_iff_no_fill_average position pm order w :
  GetOrder (tradingService svc) (EntryOrderID position) (world pm) = (inl order, w) ->
  Order.Status order = "filled" ->
  (Order.FilledAvgPrice order = None
   <-> checkEntryOrder svc position pm
       = Panic (after pm w [EvGetOrder (EntryOrderID position)]))
  /\ (is_Some (Order.FilledAvgPrice order)
      <-> is_Some (returned (checkEntryOrder svc position pm))).
Proof.
  intros Hget Hst.
  destruct (Order.FilledAvgPrice order) as [fillAvg|] eqn:Havg.
  - destruct (checkEntryOrder_filled_run position pm order w fillAvg Hget Hst Havg)
      as (p' & pm' & t1 & t2 & t3 & Hrun & _).
    rewrite Hrun. cbn. split; split; intros H; try discriminate; eauto.
  - assert (Hrun : checkEntryOrder svc position pm
                   = Panic (after pm w [EvGetOrder (EntryOrderID position)])).
    { unfold checkEntryOrder. unfold_monad. rewrite Hget. cbn.
      rewrite Hst, Havg. reflexivity. }
    rewrite Hrun. cbn. split; split; intros H; auto; destruct H; discriminate.
Qed.

End EntryOrder.

(** ** The risk-order check *)

Section RiskOrders.

Context {W : Type} (svc : @Services W).

Ltac frame := unfold sameProtection in *; cbn; intuition congruence.

Lemma checkPartialExitOrders_sat orderIDs : forall p0 p,
  sameProtection p0 p ->
  satisfies pollOrSave False (sameProtection p0)
            (checkPartialExitOrders svc orderIDs p).
Proof.
  induction orderIDs as [|orderID rest IH]; intros p0 p Hp; cbn [checkPartialExitOrders].
  - apply sat_ret. exact Hp.
  - sat_call_step. destruct a as [order|err]; [|apply IH; exact Hp].
    destruct (Order.Status order =? "filled"); [|apply IH; exact Hp].
    sat_call_step. apply IH. frame.
Qed.

Lemma checkTakeProfitThenPartial_sat p :
  satisfies pollOrSave False (sameProtection p) (checkTakeProfitThenPartial svc p).
Proof.
  assert (Hrest : satisfies pollOrSave False (sameProtection p)
                    (checkPartialExitOrders svc (PartialExitOrders p) p)).
  { apply checkPartialExitOrders_sat. frame. }
  unfold checkTakeProfitThenPartial.
  destruct (negb (TakeProfitOrderID p =? "")); [|exact Hrest].
  sat_call_step. destruct a as [order|err]; [|exact Hrest].
  destruct (Order.Status order =? "filled"); [|exact Hrest].
  sat_now_step. sat_call_step. apply sat_ret. frame.
Qed.

Lemma manageRiskOrders_sat p :
  satisfies pollOrSave False (sameProtection p) (manageRiskOrders svc p).
Proof.
  pose proof (checkTakeProfitThenPartial_sat p) as Hrest.
  unfold manageRiskOrders.
  destruct (negb (StopLossOrderID p =? "")); [|exact Hrest].
  sat_call_step. destruct a as [order|err]; [|exact Hrest].
  destruct (Order.Status order =? "filled"); [|exact Hrest].
  sat_now_step. sat_call_step. apply sat_ret. frame.
Qed.

(** C4, as the code has it.  When the position has a stop order and the broker
    reports it filled, the risk-order check polls the stop first and stops
    there: the status becomes [STOPPED_OUT], the closing time is set, the
    store's save is called with the record, and the check returns that
    record whatever the save answers.  Its calls are exactly the poll of the
    stop and the call of the save; the take-profit is neither polled nor
    cancelled, whatever the broker would report for it, and no order is
    submitted. *)
Theorem manageRiskOrders_stop_filled position pm order w :
  StopLossOrderID position <> "" ->
  GetOrder (tradingService svc) (StopLossOrderID position) (world pm) = (inl order, w) ->
  Order.Status order = "filled" ->
  exists t w1 r w2,
    Now (clock svc) w = (t, w1)
    /\ let position' := set_ClosedAt (Some t) (set_Status "STOPPED_OUT" position) in
       SaveManagedPosition (storageService svc) position' w1 = (r, w2)
       /\ manageRiskOrders svc position pm
          = Ok position'
               (after pm w2 [EvGetOrder (StopLossOrderID position);
                             EvSaveManagedPosition position']).
Proof.
  intros Hid Hget Hst.
  destruct (Now (clock svc) w) as [t w1] eqn:Hn.
  destruct (SaveManagedPosition (storageService svc)
              (set_ClosedAt (Some t) (set_Status "STOPPED_OUT" position)) w1)
    as [r w2] eqn:Hs.
  exists t, w1, r, w2. split; [reflexivity|]. split; [exact Hs|].
  unfold manageRiskOrders.
  destruct (String.eqb_spec (StopLossOrderID position) "") as [E|_]; [contradiction|].
  cbn [negb]. unfold_monad. rewrite Hget. cbn. rewrite Hst. cbn.
  rewrite Hn. cbn. rewrite Hs. unfold after. cbn.
  rewrite <- app_assoc. reflexivity.
Qed.

End RiskOrders.

(** ** The order of [float64] values *)

Lemma SFcompare_Lt_trans x y z :
  SFcompare x y = Some Lt -> SFcompare y z = Some Lt -> SFcompare x z = Some Lt.
Proof.
  destruct x as [sx|sx| |sx mx ex], y as [sy|sy| |sy my ey], z as [sz|sz| |sz mz ez];
    cbn; try discriminate; try congruence;
    repeat match goal with s : bool |- _ => destruct s end;
    cbn; try discriminate; try congruence.
  all: fold (Pos.compare mx my); fold (Pos.compare my mz); fold (Pos.compare mx mz).
  all: destruct (Z.compare_spec ex ey), (Z.compare_spec ey ez), (Z.compare_spec ex ez);
    try discriminate; try lia; try reflexivity.
  all: destruct (Pos.compare_spec mx my), (Pos.compare_spec my mz),
         (Pos.compare_spec mx mz);
    cbn; try discriminate; try lia; try reflexivity.
Qed.

Lemma float_ltb_trans a b c :
  PrimFloat.ltb a b = true -> PrimFloat.ltb b c = true -> PrimFloat.ltb a c = true.
Proof.
  rewrite !FloatAxioms.ltb_spec. unfold SFltb.
  destruct (SFcompare (Prim2SF a) (Prim2SF b)) as [[]|] eqn:H1; try discriminate.
  destruct (SFcompare (Prim2SF b) (Prim2SF c)) as [[]|] eqn:H2; try discriminate.
  rewrite (SFcompare_Lt_trans _ _ _ H1 H2). reflexivity.
Qed.

Lemma ratchet_refl side x : ratchet side x x.
Proof. unfold ratchet. destruct (side =? "buy"); left; reflexivity. Qed.

Lemma ratchet_trans side x y z :
  ratchet side x y -> ratchet side y z -> ratchet side x z.
Proof.
  unfold ratchet, notLower, notHigher.
  destruct (side =? "buy"); intros [->|Hxy] [->|Hyz]; auto;
    right; eapply float_ltb_trans; eassumption.
Qed.

(** ** Supervisor passes *)

Section Passes.

Context {W : Type} (svc : @Services W).

Lemma forallb_anyCall (evs : list Event) : forallb anyCall evs = true.
Proof. induction evs; cbn; auto. Qed.

Ltac split_result :=
  match goal with
  | r : (_ + _)%type |- _ => destruct r
  end.

Lemma placeStopLossOrder_sat p :
  satisfies quoteCancelOrPlace False (fun r => sameTerms p (fst r))
            (placeStopLossOrder svc p).
Proof.
  unfold placeStopLossOrder. sat_now_step. sat_call_step.
  split_result; apply sat_ret; cbn; repeat split.
Qed.

Lemma placeRiskOrders_sat p :
  satisfies anyCall False (sameTerms p) (placeRiskOrders svc p).
Proof.
  intros pm.
  destruct (placeRiskOrders_run svc p pm)
    as (p' & pm' & t1 & t2 & t3 & Hrun & Hpos & Htr & Hsame).
  rewrite Hrun. split; [|exact Hsame]. split; [exact Hpos|].
  eexists. split; [exact Htr|]. apply forallb_anyCall.
Qed.

Lemma checkEntryOrder_sat p :
  satisfies anyCall True
    (fun p' => Side p' = Side p /\ StopLossPrice p' = StopLossPrice p)
    (checkEntryOrder svc p).
Proof.
  unfold checkEntryOrder. sat_call_step.
  split_result; [|apply sat_ret; auto].
  destruct (Order.Status _ =? "filled"); [|apply sat_ret; auto].
  destruct (Order.FilledAvgPrice _); [|apply sat_panic; exact I].
  sat_now_step.
  eapply sat_bind.
  - eapply sat_mono; [| |apply placeRiskOrders_sat]; [auto|tauto].
  - intros p' Hsame. sat_call_step. apply sat_ret.
    destruct Hsame as (_ & Hside & _ & _ & _ & _ & Hstop & _).
    cbn in *. auto.
Qed.

Lemma getCurrentPrice_sat symbol :
  satisfies quoteCancelOrPlace False (fun _ => True) (getCurrentPrice svc symbol).
Proof.
  unfold getCurrentPrice. sat_call_step.
  split_result; [|apply sat_ret; exact I].
  destruct (fgt _ _); apply sat_ret; exact I.
Qed.

Lemma updatePositionPrice_sat p :
  satisfies quoteCancelOrPlace False
    (fun r => Side (fst r) = Side p /\ Status (fst r) = Status p
              /\ StopLossPrice (fst r) = StopLossPrice p
              /\ RemainingQty (fst r) = RemainingQty p)
    (updatePositionPrice svc p).
Proof.
  unfold updatePositionPrice. eapply sat_bind; [apply getCurrentPrice_sat|].
  intros r _. destruct r as [currentPrice|err]; [|apply sat_ret; cbn; auto].
  sat_now_step. apply sat_ret.
  destruct (Side (set_CurrentPrice currentPrice p) =? "buy"); cbn; auto.
Qed.

Lemma replaceStop_sat newStopPrice p :
  satisfies quoteCancelOrPlace False
    (fun p' => Side p' = Side p /\ Status p' = Status p
               /\ StopLossPrice p' = newStopPrice
               /\ RemainingQty p' = RemainingQty p)
    (replaceStop svc newStopPrice p).
Proof.
  unfold replaceStop.
  eapply sat_bind with (Q1 := fun _ => True).
  { destruct (negb (StopLossOrderID p =? "")); [|apply sat_ret; exact I].
    unfold callCancelOrder. apply sat_call; [reflexivity|intros; exact I]. }
  intros _ _.
  eapply sat_bind; [apply placeStopLossOrder_sat|].
  intros [p' e] Hsame. apply sat_ret.
  destruct Hsame as (_ & Hside & Hstatus & _ & Hrem & _ & Hstop & _).
  cbn in *. auto.
Qed.

Lemma updateTrailingStop_sat p :
  satisfies quoteCancelOrPlace False
    (fun p' => Side p' = Side p /\ Status p' = Status p
               /\ StopLossPrice p'
                  = (if strictlyBetter p then candidateStop p else StopLossPrice p)
               /\ RemainingQty p' = RemainingQty p)
    (updateTrailingStop svc p).
Proof.
  unfold updateTrailingStop, strictlyBetter, candidateStop, fgt.
  destruct (Side p =? "buy"); cbn zeta;
    match goal with
    | |- context [if ?b then replaceStop _ _ _ else _] => destruct b
    end;
    try (apply sat_ret; auto); apply replaceStop_sat.
Qed.

Lemma strictlyBetter_ratchet p :
  ratchet (Side p) (StopLossPrice p)
          (if strictlyBetter p then candidateStop p else StopLossPrice p).
Proof.
  unfold ratchet, strictlyBetter, notLower, notHigher.
  destruct (Side p =? "buy");
    match goal with
    | |- context [if ?b then _ else _] => destruct b eqn:Hb
    end; auto.
Qed.

Lemma checkPosition_sat p :
  satisfies anyCall True (passKeeps p) (checkPosition svc p).
Proof.
  unfold checkPosition, passKeeps.
  destruct ((Status p =? "CLOSED") || (Status p =? "STOPPED_OUT")) eqn:Hdone.
  { apply sat_ret. repeat split. apply ratchet_refl. }
  destruct (String.eqb_spec (Status p) "PENDING") as [Hpending|Hpending].
  { eapply sat_weaken; [apply checkEntryOrder_sat|].
    intros p' [Hside Hstop]. cbn in *. rewrite Hstop. repeat split; auto.
    - apply ratchet_refl.
    - unfold terminal. rewrite Hpending. intros [H|[H|H]]; discriminate. }
  eapply sat_bind.
  { eapply sat_mono; [| |apply updatePositionPrice_sat]; [auto|tauto]. }
  intros [p1 err] (Hside1 & Hstatus1 & Hstop1 & _). cbn in *.
  destruct err; [apply sat_ret; rewrite Hstop1; repeat split; auto; apply ratchet_refl|].
  eapply sat_bind with
    (Q1 := fun p2 => Side p2 = Side p /\ StopLossPrice p2 = StopLossPrice p
                     /\ (terminal (Status p) -> Status p2 = Status p)).
  { destruct (String.eqb_spec (Status p1) "ACTIVE") as [Hactive|Hactive].
    - eapply sat_mono; [| |eapply sat_weaken; [apply manageRiskOrders_sat|]];
        [auto|tauto|].
      intros p2 (_ & Hs & _ & _ & Hst & _). cbn. repeat split; try congruence.
      unfold terminal. rewrite <- Hstatus1, Hactive.
      intros [H|[H|H]]; discriminate.
    - apply sat_ret. repeat split; congruence. }
  intros p2 (Hside2 & Hstop2 & Hterm2).
  destruct (TrailingStop p2).
  - eapply sat_mono; [| |eapply sat_weaken; [apply updateTrailingStop_sat|]];
      [auto|tauto|].
    intros p3 (Hside3 & Hstatus3 & Hstop3 & _). cbn. repeat split.
    + congruence.
    + rewrite Hstop3, <- Hstop2, <- Hside2. apply strictlyBetter_ratchet.
    + intros Hterm. rewrite Hstatus3. auto.
  - apply sat_ret. rewrite Hstop2. repeat split; auto. apply ratchet_refl.
Qed.

Lemma superviseN_sat n : forall p,
  satisfies anyCall True
    (fun p' => Side p' = Side p
               /\ ratchet (Side p) (StopLossPrice p) (StopLossPrice p'))
    (superviseN svc n p).
Proof.
  induction n as [|n IH]; intros p; cbn [superviseN].
  - apply sat_ret. split; [reflexivity|apply ratchet_refl].
  - eapply sat_bind; [apply checkPosition_sat|].
    intros p1 (Hside1 & Hr1 & _).
    eapply sat_weaken; [apply IH|].
    intros p2 [Hside2 Hr2]. cbn. split; [congruence|].
    rewrite Hside1 in Hr2. eapply ratchet_trans; eassumption.
Qed.

Lemma checkPosition_partial_sat p :
  Status p = "PARTIAL" ->
  satisfies quoteCancelOrPlace False
    (fun p' => Status p' = "PARTIAL" /\ RemainingQty p' = RemainingQty p)
    (checkPosition svc p).
Proof.
  intros Hpartial. unfold checkPosition. rewrite Hpartial. cbn [String.eqb orb].
  cbn.
  eapply sat_bind; [apply updatePositionPrice_sat|].
  intros [p1 err] (_ & Hstatus1 & _ & Hrem1). cbn in *.
  destruct err; [apply sat_ret; split; congruence|].
  rewrite Hstatus1, Hpartial. cbn.
  eapply sat_bind with
    (Q1 := fun p2 => Status p2 = "PARTIAL" /\ RemainingQty p2 = RemainingQty p).
  { apply sat_ret. split; congruence. }
  intros p2 [Hstatus2 Hrem2].
  destruct (TrailingStop p2); [|apply sat_ret; auto].
  eapply sat_weaken; [apply updateTrailingStop_sat|].
  intros p3 (_ & Hstatus3 & _ & Hrem3). cbn. split; congruence.
Qed.

(** C2, as the code has it.  When the risk-order check polls a partial-exit
    order that the broker reports filled, it sets the status to [PARTIAL],
    subtracts the order's filled quantity from [RemainingQty], calls the
    store's save with the record and, whatever the save answers, goes on to
    the next partial-exit order.  The whole check only polls orders and calls
    the save: it cancels no order and submits none, and it leaves the ids and
    prices of the stop and the take-profit as they were, so the protective
    orders at the broker keep the size they were placed with.  Over the
    record as that fill leaves it, [PARTIAL], a pass polls no order and does
    not call the save: it only asks for the quote and runs the trailing
    update, and the status and the remaining quantity stay. *)
Theorem manageRiskOrders_partial_fill position pm orderID rest order w :
  GetOrder (tradingService svc) orderID (world pm) = (inl order, w) ->
  Order.Status order = "filled" ->
  let position' :=
    set_RemainingQty (RemainingQty position - Order.FilledQty order)%float
                     (set_Status "PARTIAL" position) in
  (exists r w',
     SaveManagedPosition (storageService svc) position' w = (r, w')
     /\ checkPartialExitOrders svc (orderID :: rest) position pm
        = checkPartialExitOrders svc rest position'
            (after pm w' [EvGetOrder orderID; EvSaveManagedPosition position']))
  /\ satisfies pollOrSave False (sameProtection position)
               (manageRiskOrders svc position)
  /\ satisfies quoteCancelOrPlace False
       (fun p' => Status p' = "PARTIAL" /\ RemainingQty p' = RemainingQty position')
       (checkPosition svc position').
Proof.
  intros Hget Hst position'.
  split; [|split; [apply manageRiskOrders_sat|apply checkPosition_partial_sat; reflexivity]].
  destruct (SaveManagedPosition (storageService svc) position' w) as [r w'] eqn:Hs.
  exists r, w'. split; [reflexivity|].
  cbn [checkPartialExitOrders]. unfold_monad. rewrite Hget. cbn.
  rewrite Hst. cbn. fold position'. rewrite Hs. unfold after. cbn.
  rewrite <- app_assoc. reflexivity.
Qed.

(** C7.  The trailing update never panics; its candidate stop is
    [mark * (1 - pct/100)] for a long position and [mark * (1 + pct/100)]
    otherwise, and the stop price after the update is the candidate when the
    candidate is strictly better than the current stop and the current stop
    when it is not.  Consequently, over any number of supervisor passes,
    whatever the quotes and the broker answer, the stop price of a long
    position never decreases and that of a short position never increases. *)
Theorem updateTrailingStop_ratchet position :
  (forall pm, exists position' pm',
      updateTrailingStop svc position pm = Ok position' pm'
      /\ StopLossPrice position'
         = if strictlyBetter position then candidateStop position
           else StopLossPrice position)
  /\ (forall n pm,
        match superviseN svc n position pm with
        | Ok position' _ =>
            Side position' = Side position
            /\ ratchet (Side position) (StopLossPrice position)
                       (StopLossPrice position')
        | Panic _ => True
        end).
Proof.
  split.
  - intros pm. pose proof (updateTrailingStop_sat position pm) as H.
    destruct (updateTrailingStop svc position pm) as [p' pm'|pm'].
    + exists p', pm'. split; [reflexivity|]. tauto.
    + tauto.
  - intros n pm. pose proof (superviseN_sat n position pm) as H.
    destruct (superviseN svc n position pm); tauto.
Qed.

End Passes.

(** ** Terminal statuses *)

Section Terminal.

Context {W : Type} (svc : @Services W).

Lemma sat_total {A} P (Q : A -> Prop) (m : M A) :
  satisfies P False Q m ->
  forall pm : @PositionManager W,
    exists a pm', m pm = Ok a pm' /\ extends P pm pm' /\ Q a.
Proof.
  intros Hm pm. specialize (Hm pm). destruct (m pm) as [a pm'|pm'].
  - exists a, pm'. tauto.
  - tauto.
Qed.

Lemma checkPositionsIn_terminal ids : forall pm id position,
  positions pm !! id = Some position ->
  terminal (Status position) ->
  exists position',
    positions (final (checkPositionsIn svc ids pm)) !! id = Some position'
    /\ Status position' = Status position.
Proof.
  induction ids as [|id0 rest IH]; intros pm id position Hlook Hterm.
  - cbn. eauto.
  - cbn [checkPositionsIn]. unfold getPositions, storePosition, mbind, M_bind.
    destruct (positions pm !! id0) as [p0|] eqn:Hlook0; [|eapply IH; eassumption].
    pose proof (checkPosition_sat svc p0 pm) as Hpass.
    destruct (checkPosition svc p0 pm) as [p1 pm1|pm1].
    + destruct Hpass as [[Hpos _] (_ & _ & Hkeep)].
      destruct (decide (id0 = id)) as [->|Hne].
      * assert (p0 = position) by congruence. subst p0.
        destruct (IH {| positions := <[id := p1]> (positions pm1);
                        world := world pm1; trace := trace pm1 |} id p1)
          as (p' & Hp' & Hst').
        { cbn. apply lookup_insert_eq. }
        { rewrite (Hkeep Hterm). exact Hterm. }
        exists p'. split; [exact Hp'|]. rewrite Hst'. auto.
      * eapply IH; [|exact Hterm]. cbn.
        rewrite lookup_insert_ne by exact Hne. rewrite Hpos. exact Hlook.
    + destruct Hpass as [[Hpos _] _]. cbn. rewrite Hpos. eauto.
Qed.

Lemma cancelIfSet_sat orderID :
  satisfies anyCall False (fun _ => True) (cancelIfSet svc orderID).
Proof.
  unfold cancelIfSet. destruct (negb (orderID =? "")); [|apply sat_ret; exact I].
  sat_call_step. apply sat_ret. exact I.
Qed.

Lemma cancelEach_sat orderIDs :
  satisfies anyCall False (fun _ => True) (cancelEach svc orderIDs).
Proof.
  induction orderIDs as [|orderID rest IH]; cbn [cancelEach].
  - apply sat_ret. exact I.
  - sat_call_step. exact IH.
Qed.

Lemma CloseManagedPosition_run positionID pm position :
  positions pm !! positionID = Some position ->
  exists pm' t,
    CloseManagedPosition svc positionID pm = Ok None pm'
    /\ positions pm'
       = <[positionID := set_ClosedAt (Some t) (set_Status "CLOSED" position)]>
           (positions pm).
Proof.
  intros Hlook. unfold CloseManagedPosition.
  unfold getPositions at 1. unfold mbind at 1. unfold M_bind at 1.
  rewrite Hlook.
  assert (Hprefix : satisfies anyCall False (fun _ : unit => True)
            (_ ← cancelIfSet svc (EntryOrderID position);
             _ ← cancelIfSet svc (StopLossOrderID position);
             _ ← cancelIfSet svc (TakeProfitOrderID position);
             _ ← cancelEach svc (PartialExitOrders position);
             (if (Status position =? "ACTIVE") || (Status position =? "PARTIAL")
              then
                if fgt (RemainingQty position) 0
                then
                  t ← now svc;
                  _ ← callPlaceOrder svc (exitOrder position t); mret tt
                else mret tt
              else mret tt))).
  { eapply sat_bind; [apply cancelIfSet_sat|intros _ _].
    eapply sat_bind; [apply cancelIfSet_sat|intros _ _].
    eapply sat_bind; [apply cancelIfSet_sat|intros _ _].
    eapply sat_bind; [apply cancelEach_sat|intros _ _].
    destruct ((Status position =? "ACTIVE") || (Status position =? "PARTIAL"));
      [|apply sat_ret; exact I].
    destruct (fgt (RemainingQty position) 0); [|apply sat_ret; exact I].
    sat_now_step. sat_call_step. apply sat_ret. exact I. }
  destruct (sat_total _ _ _ Hprefix pm) as ([] & pm1 & Hrun & [Hpos _] & _).
  unfold mbind, M_bind in Hrun |- *.
  destruct (cancelIfSet svc (EntryOrderID position) pm) as [[] s1|s1];
    [|discriminate].
  destruct (cancelIfSet svc (StopLossOrderID position) s1) as [[] s2|s2];
    [|discriminate].
  destruct (cancelIfSet svc (TakeProfitOrderID position) s2) as [[] s3|s3];
    [|discriminate].
  destruct (cancelEach svc (PartialExitOrders position) s3) as [[] s4|s4];
    [|discriminate].
  match type of Hrun with
  | ?m = Ok tt pm1 => change m with m in Hrun; destruct m as [[] s5|s5] eqn:Hexit;
                        [|discriminate]
  end.
  injection Hrun as ->.
  unfold now, savePositionToDB, storePosition, call.
  destruct (Now (clock svc) (world pm1)) as [t w1].
  cbn.
  match goal with
  | |- context [SaveManagedPosition ?st ?p ?w] =>
      destruct (SaveManagedPosition st p w) as [r w2]
  end.
  eexists. exists t. split; [reflexivity|]. cbn. rewrite Hpos. reflexivity.
Qed.

(** C3, as the code has it.  A supervisor pass, in whatever order it visits
    the working set, never changes the status of a position that is [CLOSED],
    [STOPPED_OUT] or [FAILED].  A manual close always succeeds on a known
    position and leaves it [CLOSED], whatever its status was. *)
Theorem terminal_status_pass_and_close ids pm id position :
  positions pm !! id = Some position ->
  terminal (Status position) ->
  (exists position',
     positions (final (checkPositionsIn svc ids pm)) !! id = Some position'
     /\ Status position' = Status position)
  /\ (exists position' pm',
        CloseManagedPosition svc id pm = Ok None pm'
        /\ positions pm' !! id = Some position'
        /\ Status position' = "CLOSED").
Proof.
  intros Hlook Hterm. split.
  - eapply checkPositionsIn_terminal; eassumption.
  - destruct (CloseManagedPosition_run id pm position Hlook) as (pm' & t & Hrun & Hpos).
    eexists. exists pm'. split; [exact Hrun|]. rewrite Hpos.
    split; [apply lookup_insert_eq|reflexivity].
Qed.

End Terminal.

(** ** The planner *)

Section Planner.

Context {W : Type} (svc : @Services W).

Lemma getCurrentPrice_run symbol pm :
  exists r w,
    GetLatestQuote (dataService svc) symbol (world pm) = (r, w)
    /\ getCurrentPrice svc symbol pm
       = Ok match r with
            | inl quote =>
                inl (if fgt (Quote.AskPrice quote) 0 then Quote.AskPrice quote
                     else Quote.BidPrice quote)
            | inr e => inr e
            end
            (after pm w [EvGetLatestQuote symbol]).
Proof.
  unfold getCurrentPrice. unfold_monad.
  destruct (GetLatestQuote (dataService svc) symbol (world pm)) as [r w].
  exists r, w. split; [reflexivity|].
  destruct r as [quote|e]; [|reflexivity].
  destruct (fgt (Quote.AskPrice quote) 0); reflexivity.
Qed.

(** The three ways [PlaceManagedPosition] ends on a request that passes
    validation: the quote feed fails; the broker refuses the entry order; or
    the broker accepts it, and only then is the record put in the working set
    and saved, whatever the save answers. *)
Lemma PlaceManagedPosition_cases req pm :
  validateRequest req = None ->
  let symbol := Request.Symbol req in
  (exists e w,
     GetLatestQuote (dataService svc) symbol (world pm) = (inr e, w)
     /\ PlaceManagedPosition svc req pm
        = Ok (inr ("failed to get current price: " ++ e)%string)
             (after pm w [EvGetLatestQuote symbol]))
  \/ (exists planned t w, 
        Status planned = "PENDING"
        /\ EntryPrice planned = default (CurrentPrice planned) (Request.EntryPrice req)
        /\ Quantity planned
           = math.Floor (Request.AllocationDollars req / EntryPrice planned)
        /\ RemainingQty planned = Quantity planned
        /\ ((exists e w',
               PlaceOrder (tradingService svc) (entryOrder planned t) w = (inr e, w')
               /\ PlaceManagedPosition svc req pm
                  = Ok (inr ("failed to place entry order: " ++ e)%string)
                       (after pm w' [EvGetLatestQuote symbol;
                                     EvPlaceOrder (entryOrder planned t)]))
            \/ (exists result w' r w'',
                  PlaceOrder (tradingService svc) (entryOrder planned t) w
                  = (inl result, w')
                  /\ let position :=
                       set_Status "PENDING"
                         (set_EntryOrderID (OrderResult.OrderID result) planned) in
                     SaveManagedPosition (storageService svc) position w' = (r, w'')
                     /\ PlaceManagedPosition svc req pm
                        = Ok (inl position)
                             {| positions := <[ID position := position]> (positions pm);
                                world := w'';
                                trace := trace pm
                                         ++ [EvGetLatestQuote symbol;
                                             EvPlaceOrder (entryOrder planned t);
                                             EvSaveManagedPosition position] |}))).
Proof.
  intros Hvalid symbol. subst symbol.
  remember (PlaceManagedPosition svc req pm) as out eqn:Hout.
  unfold PlaceManagedPosition in Hout. rewrite Hvalid in Hout.
  unfold validateRequest in Hvalid.
  destruct (negb (Request.Side req =? "buy") && negb (Request.Side req =? "sell"));
    [discriminate|].
  destruct ((Request.EntryStrategy req =? "limit") && isNil (Request.EntryPrice req));
    [discriminate|].
  destruct (isNil (Request.StopLossPrice req) && isNil (Request.StopLossPercent req))
    eqn:Hs; [discriminate|].
  destruct (isNil (Request.TakeProfitPrice req) && isNil (Request.TakeProfitPercent req))
    eqn:Ht; [discriminate|].
  clear Hvalid.
  destruct (getCurrentPrice_run (Request.Symbol req) pm) as (r & w0 & Hq & Hrun).
  unfold mbind at 1 in Hout. unfold M_bind at 1 in Hout. rewrite Hrun in Hout.
  clear Hrun.
  destruct r as [quote|e].
  { right.
    set (currentPrice := if fgt (Quote.AskPrice quote) 0 then Quote.AskPrice quote
                         else Quote.BidPrice quote) in Hout.
    unfold generatePositionID, placeEntryOrder, calculateStopLoss,
      calculateTakeProfit, calculateQuantity in Hout.
    unfold_monad.
    destruct (Request.StopLossPrice req) as [sp|] eqn:Hsp;
      [|destruct (Request.StopLossPercent req) as [spct|] eqn:Hspct; [|discriminate]].
    all: destruct (Request.TakeProfitPrice req) as [tp|] eqn:Htp;
      [|destruct (Request.TakeProfitPercent req) as [tpct|] eqn:Htpct; [|discriminate]].
    all: unfold after in Hout; cbn -[entryOrder] in Hout.
    all: destruct (Request.Side req =? "buy"); cbn -[entryOrder] in Hout.
    all: destruct (Now (clock svc) w0) as [t1 w1]; cbn -[entryOrder] in Hout.
    all: destruct (Now (clock svc) w1) as [t2 w2]; cbn -[entryOrder] in Hout.
    all: destruct (Now (clock svc) w2) as [t3 w3]; cbn -[entryOrder] in Hout.
    all: destruct (Now (clock svc) w3) as [t4 w4]; cbn -[entryOrder] in Hout.
    all: match type of Hout with
         | context [PlaceOrder _ (entryOrder ?p ?t) ?w] =>
             exists p, t, w;
             destruct (PlaceOrder (tradingService svc) (entryOrder p t) w)
               as [[result|e] w5] eqn:Hp
         end.
    all: cbn -[entryOrder] in Hout.
    all: do 4 (split; [reflexivity|]).
    all: try (left; exists e, w5; split; [reflexivity|]; rewrite Hout; unfold after;
              cbn -[entryOrder]; rewrite <- ?app_assoc; reflexivity).
    all: right.
    all: match type of Hout with
         | context [SaveManagedPosition ?st ?p ?w] =>
             destruct (SaveManagedPosition st p w) as [r w6] eqn:Hsv
         end.
    all: exists result, w5, r, w6; split; [reflexivity|]; split; [exact Hsv|].
    all: rewrite Hout; cbn -[entryOrder]; rewrite <- ?app_assoc; reflexivity. }
  left. exists e, w0. split; [exact Hq|]. rewrite Hout. reflexivity.
Qed.

(** The run of [PlaceManagedPosition] on a request that passes validation,
    by the answers of the quote feed and of the broker.  The planned record
    is built from the request, the quote and three readings of the clock; a
    fourth reading stamps the entry order. *)
Lemma PlaceManagedPosition_run req pm r w0 :
  validateRequest req = None ->
  GetLatestQuote (dataService svc) (Request.Symbol req) (world pm) = (r, w0) ->
  match r with
  | inr e =>
      PlaceManagedPosition svc req pm
      = Ok (inr ("failed to get current price: " ++ e)%string)
           (after pm w0 [EvGetLatestQuote (Request.Symbol req)])
  | inl quote =>
      exists planned t1 t2 t3 t w a w',
        clockReads svc 4 w0 = ([t1; t2; t3; t], w)
        /\ ID planned = ("pos_" ++ pretty (time.UnixNano t1))%string
        /\ Status planned = "PENDING"
        /\ EntryOrderID planned = ""
        /\ Symbol planned = Request.Symbol req
        /\ Side planned = Request.Side req
        /\ EntryOrderType planned = Request.EntryStrategy req
        /\ CurrentPrice planned = quotedPrice quote
        /\ EntryPrice planned
           = default (quotedPrice quote) (Request.EntryPrice req)
        /\ Quantity planned
           = math.Floor (Request.AllocationDollars req / EntryPrice planned)
        /\ RemainingQty planned = Quantity planned
        /\ CreatedAt planned = t2
        /\ UpdatedAt planned = t3
        /\ PlaceOrder (tradingService svc) (entryOrder planned t) w = (a, w')
        /\ match a with
           | inr e =>
               PlaceManagedPosition svc req pm
               = Ok (inr ("failed to place entry order: " ++ e)%string)
                    (after pm w' [EvGetLatestQuote (Request.Symbol req);
                                  EvPlaceOrder (entryOrder planned t)])
           | inl result =>
               let position :=
                 set_Status "PENDING"
                   (set_EntryOrderID (OrderResult.OrderID result) planned) in
               exists s w'',
                 SaveManagedPosition (storageService svc) position w' = (s, w'')
                 /\ PlaceManagedPosition svc req pm
                    = Ok (inl position)
                         {| positions := <[ID position := position]> (positions pm);
                            world := w'';
                            trace := trace pm
                                     ++ [EvGetLatestQuote (Request.Symbol req);
                                         EvPlaceOrder (entryOrder planned t);
                                         EvSaveManagedPosition position] |}
           end
  end.
Proof.
  intros Hvalid Hquote.
  remember (PlaceManagedPosition svc req pm) as out eqn:Hout.
  unfold PlaceManagedPosition in Hout. rewrite Hvalid in Hout.
  unfold validateRequest in Hvalid.
  destruct (negb (Request.Side req =? "buy") && negb (Request.Side req =? "sell"));
    [discriminate|].
  destruct ((Request.EntryStrategy req =? "limit") && isNil (Request.EntryPrice req));
    [discriminate|].
  destruct (isNil (Request.StopLossPrice req) && isNil (Request.StopLossPercent req))
    eqn:Hs; [discriminate|].
  destruct (isNil (Request.TakeProfitPrice req) && isNil (Request.TakeProfitPercent req))
    eqn:Ht; [discriminate|].
  clear Hvalid.
  destruct (getCurrentPrice_run (Request.Symbol req) pm) as (r' & w0' & Hq & Hrun).
  rewrite Hquote in Hq. injection Hq as <- <-.
  unfold mbind at 1 in Hout. unfold M_bind at 1 in Hout. rewrite Hrun in Hout.
  clear Hrun.
  destruct r as [quote|e]; [|rewrite Hout; reflexivity].
  fold (quotedPrice quote) in Hout.
  unfold generatePositionID, placeEntryOrder, calculateStopLoss,
    calculateTakeProfit, calculateQuantity in Hout.
  unfold_monad.
  destruct (Request.StopLossPrice req) as [sp|] eqn:Hsp;
    [|destruct (Request.StopLossPercent req) as [spct|] eqn:Hspct; [|discriminate]].
  all: destruct (Request.TakeProfitPrice req) as [tp|] eqn:Htp;
    [|destruct (Request.TakeProfitPercent req) as [tpct|] eqn:Htpct; [|discriminate]].
  all: unfold after in Hout; cbn -[entryOrder quotedPrice] in Hout.
  all: destruct (Request.Side req =? "buy"); cbn -[entryOrder quotedPrice] in Hout.
  all: destruct (Now (clock svc) w0) as [t1 w1] eqn:Hn1;
    cbn -[entryOrder quotedPrice] in Hout.
  all: destruct (Now (clock svc) w1) as [t2 w2] eqn:Hn2;
    cbn -[entryOrder quotedPrice] in Hout.
  all: destruct (Now (clock svc) w2) as [t3 w3] eqn:Hn3;
    cbn -[entryOrder quotedPrice] in Hout.
  all: destruct (Now (clock svc) w3) as [t4 w4] eqn:Hn4;
    cbn -[entryOrder quotedPrice] in Hout.
  all: match type of Hout with
       | context [PlaceOrder _ (entryOrder ?p ?t) ?w] =>
           destruct (PlaceOrder (tradingService svc) (entryOrder p t) w)
             as [a w5] eqn:Hp;
           exists p, t1, t2, t3, t4, w4, a, w5
       end.
  all: split; [cbn [clockReads]; rewrite Hn1, Hn2, Hn3, Hn4; reflexivity|].
  all: do 12 (split; [reflexivity|]).
  all: split; [exact Hp|].
  all: destruct a as [result|e]; cbn -[entryOrder quotedPrice] in Hout.
  all: try (rewrite Hout; unfold after; cbn -[entryOrder quotedPrice];
            rewrite <- ?app_assoc; reflexivity).
  all: match type of Hout with
       | context [SaveManagedPosition ?st ?p ?w] =>
           destruct (SaveManagedPosition st p w) as [s w6] eqn:Hsv
       end.
  all: exists s, w6; split; [first [exact Hsv|reflexivity]|].
  all: rewrite Hout; cbn -[entryOrder quotedPrice]; rewrite <- ?app_assoc;
    reflexivity.
Qed.

(** C1, as the code has it.  On a request that passes validation the planner
    never panics and asks for the quote first.  If the feed fails, the error
    is returned and that call is the only one.  Otherwise the planner builds
    the [PENDING] record and submits its entry order to the broker before
    anything is stored or saved.  If the broker refuses, the error is
    returned, the working set is unchanged and the store is not called: no
    record is marked failed.  If the broker accepts, the record takes the
    broker's order id and is put in the working set, the store's save is
    called with it, once and after the submission, and the record is
    returned whatever the save answers. *)
Theorem PlaceManagedPosition_submits_then_persists req pm r w0 :
  validateRequest req = None ->
  GetLatestQuote (dataService svc) (Request.Symbol req) (world pm) = (r, w0) ->
  match r with
  | inr e =>
      PlaceManagedPosition svc req pm
      = Ok (inr ("failed to get current price: " ++ e)%string)
           (after pm w0 [EvGetLatestQuote (Request.Symbol req)])
  | inl quote =>
      exists planned t1 t2 t3 t w a w',
        clockReads svc 4 w0 = ([t1; t2; t3; t], w)
        /\ ID planned = ("pos_" ++ pretty (time.UnixNano t1))%string
        /\ Status planned = "PENDING"
        /\ EntryOrderID planned = ""
        /\ Symbol planned = Request.Symbol req
        /\ Side planned = Request.Side req
        /\ EntryOrderType planned = Request.EntryStrategy req
        /\ EntryPrice planned
           = default (quotedPrice quote) (Request.EntryPrice req)
        /\ Quantity planned
           = math.Floor (Request.AllocationDollars req / EntryPrice planned)
        /\ PlaceOrder (tradingService svc) (entryOrder planned t) w = (a, w')
        /\ match a with
           | inr e =>
               PlaceManagedPosition svc req pm
               = Ok (inr ("failed to place entry order: " ++ e)%string)
                    (after pm w' [EvGetLatestQuote (Request.Symbol req);
                                  EvPlaceOrder (entryOrder planned t)])
           | inl result =>
               let position :=
                 set_Status "PENDING"
                   (set_EntryOrderID (OrderResult.OrderID result) planned) in
               exists s w'',
                 SaveManagedPosition (storageService svc) position w' = (s, w'')
                 /\ PlaceManagedPosition svc req pm
                    = Ok (inl position)
                         {| positions := <[ID position := position]> (positions pm);
                            world := w'';
                            trace := trace pm
                                     ++ [EvGetLatestQuote (Request.Symbol req);
                                         EvPlaceOrder (entryOrder planned t);
                                         EvSaveManagedPosition position] |}
           end
  end.
Proof.
  intros Hvalid Hquote.
  pose proof (PlaceManagedPosition_run req pm r w0 Hvalid Hquote) as Hrun.
  destruct r as [quote|e]; [|exact Hrun].
  destruct Hrun as (planned & t1 & t2 & t3 & t & w & a & w' & Hclock & Hid & Hst
                    & Hentry & Hsym & Hside & Htype & _ & Hprice & Hqty & _ & _ & _
                    & Hplace & Hrest).
  exists planned, t1, t2, t3, t, w, a, w'. repeat (split; [assumption|]).
  exact Hrest.
Qed.

(** C8, as the code has it.  On a request that passes validation, the entry
    price is the requested one or, without one, the price taken from the
    quote that the feed answers, and the planned quantity is
    [Floor (allocation / entry price)].  Nothing checks the quantity or the
    price: the entry order is submitted with that quantity, whatever it is,
    and when the broker accepts it the record is returned and stored with
    that quantity.  The only errors are those of the quote feed and of the
    broker. *)
Theorem PlaceManagedPosition_quantity req pm r w0 :
  validateRequest req = None ->
  GetLatestQuote (dataService svc) (Request.Symbol req) (world pm) = (r, w0) ->
  match r with
  | inr e =>
      returned (PlaceManagedPosition svc req pm)
      = Some (inr ("failed to get current price: " ++ e)%string)
  | inl quote =>
      let entryPrice := default (quotedPrice quote) (Request.EntryPrice req) in
      let quantity := math.Floor (Request.AllocationDollars req / entryPrice) in
      exists planned t w a w',
        CurrentPrice planned = quotedPrice quote
        /\ EntryPrice planned = entryPrice
        /\ Quantity planned = quantity
        /\ RemainingQty planned = quantity
        /\ Order.Qty (entryOrder planned t) = quantity
        /\ EvPlaceOrder (entryOrder planned t)
           ∈ trace (final (PlaceManagedPosition svc req pm))
        /\ PlaceOrder (tradingService svc) (entryOrder planned t) w = (a, w')
        /\ match a with
           | inr e =>
               returned (PlaceManagedPosition svc req pm)
               = Some (inr ("failed to place entry order: " ++ e)%string)
           | inl result =>
               let position :=
                 set_Status "PENDING"
                   (set_EntryOrderID (OrderResult.OrderID result) planned) in
               returned (PlaceManagedPosition svc req pm) = Some (inl position)
               /\ EntryPrice position = entryPrice
               /\ Quantity position = quantity
               /\ RemainingQty position = quantity
               /\ positions (final (PlaceManagedPosition svc req pm))
                    !! ID position = Some position
           end
  end.
Proof.
  intros Hvalid Hquote.
  pose proof (PlaceManagedPosition_run req pm r w0 Hvalid Hquote) as Hrun.
  destruct r as [quote|e]; [|rewrite Hrun; reflexivity].
  destruct Hrun as (planned & t1 & t2 & t3 & t & w & a & w' & _ & _ & _
                    & _ & _ & _ & _ & Hcur & Hprice & Hqty & Hrem & _ & _
                    & Hplace & Hrest).
  cbn zeta. rewrite Hprice in Hqty. rewrite Hqty in Hrem.
  exists planned, t, w, a, w'.
  do 4 (split; [assumption|]). split; [exact Hqty|].
  assert (Hin : forall tr tail,
             EvPlaceOrder (entryOrder planned t)
             ∈ tr ++ EvGetLatestQuote (Request.Symbol req)
                     :: EvPlaceOrder (entryOrder planned t) :: tail).
  { intros tr tail. rewrite elem_of_app, !elem_of_cons. auto. }
  destruct a as [result|e].
  - destruct Hrest as (s & w'' & _ & ->). cbn [final returned trace positions].
    split; [apply Hin|]. split; [exact Hplace|]. split; [reflexivity|].
    do 3 (split; [assumption|]). apply lookup_insert_eq.
  - rewrite Hrest. unfold after. cbn [final returned trace positions].
    split; [apply Hin|]. split; [exact Hplace|reflexivity].
Qed.

End Planner.

(** ** Listing *)

Section Listing.

Context {W : Type} (svc : @Services W).

(** C9, as the code has it.  The list operation reads the clock once and
    touches nothing else.  It returns exactly the records of the working set
    that are not [PENDING] records created more than 24 hours ago and that,
    when the filter is not empty, have the filter as their status.  So the
    empty filter returns every record but the stale [PENDING] ones, and a
    filter such as [all] returns the records whose status is that very word,
    never a stale [PENDING] one. *)
Theorem ListManagedPositions_spec status pm :
  exists now_ w l,
    Now (clock svc) (world pm) = (now_, w)
    /\ ListManagedPositions svc status pm
       = Ok l {| positions := positions pm; world := w; trace := trace pm |}
    /\ forall pos,
         pos ∈ l
         <-> (exists id, positions pm !! id = Some pos)
             /\ ~ (Status pos = "PENDING"
                   /\ (24 * time.Hour < time.Sub now_ (CreatedAt pos))%Z)
             /\ (status = "" \/ Status pos = status).
Proof.
  unfold ListManagedPositions. unfold_monad.
  destruct (Now (clock svc) (world pm)) as [now_ w].
  exists now_, w. eexists. split; [reflexivity|]. split; [reflexivity|].
  intros pos. rewrite list_elem_of_In, filter_In, <- list_elem_of_In.
  rewrite list_elem_of_fmap. unfold listed, stalePending.
  rewrite andb_true_iff, negb_true_iff, andb_false_iff, orb_true_iff.
  rewrite !String.eqb_eq, String.eqb_neq, Z.ltb_nlt.
  split.
  - intros [([id p] & -> & Hin) [Hfresh Hstatus]].
    apply elem_of_map_to_list in Hin. cbn in *.
    split; [eauto|]. split; [|exact Hstatus]. tauto.
  - intros [(id & Hlook) [Hfresh Hstatus]].
    split; [|split; [|exact Hstatus]].
    + exists (id, pos). split; [reflexivity|]. apply elem_of_map_to_list. exact Hlook.
    + destruct (String.eqb_spec (Status pos) "PENDING"); [|auto].
      right. tauto.
Qed.

End Listing.

(** ** Scenarios on the stub *)

(** C1 fails as stated.  With the database down, the planner still submits
    the entry order, and submits it before the one save it attempts; the caller
    gets the record back as if it had been persisted. *)
Lemma PlaceManagedPosition_submits_despite_failed_save :
  ~ persistedBeforeSubmitted
      (trace (final (PlaceManagedPosition Stub.svc (Stub.longSPY 1000)
                       (Stub.start Stub.databaseDown))))
  /\ List.map isPlaceOrder
       (trace (final (PlaceManagedPosition Stub.svc (Stub.longSPY 1000)
                        (Stub.start Stub.databaseDown))))
     = [false; true; false]
  /\ Status <$> created (PlaceManagedPosition Stub.svc (Stub.longSPY 1000)
                           (Stub.start Stub.databaseDown))
     = Some "PENDING".
Proof.
  split; [|split; vm_compute; reflexivity].
  intros H.
  assert (Hsub : exists order,
             trace (final (PlaceManagedPosition Stub.svc (Stub.longSPY 1000)
                             (Stub.start Stub.databaseDown))) !! 1
             = Some (EvPlaceOrder order)).
  { vm_compute. eexists. reflexivity. }
  destruct Hsub as [order Hsub].
  destruct (H 1 order Hsub) as (j & position & Hj & Hsave).
  assert (j = 0) by lia. subst j.
  vm_compute in Hsave. discriminate.
Qed.

Lemma PlaceManagedPosition_submits_then_persists_witness :
  validateRequest (Stub.longSPY 1000) = None
  /\ GetLatestQuote (dataService Stub.svc) (Request.Symbol (Stub.longSPY 1000))
       (world (Stub.start Stub.quiet))
     = (inl (Stub.spyQuote 100), Stub.quiet)
  /\ exists planned t1 t2 t3 t w a w',
       clockReads Stub.svc 4 Stub.quiet = ([t1; t2; t3; t], w)
       /\ ID planned = ("pos_" ++ pretty (time.UnixNano t1))%string
       /\ Status planned = "PENDING"
       /\ EntryOrderID planned = ""
       /\ Symbol planned = Request.Symbol (Stub.longSPY 1000)
       /\ Side planned = Request.Side (Stub.longSPY 1000)
       /\ EntryOrderType planned = Request.EntryStrategy (Stub.longSPY 1000)
       /\ EntryPrice planned
          = default (quotedPrice (Stub.spyQuote 100))
              (Request.EntryPrice (Stub.longSPY 1000))
       /\ Quantity planned
          = math.Floor (Request.AllocationDollars (Stub.longSPY 1000)
                        / EntryPrice planned)
       /\ PlaceOrder (tradingService Stub.svc) (entryOrder planned t) w = (a, w')
       /\ match a with
          | inr e =>
              PlaceManagedPosition Stub.svc (Stub.longSPY 1000)
                (Stub.start Stub.quiet)
              = Ok (inr ("failed to place entry order: " ++ e)%string)
                   (after (Stub.start Stub.quiet) w'
                      [EvGetLatestQuote (Request.Symbol (Stub.longSPY 1000));
                       EvPlaceOrder (entryOrder planned t)])
          | inl result =>
              let position :=
                set_Status "PENDING"
                  (set_EntryOrderID (OrderResult.OrderID result) planned) in
              exists s w'',
                SaveManagedPosition (storageService Stub.svc) position w'
                = (s, w'')
                /\ PlaceManagedPosition Stub.svc (Stub.longSPY 1000)
                     (Stub.start Stub.quiet)
                   = Ok (inl position)
                        {| positions :=
                             <[ID position := position]>
                               (positions (Stub.start Stub.quiet));
                           world := w'';
                           trace :=
                             trace (Stub.start Stub.quiet)
                             ++ [EvGetLatestQuote
                                   (Request.Symbol (Stub.longSPY 1000));
                                 EvPlaceOrder (entryOrder planned t);
                                 EvSaveManagedPosition position] |}
          end.
Proof.
  split; [reflexivity|]. split; [reflexivity|].
  exact (PlaceManagedPosition_submits_then_persists Stub.svc (Stub.longSPY 1000)
           (Stub.start Stub.quiet) (inl (Stub.spyQuote 100)) Stub.quiet
           eq_refl eq_refl).
Defined.

(** C2 fails as stated.  The partial exit of five shares is reported filled:
    the pass records [PARTIAL] with five shares remaining, and neither cancels
    nor submits anything, so the stop and the take-profit at the broker still
    cover ten shares. *)
Lemma partial_fill_leaves_protective_orders :
  (Status <$> returned (checkPosition Stub.svc Stub.active
                          (Stub.holding [Stub.active] Stub.partialFilled))
   = Some "PARTIAL")
  /\ (RemainingQty <$> returned (checkPosition Stub.svc Stub.active
                                   (Stub.holding [Stub.active] Stub.partialFilled))
      = Some 5%float)
  /\ trace (final (checkPosition Stub.svc Stub.active
                     (Stub.holding [Stub.active] Stub.partialFilled)))
     = [EvGetLatestQuote "SPY"; EvGetOrder "ord_2"; EvGetOrder "ord_3";
        EvGetOrder "ord_4";
        EvSaveManagedPosition
          (set_RemainingQty 5%float
             (set_Status "PARTIAL"
                (set_UpdatedAt 1000%Z
                   (set_UnrealizedPLPC 5%float
                      (set_UnrealizedPL 50%float
                         (set_CurrentPrice 105%float Stub.active))))))].
Proof. split; [|split]; vm_compute; reflexivity. Qed.

Lemma manageRiskOrders_partial_fill_witness :
  GetOrder (tradingService Stub.svc) "ord_4"
    (world (Stub.holding [Stub.active] Stub.partialFilled))
  = (inl (Stub.reported "filled" 5 (Some 105%float)), Stub.partialFilled)
  /\ (exists r w',
        SaveManagedPosition (storageService Stub.svc)
          (set_RemainingQty (RemainingQty Stub.active - 5)%float
             (set_Status "PARTIAL" Stub.active)) Stub.partialFilled
        = (r, w')
        /\ checkPartialExitOrders Stub.svc ["ord_4"] Stub.active
             (Stub.holding [Stub.active] Stub.partialFilled)
           = checkPartialExitOrders Stub.svc []
               (set_RemainingQty (RemainingQty Stub.active - 5)%float
                  (set_Status "PARTIAL" Stub.active))
               (after (Stub.holding [Stub.active] Stub.partialFilled) w'
                  [EvGetOrder "ord_4";
                   EvSaveManagedPosition
                     (set_RemainingQty (RemainingQty Stub.active - 5)%float
                        (set_Status "PARTIAL" Stub.active))])).
Proof.
  split; [reflexivity|].
  apply (manageRiskOrders_partial_fill Stub.svc Stub.active
           (Stub.holding [Stub.active] Stub.partialFilled) "ord_4" []
           (Stub.reported "filled" 5 (Some 105%float)) Stub.partialFilled);
    reflexivity.
Defined.

(** C3 fails as stated.  A position that the supervisor recorded as
    [STOPPED_OUT] becomes [CLOSED] when it is closed by hand. *)
Lemma manual_close_rewrites_stopped_out :
  statusOf (Stub.holding [set_Status "STOPPED_OUT" Stub.active] Stub.quiet) "pos_1"
  = Some "STOPPED_OUT"
  /\ statusOf (final (CloseManagedPosition Stub.svc "pos_1"
                        (Stub.holding [set_Status "STOPPED_OUT" Stub.active]
                           Stub.quiet)))
              "pos_1"
     = Some "CLOSED".
Proof. split; vm_compute; reflexivity. Qed.

Lemma terminal_status_pass_and_close_witness :
  terminal (Status (set_Status "STOPPED_OUT" Stub.active))
  /\ (exists position',
        positions
          (final (checkPositionsIn Stub.svc ["pos_1"]
                    (Stub.holding [set_Status "STOPPED_OUT" Stub.active] Stub.quiet)))
          !! "pos_1"
        = Some position'
        /\ Status position' = Status (set_Status "STOPPED_OUT" Stub.active))
  /\ (exists position' pm',
        CloseManagedPosition Stub.svc "pos_1"
          (Stub.holding [set_Status "STOPPED_OUT" Stub.active] Stub.quiet)
        = Ok None pm'
        /\ positions pm' !! "pos_1" = Some position'
        /\ Status position' = "CLOSED").
Proof.
  assert (Hterm : terminal (Status (set_Status "STOPPED_OUT" Stub.active))).
  { right. left. reflexivity. }
  split; [exact Hterm|].
  apply (terminal_status_pass_and_close Stub.svc ["pos_1"]
           (Stub.holding [set_Status "STOPPED_OUT" Stub.active] Stub.quiet)
           "pos_1" (set_Status "STOPPED_OUT" Stub.active)).
  - vm_compute. reflexivity.
  - exact Hterm.
Defined.

(** C4 fails as stated.  Stop and take-profit are both reported filled: the
    pass ends [STOPPED_OUT] after polling the stop alone, and makes no attempt
    to cancel the take-profit order [ord_3]. *)
Lemma stop_filled_take_profit_not_cancelled :
  (Status <$> returned (checkPosition Stub.svc Stub.active
                          (Stub.holding [Stub.active] Stub.stopAndTakeFilled))
   = Some "STOPPED_OUT")
  /\ List.existsb isCancelOrder
       (trace (final (checkPosition Stub.svc Stub.active
                        (Stub.holding [Stub.active] Stub.stopAndTakeFilled))))
     = false
  /\ List.map isPlaceOrder
       (trace (final (checkPosition Stub.svc Stub.active
                        (Stub.holding [Stub.active] Stub.stopAndTakeFilled))))
     = [false; false; false]
  /\ trace (final (checkPosition Stub.svc Stub.active
                     (Stub.holding [Stub.active] Stub.stopAndTakeFilled))) !! 1
     = Some (EvGetOrder "ord_2").
Proof. split; [|split; [|split]]; vm_compute; reflexivity. Qed.

Lemma manageRiskOrders_stop_filled_witness :
  StopLossOrderID Stub.active <> ""
  /\ exists t w1 r w2,
       Now (clock Stub.svc) Stub.stopAndTakeFilled = (t, w1)
       /\ SaveManagedPosition (storageService Stub.svc)
            (set_ClosedAt (Some t) (set_Status "STOPPED_OUT" Stub.active)) w1
          = (r, w2)
       /\ manageRiskOrders Stub.svc Stub.active
            (Stub.holding [Stub.active] Stub.stopAndTakeFilled)
          = Ok (set_ClosedAt (Some t) (set_Status "STOPPED_OUT" Stub.active))
               (after (Stub.holding [Stub.active] Stub.stopAndTakeFilled) w2
                  [EvGetOrder (StopLossOrderID Stub.active);
                   EvSaveManagedPosition
                     (set_ClosedAt (Some t) (set_Status "STOPPED_OUT" Stub.active))]).
Proof.
  assert (Hid : StopLossOrderID Stub.active <> "") by (cbn; discriminate).
  split; [exact Hid|].
  apply (manageRiskOrders_stop_filled Stub.svc Stub.active
           (Stub.holding [Stub.active] Stub.stopAndTakeFilled)
           (Stub.reported "filled" 10 (Some 95%float)) Stub.stopAndTakeFilled).
  - exact Hid.
  - reflexivity.
  - reflexivity.
Defined.

(** C5 fails as stated.  A request with a 5 percent stop and a 10 percent
    target is planned at a quote of 100 and filled at 110.  After the pass the
    record is [ACTIVE] at an entry price of 110, but the stop is still the 95
    computed from the quote, not the 104.5 that 5 percent below the fill
    would give. *)
Lemma entry_filled_prices_not_recomputed :
  (EntryPrice <$> (positions (final (planThenPass Stub.svc (Stub.longSPY 1000)
                                       (Stub.start Stub.entryFilledAt110)))
                     !! "pos_1000")
   = Some 110%float)
  /\ (StopLossPrice <$> (positions (final (planThenPass Stub.svc (Stub.longSPY 1000)
                                             (Stub.start Stub.entryFilledAt110)))
                           !! "pos_1000")
      = Some 95%float)
  /\ returned (calculateStopLoss 110 None (Some 5%float) "buy"
                 (Stub.start Stub.entryFilledAt110))
     = Some 104.5%float.
Proof. split; [|split]; vm_compute; reflexivity. Qed.

Lemma checkPosition_entry_filled_witness :
  Status Stub.pending = "PENDING"
  /\ exists position' pm' t1 t2 t3,
       checkPosition Stub.svc Stub.pending
         (Stub.holding [Stub.pending] Stub.entryFilledAt110)
       = Ok position' pm'
       /\ Status position' = "ACTIVE"
       /\ EntryPrice position' = 110%float
       /\ StopLossPrice position' = StopLossPrice Stub.pending
       /\ TakeProfitPrice position' = TakeProfitPrice Stub.pending
       /\ PartialExit position' = PartialExit Stub.pending
       /\ trace pm'
          = trace (Stub.holding [Stub.pending] Stub.entryFilledAt110)
            ++ [EvGetOrder (EntryOrderID Stub.pending)]
            ++ protectiveSubmissions Stub.pending t1 t2 t3
            ++ [EvSaveManagedPosition position'].
Proof.
  split; [reflexivity|].
  apply (checkPosition_entry_filled Stub.svc Stub.pending
           (Stub.holding [Stub.pending] Stub.entryFilledAt110)
           (Stub.reported "filled" 10 (Some 110%float)) Stub.entryFilledAt110);
    reflexivity.
Defined.

(** C6 fails as stated.  The broker reports the entry order canceled: after
    the pass the record is still [PENDING] and nothing was saved. *)
Lemma entry_canceled_stays_pending :
  statusOf (final (checkPositions Stub.svc
                     (Stub.holding [Stub.pending] Stub.entryCanceled)))
           "pos_1"
  = Some "PENDING"
  /\ trace (final (checkPositions Stub.svc
                     (Stub.holding [Stub.pending] Stub.entryCanceled)))
     = [EvGetOrder "ord_1"].
Proof. split; vm_compute; reflexivity. Qed.

Lemma checkPosition_entry_not_filled_witness :
  Order.Status (Stub.reported "canceled" 0 None) <> "filled"
  /\ checkPosition Stub.svc Stub.pending
       (Stub.holding [Stub.pending] Stub.entryCanceled)
     = Ok Stub.pending
          (after (Stub.holding [Stub.pending] Stub.entryCanceled)
             Stub.entryCanceled [EvGetOrder (EntryOrderID Stub.pending)]).
Proof.
  assert (Hst : Order.Status (Stub.reported "canceled" 0 None) <> "filled")
    by (cbn; discriminate).
  split; [exact Hst|].
  apply (checkPosition_entry_not_filled Stub.svc Stub.pending
           (Stub.holding [Stub.pending] Stub.entryCanceled)
           (Stub.reported "canceled" 0 None) Stub.entryCanceled).
  - reflexivity.
  - reflexivity.
  - exact Hst.
Defined.

(** C8 fails as stated.  An allocation of 50 at a price of 100 sizes to zero
    shares, and a limit price of zero sizes to infinitely many; in both cases
    the planner submits the entry order and creates the record. *)
Lemma zero_quantity_and_zero_price_accepted :
  (Quantity <$> created (PlaceManagedPosition Stub.svc (Stub.longSPY 50)
                           (Stub.start Stub.quiet))
   = Some 0%float)
  /\ List.map isPlaceOrder
       (trace (final (PlaceManagedPosition Stub.svc (Stub.longSPY 50)
                        (Stub.start Stub.quiet))))
     = [false; true; false]
  /\ (Quantity <$> created (PlaceManagedPosition Stub.svc (Stub.limitSPY 1000 0)
                              (Stub.start Stub.quiet))
      = Some infinity)
  /\ List.map isPlaceOrder
       (trace (final (PlaceManagedPosition Stub.svc (Stub.limitSPY 1000 0)
                        (Stub.start Stub.quiet))))
     = [false; true; false].
Proof. split; [|split; [|split]]; vm_compute; reflexivity. Qed.

Lemma PlaceManagedPosition_quantity_witness :
  validateRequest (Stub.longSPY 50) = None
  /\ GetLatestQuote (dataService Stub.svc) (Request.Symbol (Stub.longSPY 50))
       (world (Stub.start Stub.quiet))
     = (inl (Stub.spyQuote 100), Stub.quiet)
  /\ let entryPrice :=
       default (quotedPrice (Stub.spyQuote 100))
         (Request.EntryPrice (Stub.longSPY 50)) in
     let quantity :=
       math.Floor (Request.AllocationDollars (Stub.longSPY 50) / entryPrice) in
     exists planned t w a w',
       CurrentPrice planned = quotedPrice (Stub.spyQuote 100)
       /\ EntryPrice planned = entryPrice
       /\ Quantity planned = quantity
       /\ RemainingQty planned = quantity
       /\ Order.Qty (entryOrder planned t) = quantity
       /\ EvPlaceOrder (entryOrder planned t)
          ∈ trace (final (PlaceManagedPosition Stub.svc (Stub.longSPY 50)
                            (Stub.start Stub.quiet)))
       /\ PlaceOrder (tradingService Stub.svc) (entryOrder planned t) w = (a, w')
       /\ match a with
          | inr e =>
              returned (PlaceManagedPosition Stub.svc (Stub.longSPY 50)
                          (Stub.start Stub.quiet))
              = Some (inr ("failed to place entry order: " ++ e)%string)
          | inl result =>
              let position :=
                set_Status "PENDING"
                  (set_EntryOrderID (OrderResult.OrderID result) planned) in
              returned (PlaceManagedPosition Stub.svc (Stub.longSPY 50)
                          (Stub.start Stub.quiet))
              = Some (inl position)
              /\ EntryPrice position = entryPrice
              /\ Quantity position = quantity
              /\ RemainingQty position = quantity
              /\ positions (final (PlaceManagedPosition Stub.svc (Stub.longSPY 50)
                                     (Stub.start Stub.quiet)))
                   !! ID position = Some position
          end.
Proof.
  split; [reflexivity|]. split; [reflexivity|].
  exact (PlaceManagedPosition_quantity Stub.svc (Stub.longSPY 50)
           (Stub.start Stub.quiet) (inl (Stub.spyQuote 100)) Stub.quiet
           eq_refl eq_refl).
Defined.

(** C9 fails as stated.  The working set holds an [ACTIVE] record and a stale
    [PENDING] one; the filter [all] returns neither, and the empty filter
    returns the [ACTIVE] one. *)
Lemma list_all_returns_nothing :
  returned (ListManagedPositions Stub.svc "all"
              (Stub.holding [Stub.active; Stub.stale] Stub.quiet))
  = Some []
  /\ returned (ListManagedPositions Stub.svc ""
                 (Stub.holding [Stub.active; Stub.stale] Stub.quiet))
     = Some [Stub.active].
Proof. split; vm_compute; reflexivity. Qed.

Lemma checkEntryOrder_panics_iff_no_fill_average_witness :
  Order.FilledAvgPrice (Stub.reported "filled" 10 None) = None
  /\ checkEntryOrder Stub.svc Stub.pending
       (Stub.holding [Stub.pending] Stub.entryFilledNoAverage)
     = Panic (after (Stub.holding [Stub.pending] Stub.entryFilledNoAverage)
                Stub.entryFilledNoAverage [EvGetOrder (EntryOrderID Stub.pending)]).
Proof.
  split; [reflexivity|].
  apply (checkEntryOrder_panics_iff_no_fill_average Stub.svc Stub.pending
           (Stub.holding [Stub.pending] Stub.entryFilledNoAverage)
           (Stub.reported "filled" 10 None) Stub.entryFilledNoAverage);
    reflexivity.
Defined.

(** ** Two more runs of the supervisor *)

(** The stop of the trailing position over five passes with marks 102, 110,
    108, 105 and 111: it follows the mark up and holds when the mark falls
    (the two hexadecimal values are the doubles nearest 96.9 and 105.45). *)
Example trailing_stop_trajectory :
  List.map
    (fun n => StopLossPrice
                <$> returned (superviseN Stub.svc n Stub.trailing
                                (Stub.holding [Stub.trailing] Stub.markTrajectory)))
    [0; 1; 2; 3; 4; 5]
  = [Some 95; Some 0x1.8399999999999p+6; Some 104.5; Some 104.5; Some 104.5;
     Some 0x1.a5cccccccccccp+6]%float.
Proof. vm_compute. reflexivity. Qed.

(** The trailing update runs after the risk-order check in the same pass and
    does not look at the status: when the stop is reported filled while the
    quote is high, the pass records [STOPPED_OUT], then cancels the filled
    stop and submits a new stop order. *)
Example stopped_out_then_trailing_submits_stop :
  (Status <$> returned (checkPosition Stub.svc Stub.trailing
                          (Stub.holding [Stub.trailing] Stub.stopFilledMarkAbove))
   = Some "STOPPED_OUT")
  /\ List.map isPlaceOrder
       (trace (final (checkPosition Stub.svc Stub.trailing
                        (Stub.holding [Stub.trailing] Stub.stopFilledMarkAbove))))
     = [false; false; false; false; true]
  /\ trace (final (checkPosition Stub.svc Stub.trailing
                     (Stub.holding [Stub.trailing] Stub.stopFilledMarkAbove))) !! 3
     = Some (EvCancelOrder "ord_2").
Proof. split; [|split]; vm_compute; reflexivity. Qed.

(** [math.Floor] on a few values, the special ones included. *)
Example Floor_values :
  List.map math.Floor [2.5; 10; 0.5; -0.5; -3; 0; infinity; neg_infinity]%float
  = [2; 10; 0; -1; -3; 0; infinity; neg_infinity]%float
  /\ PrimFloat.is_nan (math.Floor nan) = true
  /\ calculateQuantity 1000 100 = 10%float
  /\ calculateQuantity 50 100 = 0%float
  /\ calculateQuantity 1000 0 = infinity.
Proof. repeat split; vm_compute; reflexivity. Qed.

(** ** What one pass may write and may call *)

Section PassFrames.

Context {W : Type} (svc : @Services W).

Ltac split_sum :=
  match goal with
  | r : (_ + _)%type |- _ => destruct r
  end.

Lemma placeRiskOrders_plan p :
  satisfies isPlaceOrder False
    (fun p' => plan p' = plan p /\ Status p' = Status p)
    (placeRiskOrders svc p).
Proof.
  unfold placeRiskOrders.
  eapply sat_bind with
    (Q1 := fun r => plan (fst r) = plan p /\ Status (fst r) = Status p).
  { unfold placeStopLossOrder. sat_now_step. sat_call_step.
    split_sum; apply sat_ret; cbn; auto. }
  intros [p1 e1] [Hplan1 Hst1]. cbn in Hplan1, Hst1.
  eapply sat_bind with
    (Q1 := fun r => plan (fst r) = plan p /\ Status (fst r) = Status p).
  { unfold placeTakeProfitOrder. sat_now_step. sat_call_step.
    split_sum; apply sat_ret; cbn; auto. }
  intros [p2 e2] [Hplan2 Hst2]. cbn in Hplan2, Hst2.
  destruct (PartialExit p2) as [cfg|] eqn:Hpe; [|apply sat_ret; auto].
  destruct (Enabled cfg); [|apply sat_ret; auto].
  eapply sat_bind with
    (Q1 := fun r => plan (fst r) = plan p /\ Status (fst r) = Status p).
  { unfold placePartialExitOrder. rewrite Hpe. sat_now_step. sat_call_step.
    split_sum; apply sat_ret; cbn; auto. }
  intros [p3 e3] H. apply sat_ret. exact H.
Qed.

Lemma checkEntryOrder_plan p :
  satisfies pollPlaceOrSave True
    (fun p' => plan p' = plan p
               /\ (Status p' = Status p \/ Status p' = "ACTIVE"))
    (checkEntryOrder svc p).
Proof.
  unfold checkEntryOrder. sat_call_step.
  split_sum; [|apply sat_ret; auto].
  destruct (Order.Status _ =? "filled"); [|apply sat_ret; auto].
  destruct (Order.FilledAvgPrice _); [|apply sat_panic; exact I].
  sat_now_step.
  eapply sat_bind.
  - eapply sat_mono; [| |apply placeRiskOrders_plan].
    + intros [] H; try discriminate; reflexivity.
    + tauto.
  - intros p' [Hplan Hst]. sat_call_step. apply sat_ret.
    cbn in *. split; [exact Hplan|right; exact Hst].
Qed.

Lemma checkPartialExitOrders_plan orderIDs : forall p0 p,
  plan p = plan p0 ->
  Status p = Status p0 \/ Status p = "PARTIAL" ->
  satisfies pollOrSave False
    (fun p' => plan p' = plan p0
               /\ (Status p' = Status p0 \/ Status p' = "PARTIAL"))
    (checkPartialExitOrders svc orderIDs p).
Proof.
  induction orderIDs as [|orderID rest IH]; intros p0 p Hplan Hst;
    cbn [checkPartialExitOrders].
  - apply sat_ret. auto.
  - sat_call_step. split_sum; [|apply IH; assumption].
    destruct (Order.Status _ =? "filled"); [|apply IH; assumption].
    sat_call_step. apply IH; cbn; auto.
Qed.

Lemma manageRiskOrders_plan p :
  satisfies pollOrSave False
    (fun p' => plan p' = plan p
               /\ (Status p' = Status p \/ Status p' = "PARTIAL"
                   \/ Status p' = "CLOSED" \/ Status p' = "STOPPED_OUT"))
    (manageRiskOrders svc p).
Proof.
  assert (Hpartial : satisfies pollOrSave False
            (fun p' => plan p' = plan p
                       /\ (Status p' = Status p \/ Status p' = "PARTIAL"
                           \/ Status p' = "CLOSED" \/ Status p' = "STOPPED_OUT"))
            (checkPartialExitOrders svc (PartialExitOrders p) p)).
  { eapply sat_weaken; [apply checkPartialExitOrders_plan; auto|].
    cbn. intros p' [Hplan [H|H]]; auto. }
  assert (Hrest : satisfies pollOrSave False
            (fun p' => plan p' = plan p
                       /\ (Status p' = Status p \/ Status p' = "PARTIAL"
                           \/ Status p' = "CLOSED" \/ Status p' = "STOPPED_OUT"))
            (checkTakeProfitThenPartial svc p)).
  { unfold checkTakeProfitThenPartial.
    destruct (negb (TakeProfitOrderID p =? "")); [|exact Hpartial].
    sat_call_step. split_sum; [|exact Hpartial].
    destruct (Order.Status _ =? "filled"); [|exact Hpartial].
    sat_now_step. sat_call_step. apply sat_ret. cbn. auto. }
  unfold manageRiskOrders.
  destruct (negb (StopLossOrderID p =? "")); [|exact Hrest].
  sat_call_step. split_sum; [|exact Hrest].
  destruct (Order.Status _ =? "filled"); [|exact Hrest].
  sat_now_step. sat_call_step. apply sat_ret. cbn. auto.
Qed.

Lemma updatePositionPrice_plan p :
  satisfies isQuote False
    (fun r => plan (fst r) = plan p /\ Status (fst r) = Status p)
    (updatePositionPrice svc p).
Proof.
  unfold updatePositionPrice, getCurrentPrice.
  eapply sat_bind with (Q1 := fun _ => True).
  { sat_call_step. split_sum; [|apply sat_ret; exact I].
    destruct (fgt _ _); apply sat_ret; exact I. }
  intros r _. destruct r as [currentPrice|err]; [|apply sat_ret; cbn; auto].
  sat_now_step. apply sat_ret.
  destruct (Side (set_CurrentPrice currentPrice p) =? "buy"); cbn; auto.
Qed.

Lemma updateTrailingStop_plan p :
  satisfies cancelOrPlace False
    (fun p' => plan p' = plan p /\ Status p' = Status p)
    (updateTrailingStop svc p).
Proof.
  assert (Hreplace : forall x,
            satisfies cancelOrPlace False
              (fun p' => plan p' = plan p /\ Status p' = Status p)
              (replaceStop svc x p)).
  { intros x. unfold replaceStop.
    eapply sat_bind with (Q1 := fun _ => True).
    { destruct (negb (StopLossOrderID p =? "")); [|apply sat_ret; exact I].
      unfold callCancelOrder. apply sat_call; [reflexivity|intros; exact I]. }
    intros _ _.
    eapply sat_bind with
      (Q1 := fun r => plan (fst r) = plan p /\ Status (fst r) = Status p).
    { unfold placeStopLossOrder. sat_now_step. sat_call_step.
      split_sum; apply sat_ret; cbn; auto. }
    intros [p' e] H. apply sat_ret. exact H. }
  unfold updateTrailingStop.
  destruct (Side p =? "buy"); cbn zeta;
    match goal with
    | |- context [if ?b then replaceStop _ _ _ else _] => destruct b
    end;
    try (apply sat_ret; auto); apply Hreplace.
Qed.

Lemma checkPosition_plan p :
  satisfies anyCall True
    (fun p' => plan p' = plan p /\ passTransition (Status p) (Status p'))
    (checkPosition svc p).
Proof.
  unfold checkPosition, passTransition.
  destruct ((Status p =? "CLOSED") || (Status p =? "STOPPED_OUT")).
  { apply sat_ret. auto. }
  destruct (String.eqb_spec (Status p) "PENDING") as [Hpending|Hpending].
  { eapply sat_mono; [| |eapply sat_weaken; [apply checkEntryOrder_plan|]];
      [reflexivity|tauto|].
    cbn. intros p' [Hplan [H|H]]; auto. }
  eapply sat_bind.
  { eapply sat_mono; [| |apply updatePositionPrice_plan]; [reflexivity|tauto]. }
  intros [p1 err] [Hplan1 Hst1]. cbn in Hplan1, Hst1.
  destruct err; [apply sat_ret; auto|].
  eapply sat_bind with
    (Q1 := fun p2 => plan p2 = plan p
                     /\ (Status p2 = Status p
                         \/ Status p = "ACTIVE"
                            /\ (Status p2 = "PARTIAL" \/ Status p2 = "CLOSED"
                                \/ Status p2 = "STOPPED_OUT"))).
  { destruct (String.eqb_spec (Status p1) "ACTIVE") as [Hactive|Hactive].
    - eapply sat_mono; [| |eapply sat_weaken; [apply manageRiskOrders_plan|]];
        [reflexivity|tauto|].
      cbn. intros p2 [Hplan2 Hst2]. split; [congruence|].
      rewrite Hst1 in Hst2. rewrite Hst1 in Hactive.
      destruct Hst2 as [H|H]; [left; exact H|right; auto].
    - apply sat_ret. split; [congruence|left; congruence]. }
  intros p2 [Hplan2 Hst2].
  destruct (TrailingStop p2).
  - eapply sat_mono; [| |eapply sat_weaken; [apply updateTrailingStop_plan|]];
      [reflexivity|tauto|].
    cbn. intros p3 [Hplan3 Hst3]. split; [congruence|].
    rewrite Hst3. destruct Hst2 as [H|H]; auto.
  - apply sat_ret. split; [exact Hplan2|]. destruct Hst2 as [H|H]; auto.
Qed.

End PassFrames.

(** ** Passes over the working set *)

Section WorkingSet.

Context {W : Type} (svc : @Services W).

(** Whatever a pass over one position guarantees between the record before
    and the record after, a pass over the working set guarantees for every
    record, in whatever order and however often the ids are visited; and a
    pass neither adds nor removes a record. *)
Lemma checkPositionsIn_preserves (Rel : ManagedPosition -> ManagedPosition -> Prop) :
  (forall p, Rel p p) ->
  (forall p1 p2 p3, Rel p1 p2 -> Rel p2 p3 -> Rel p1 p3) ->
  (forall p, satisfies anyCall True (Rel p) (checkPosition svc p)) ->
  forall ids pm id,
    match positions pm !! id with
    | Some p =>
        exists p',
          positions (final (checkPositionsIn svc ids pm)) !! id = Some p'
          /\ Rel p p'
    | None => positions (final (checkPositionsIn svc ids pm)) !! id = None
    end.
Proof.
  intros Hrefl Htrans Hpass.
  induction ids as [|id0 rest IH]; intros pm id.
  - cbn. destruct (positions pm !! id); eauto.
  - cbn [checkPositionsIn]. unfold getPositions, storePosition, mbind, M_bind.
    destruct (positions pm !! id0) as [p0|] eqn:Hlook0; [|apply IH].
    pose proof (Hpass p0 pm) as Hp0.
    destruct (checkPosition svc p0 pm) as [p1 pm1|pm1].
    + destruct Hp0 as [[Hpos _] Hrel].
      specialize (IH {| positions := <[id0 := p1]> (positions pm1);
                        world := world pm1; trace := trace pm1 |} id).
      cbn in IH.
      destruct (decide (id0 = id)) as [->|Hne].
      * rewrite lookup_insert_eq in IH. rewrite Hlook0.
        destruct IH as (p' & Hp' & Hrel'). exists p'. split; [exact Hp'|].
        eapply Htrans; eassumption.
      * rewrite lookup_insert_ne in IH by exact Hne.
        assert (Hsame : positions pm1 !! id = positions pm !! id)
          by (rewrite Hpos; reflexivity).
        rewrite Hsame in IH. exact IH.
    + destruct Hp0 as [[Hpos _] _]. cbn. rewrite Hpos.
      destruct (positions pm !! id); eauto.
Qed.

(** X6.  One pass moves the status of a record only along these edges:
    [PENDING] to [ACTIVE]; [ACTIVE] to [PARTIAL], [CLOSED] or [STOPPED_OUT];
    every other status, [PARTIAL] included, stays as it is. *)
Theorem checkPosition_status_transition p pm :
  match checkPosition svc p pm with
  | Ok p' _ => passTransition (Status p) (Status p')
  | Panic _ => True
  end.
Proof.
  pose proof (checkPosition_plan svc p pm) as H.
  destruct (checkPosition svc p pm); tauto.
Qed.

(** X7.  A pass over the working set, in whatever order, never rewrites the
    plan of a record: its id, symbol, side, strategy, quantity, allocation,
    entry order, percentages, take-profit price, trailing settings, partial
    exit configuration, creation time, notes and tags.  A manual close does
    not either. *)
Theorem plan_never_rewritten ids pm id p :
  positions pm !! id = Some p ->
  (exists p',
     positions (final (checkPositionsIn svc ids pm)) !! id = Some p'
     /\ plan p' = plan p)
  /\ (exists p',
        positions (final (CloseManagedPosition svc id pm)) !! id = Some p'
        /\ plan p' = plan p).
Proof.
  intros Hlook. split.
  - pose proof (checkPositionsIn_preserves (fun p p' => plan p' = plan p)) as H.
    specialize (H (fun _ => eq_refl)).
    specialize (H (fun p1 p2 p3 H12 H23 => eq_trans H23 H12)).
    assert (Hpass : forall p0,
               satisfies anyCall True (fun p' => plan p' = plan p0)
                         (checkPosition svc p0)).
    { intros p0. eapply sat_weaken; [apply checkPosition_plan|]. cbn. tauto. }
    specialize (H Hpass ids pm id). rewrite Hlook in H. exact H.
  - destruct (CloseManagedPosition_run svc id pm p Hlook) as (pm' & t & Hrun & Hpos).
    rewrite Hrun. cbn. rewrite Hpos, lookup_insert_eq. eexists. split; reflexivity.
Qed.

(** X8.  Neither a pass nor a manual close adds or removes a record: the ids
    of the working set stay the same, closed positions included. *)
Theorem working_set_ids_kept ids id pm :
  dom (positions (final (checkPositionsIn svc ids pm))) = dom (positions pm)
  /\ dom (positions (final (CloseManagedPosition svc id pm))) = dom (positions pm).
Proof.
  split.
  - apply set_eq. intros k. rewrite !elem_of_dom.
    pose proof (checkPositionsIn_preserves (fun _ _ => True)
                  (fun _ => I) (fun _ _ _ _ _ => I)) as H.
    assert (Hpass : forall p0,
               satisfies anyCall True (fun _ : ManagedPosition => True)
                         (checkPosition svc p0)).
    { intros p0. eapply sat_weaken; [apply checkPosition_plan|]. cbn. tauto. }
    specialize (H Hpass ids pm k).
    destruct (positions pm !! k) as [p|].
    + destruct H as (p' & -> & _). split; eauto.
    + rewrite H. reflexivity.
  - destruct (positions pm !! id) as [p|] eqn:Hlook.
    + destruct (CloseManagedPosition_run svc id pm p Hlook) as (pm' & t & Hrun & Hpos).
      rewrite Hrun. cbn. rewrite Hpos, dom_insert_L.
      apply elem_of_dom_2 in Hlook. apply subseteq_union_1_L.
      apply singleton_subseteq_l. exact Hlook.
    + unfold CloseManagedPosition, getPositions, mbind, M_bind. rewrite Hlook.
      reflexivity.
Qed.

(** X9.  A pass over a working set in which every record is [CLOSED] or
    [STOPPED_OUT] makes no call and changes nothing. *)
Theorem pass_over_closed_working_set ids pm :
  (forall id p, positions pm !! id = Some p -> skipped (Status p) = true) ->
  checkPositionsIn svc ids pm = Ok tt pm /\ checkPositions svc pm = Ok tt pm.
Proof.
  intros Hall.
  assert (Hin : forall ids0, checkPositionsIn svc ids0 pm = Ok tt pm).
  { induction ids0 as [|id0 rest IH]; [reflexivity|].
    cbn [checkPositionsIn]. unfold getPositions, storePosition, mbind, M_bind.
    destruct (positions pm !! id0) as [p0|] eqn:Hlook0; [|exact IH].
    unfold checkPosition. specialize (Hall id0 p0 Hlook0). unfold skipped in Hall.
    rewrite Hall. unfold mret, M_ret.
    rewrite (insert_id _ _ _ Hlook0).
    destruct pm as [ps w tr]. exact IH. }
  split; [apply Hin|]. unfold checkPositions. apply Hin.
Qed.

(** X10.  For a record that is not [PENDING] and has no trailing stop, a pass
    never panics and never submits or cancels an order: it only fetches the
    quote, polls orders and saves.  In particular a protective order whose
    submission failed is not submitted again. *)
Theorem pass_without_trailing_submits_nothing p :
  Status p <> "PENDING" ->
  TrailingStop p = false ->
  satisfies quotePollOrSave False
    (fun p' => StopLossOrderID p' = StopLossOrderID p
               /\ TakeProfitOrderID p' = TakeProfitOrderID p
               /\ PartialExitOrders p' = PartialExitOrders p)
    (checkPosition svc p).
Proof.
  intros Hpending Htrailing. unfold checkPosition.
  destruct ((Status p =? "CLOSED") || (Status p =? "STOPPED_OUT")).
  { apply sat_ret. auto. }
  destruct (String.eqb_spec (Status p) "PENDING") as [E|_]; [contradiction|].
  eapply sat_bind with
    (Q1 := fun r => TrailingStop (fst r) = false
                    /\ StopLossOrderID (fst r) = StopLossOrderID p
                    /\ TakeProfitOrderID (fst r) = TakeProfitOrderID p
                    /\ PartialExitOrders (fst r) = PartialExitOrders p).
  { unfold updatePositionPrice, getCurrentPrice.
    eapply sat_bind with (Q1 := fun _ => True).
    { sat_call_step.
      match goal with r : (_ + _)%type |- _ => destruct r end;
        [|apply sat_ret; exact I].
      destruct (fgt _ _); apply sat_ret; exact I. }
    intros r _. destruct r as [currentPrice|err]; [|apply sat_ret; cbn; auto].
    sat_now_step. apply sat_ret.
    destruct (Side (set_CurrentPrice currentPrice p) =? "buy"); cbn; auto. }
  intros [p1 err] (Htr1 & Hs1 & Ht1 & Hp1). cbn in Htr1, Hs1, Ht1, Hp1.
  destruct err; [apply sat_ret; auto|].
  eapply sat_bind with
    (Q1 := fun p2 => TrailingStop p2 = false
                     /\ StopLossOrderID p2 = StopLossOrderID p
                     /\ TakeProfitOrderID p2 = TakeProfitOrderID p
                     /\ PartialExitOrders p2 = PartialExitOrders p).
  { destruct (Status p1 =? "ACTIVE"); [|apply sat_ret; auto].
    eapply sat_mono; [| |eapply sat_weaken; [apply manageRiskOrders_sat|]].
    - intros [] H; try discriminate; reflexivity.
    - tauto.
    - cbn. unfold sameProtection. intros p2 H. intuition congruence. }
  intros p2 (Htr2 & H2). rewrite Htr2. apply sat_ret. exact H2.
Qed.

(** X11.  For a [PENDING] record a pass polls the entry order and, on a fill,
    submits protective orders and saves; it never asks for a quote and never
    cancels an order, and the record ends [PENDING] or [ACTIVE]. *)
Theorem pass_over_pending p :
  Status p = "PENDING" ->
  satisfies pollPlaceOrSave True
    (fun p' => Status p' = "PENDING" \/ Status p' = "ACTIVE")
    (checkPosition svc p).
Proof.
  intros Hpending. rewrite (checkPosition_pending svc p Hpending).
  eapply sat_weaken; [apply checkEntryOrder_plan|].
  cbn. rewrite Hpending. tauto.
Qed.

(** X12.  When the quote feed fails, the pass over a record that is neither
    skipped nor [PENDING] stops there: the record is returned unchanged, no
    order is polled and nothing is saved. *)
Theorem pass_quote_failure p pm e w :
  skipped (Status p) = false ->
  Status p <> "PENDING" ->
  GetLatestQuote (dataService svc) (Symbol p) (world pm) = (inr e, w) ->
  checkPosition svc p pm = Ok p (after pm w [EvGetLatestQuote (Symbol p)]).
Proof.
  intros Hskip Hpending Hq. unfold checkPosition. unfold skipped in Hskip.
  rewrite Hskip.
  destruct (String.eqb_spec (Status p) "PENDING") as [E|_]; [contradiction|].
  unfold updatePositionPrice, getCurrentPrice. unfold_monad. rewrite Hq.
  reflexivity.
Qed.

(** X13.  When the poll of the entry order fails, the pass leaves a [PENDING]
    record unchanged and saves nothing: an error of the broker never changes
    a status. *)
Theorem pass_entry_poll_failure p pm e w :
  Status p = "PENDING" ->
  GetOrder (tradingService svc) (EntryOrderID p) (world pm) = (inr e, w) ->
  checkPosition svc p pm = Ok p (after pm w [EvGetOrder (EntryOrderID p)]).
Proof.
  intros Hpending Hget. rewrite (checkPosition_pending svc p Hpending).
  unfold checkEntryOrder. unfold_monad. rewrite Hget. reflexivity.
Qed.

End WorkingSet.

(** ** The gateway: open, get, close *)

Section Gateway.

Context {W : Type} (svc : @Services W).

Lemma validateRequest_malformed req :
  malformed req <-> validateRequest req <> None.
Proof.
  unfold malformed, validateRequest.
  destruct (String.eqb_spec (Request.Side req) "buy") as [Hb|Hb];
    destruct (String.eqb_spec (Request.Side req) "sell") as [Hs|Hs];
    destruct (String.eqb_spec (Request.EntryStrategy req) "limit") as [Hl|Hl];
    destruct (Request.EntryPrice req), (Request.StopLossPrice req),
      (Request.StopLossPercent req), (Request.TakeProfitPrice req),
      (Request.TakeProfitPercent req); cbn;
    split; intros H; try discriminate; try tauto; try congruence;
    try (exfalso; apply H; reflexivity);
    try (right; right; tauto); try (right; tauto);
    try (decompose [and or] H; congruence).
Qed.

(** X1.  A request whose side is neither [buy] nor [sell], or that asks for a
    limit entry without a price, or that gives neither a stop price nor a
    stop percentage, or neither a take-profit price nor a take-profit
    percentage, is refused before anything happens: no quote is fetched, no
    order is submitted, the working set is untouched, and the error starts
    with [invalid request: ]. *)
Theorem PlaceManagedPosition_rejects_malformed req pm :
  malformed req ->
  exists err,
    validateRequest req = Some err
    /\ PlaceManagedPosition svc req pm
       = Ok (inr ("invalid request: " ++ err)%string) pm.
Proof.
  intros Hbad. apply validateRequest_malformed in Hbad.
  destruct (validateRequest req) as [err|] eqn:Hv; [|contradiction].
  exists err. split; [reflexivity|].
  unfold PlaceManagedPosition. rewrite Hv. reflexivity.
Qed.

(** X2.  A record that [PlaceManagedPosition] returns can be read back under
    its id right away, and the records under other ids are as before. *)
Theorem get_after_place req pm position pm' :
  PlaceManagedPosition svc req pm = Ok (inl position) pm' ->
  GetManagedPosition (ID position) pm' = Ok (inl position) pm'
  /\ forall id, id <> ID position -> positions pm' !! id = positions pm !! id.
Proof.
  intros Hrun.
  destruct (validateRequest req) as [err|] eqn:Hv.
  { unfold PlaceManagedPosition in Hrun. rewrite Hv in Hrun. discriminate. }
  destruct (PlaceManagedPosition_cases svc req pm Hv)
    as [(e & w & Hq & Hout)
       |(planned & t & w & _ & _ & _ & _ &
         [(e & w' & Hp & Hout)|(result & w' & r & w'' & Hp & Hsv & Hout)])];
    rewrite Hout in Hrun; try discriminate.
  injection Hrun as <- <-.
  split.
  - unfold GetManagedPosition, getPositions, mbind, M_bind. cbn.
    rewrite lookup_insert_eq. reflexivity.
  - intros id Hne. cbn. rewrite lookup_insert_ne; [reflexivity|].
    intros E. apply Hne. rewrite <- E. reflexivity.
Qed.

(** X3.  For an id that the working set does not hold, both the read and the
    manual close answer [position not found: ] followed by the id, make no
    call to the broker or the store, and change nothing. *)
Theorem unknown_position positionID pm :
  positions pm !! positionID = None ->
  GetManagedPosition positionID pm
  = Ok (inr ("position not found: " ++ positionID)%string) pm
  /\ CloseManagedPosition svc positionID pm
     = Ok (Some ("position not found: " ++ positionID)%string) pm.
Proof.
  intros Hlook.
  unfold GetManagedPosition, CloseManagedPosition, getPositions, mbind, M_bind.
  rewrite Hlook. split; reflexivity.
Qed.




End Gateway.

(** ** More of the supervisor *)

Section MoreSupervisor.

Context {W : Type} (svc : @Services W).

(** X5.  The working set stays keyed by id: if every record is stored under
    its own id, that still holds after a pass in any order, after a manual
    close, and after an open request, whatever their outcome. *)
Theorem working_set_keyed_by_id pm ids id req :
  wellKeyed pm ->
  wellKeyed (final (checkPositionsIn svc ids pm))
  /\ wellKeyed (final (CloseManagedPosition svc id pm))
  /\ wellKeyed (final (PlaceManagedPosition svc req pm)).
Proof.
  intros Hkeyed. split; [|split].
  - intros k q Hq.
    pose proof (checkPositionsIn_preserves svc (fun p p' => plan p' = plan p)
                  (fun _ => eq_refl)
                  (fun p1 p2 p3 H12 H23 => eq_trans H23 H12)) as H.
    assert (Hpass : forall p0,
               satisfies anyCall True (fun p' => plan p' = plan p0)
                         (checkPosition svc p0)).
    { intros p0. eapply sat_weaken; [apply checkPosition_plan|]. cbn. tauto. }
    specialize (H Hpass ids pm k).
    destruct (positions pm !! k) as [p|] eqn:Hlook.
    + destruct H as (p' & Hp' & Hplan). rewrite Hp' in Hq. injection Hq as <-.
      assert (Hid : ID p' = ID p) by (unfold plan in Hplan; congruence).
      rewrite Hid. apply Hkeyed. exact Hlook.
    + congruence.
  - intros k q Hq.
    destruct (positions pm !! id) as [p|] eqn:Hlook.
    + destruct (CloseManagedPosition_run svc id pm p Hlook) as (pm' & t & Hrun & Hpos).
      rewrite Hrun in Hq. cbn in Hq. rewrite Hpos in Hq.
      destruct (decide (id = k)) as [->|Hne].
      * rewrite lookup_insert_eq in Hq. injection Hq as <-. cbn.
        apply Hkeyed. exact Hlook.
      * rewrite lookup_insert_ne in Hq by exact Hne. apply Hkeyed. exact Hq.
    + unfold CloseManagedPosition, getPositions, mbind, M_bind in Hq.
      rewrite Hlook in Hq. apply Hkeyed. exact Hq.
  - intros k q Hq.
    destruct (validateRequest req) as [err|] eqn:Hv.
    { unfold PlaceManagedPosition in Hq. rewrite Hv in Hq. apply Hkeyed. exact Hq. }
    destruct (PlaceManagedPosition_cases svc req pm Hv)
      as [(e & w & _ & Hout)
         |(planned & t & w & _ & _ & _ & _ &
           [(e & w' & _ & Hout)|(result & w' & r & w'' & _ & _ & Hout)])];
      rewrite Hout in Hq; cbn in Hq; try (apply Hkeyed; exact Hq).
    destruct (decide (ID planned = k)) as [<-|Hne].
    + rewrite lookup_insert_eq in Hq. injection Hq as <-. reflexivity.
    + rewrite lookup_insert_ne in Hq by exact Hne. apply Hkeyed. exact Hq.
Qed.

(** X14.  When the stop is not reported filled (an error of the poll counts)
    and the take-profit is, the risk-order check marks the record [CLOSED]
    with its closing time, calls the store's save with it and returns it
    whatever the save answers.  It polls the stop, then the take-profit, and
    makes no other call before the save: the stop order is not cancelled and
    the partial exits are not polled. *)
Theorem manageRiskOrders_take_profit_filled p pm r0 w0 order w :
  StopLossOrderID p <> "" ->
  GetOrder (tradingService svc) (StopLossOrderID p) (world pm) = (r0, w0) ->
  notFilled r0 ->
  TakeProfitOrderID p <> "" ->
  GetOrder (tradingService svc) (TakeProfitOrderID p) w0 = (inl order, w) ->
  Order.Status order = "filled" ->
  exists t w1 r w2,
    Now (clock svc) w = (t, w1)
    /\ let p' := set_ClosedAt (Some t) (set_Status "CLOSED" p) in
       SaveManagedPosition (storageService svc) p' w1 = (r, w2)
       /\ manageRiskOrders svc p pm
          = Ok p' (after pm w2 [EvGetOrder (StopLossOrderID p);
                                EvGetOrder (TakeProfitOrderID p);
                                EvSaveManagedPosition p']).
Proof.
  intros Hsid Hstop Hnot Htid Htake Hfilled.
  destruct (Now (clock svc) w) as [t w1] eqn:Hn.
  destruct (SaveManagedPosition (storageService svc)
              (set_ClosedAt (Some t) (set_Status "CLOSED" p)) w1)
    as [r w2] eqn:Hs.
  exists t, w1, r, w2. split; [reflexivity|]. split; [exact Hs|].
  assert (Hfirst : manageRiskOrders svc p pm
                   = checkTakeProfitThenPartial svc p
                       (after pm w0 [EvGetOrder (StopLossOrderID p)])).
  { unfold manageRiskOrders.
    destruct (String.eqb_spec (StopLossOrderID p) "") as [E|_]; [contradiction|].
    cbn [negb]. unfold callGetOrder, call, mbind, M_bind. rewrite Hstop.
    destruct r0 as [order0|e0]; [|reflexivity].
    cbn in Hnot.
    destruct (String.eqb_spec (Order.Status order0) "filled") as [E|_];
      [contradiction|reflexivity]. }
  rewrite Hfirst. unfold checkTakeProfitThenPartial.
  destruct (String.eqb_spec (TakeProfitOrderID p) "") as [E|_]; [contradiction|].
  cbn [negb]. unfold_monad. unfold after. cbn. rewrite Htake. cbn.
  rewrite Hfilled. cbn. rewrite Hn. cbn. rewrite Hs. cbn.
  rewrite <- !app_assoc. reflexivity.
Qed.

End MoreSupervisor.

Section TrailingRun.

Context {W : Type} (svc : @Services W).

(** X15.  The trailing update, call by call.  When the candidate is not
    strictly better it makes no call and returns the record unchanged.  When
    it is, the update cancels the current stop order if the record has one,
    whatever the cancellation answers, writes the candidate as the stop
    price, and submits one stop order at that price for the remaining
    quantity.  By the broker's answer to that submission, the record takes
    the new order id when the broker accepts, and keeps the new price with
    the old, cancelled, order id when the broker refuses. *)
Theorem updateTrailingStop_calls p pm :
  if strictlyBetter p
  then
    let moved := set_StopLossPrice (candidateStop p) p in
    let cancelled :=
      if negb (StopLossOrderID p =? "")
      then (CancelOrder (tradingService svc) (StopLossOrderID p) (world pm)).2
      else world pm in
    exists t w1 r w2,
      Now (clock svc) cancelled = (t, w1)
      /\ PlaceOrder (tradingService svc) (stopLossOrder moved t) w1 = (r, w2)
      /\ updateTrailingStop svc p pm
         = Ok match r with
              | inl result =>
                  set_StopLossOrderID (OrderResult.OrderID result) moved
              | inr _ => moved
              end
              (after pm w2
                 (List.map EvCancelOrder
                    (List.filter (fun o => negb (o =? "")) [StopLossOrderID p])
                  ++ [EvPlaceOrder (stopLossOrder moved t)]))
  else updateTrailingStop svc p pm = Ok p pm.
Proof.
  assert (Hreplace : forall x,
            let moved := set_StopLossPrice x p in
            let cancelled :=
              if negb (StopLossOrderID p =? "")
              then (CancelOrder (tradingService svc) (StopLossOrderID p)
                      (world pm)).2
              else world pm in
            exists t w1 r w2,
              Now (clock svc) cancelled = (t, w1)
              /\ PlaceOrder (tradingService svc) (stopLossOrder moved t) w1
                 = (r, w2)
              /\ replaceStop svc x p pm
                 = Ok match r with
                      | inl result =>
                          set_StopLossOrderID (OrderResult.OrderID result) moved
                      | inr _ => moved
                      end
                      (after pm w2
                         (List.map EvCancelOrder
                            (List.filter (fun o => negb (o =? ""))
                               [StopLossOrderID p])
                          ++ [EvPlaceOrder (stopLossOrder moved t)]))).
  { intros x. cbn zeta. unfold replaceStop, placeStopLossOrder, after.
    cbn [List.filter List.map].
    destruct (negb (StopLossOrderID p =? "")); unfold_monad.
    - destruct (CancelOrder (tradingService svc) (StopLossOrderID p) (world pm))
        as [c w0]. cbn.
      destruct (Now (clock svc) w0) as [t w1]. cbn.
      destruct (PlaceOrder (tradingService svc)
                  (stopLossOrder (set_StopLossPrice x p) t) w1) as [r w2] eqn:Hp.
      exists t, w1, r, w2. split; [reflexivity|]. split; [exact Hp|].
      destruct r; cbn; rewrite <- !app_assoc; reflexivity.
    - cbn. destruct (Now (clock svc) (world pm)) as [t w1]. cbn.
      destruct (PlaceOrder (tradingService svc)
                  (stopLossOrder (set_StopLossPrice x p) t) w1) as [r w2] eqn:Hp.
      exists t, w1, r, w2. split; [reflexivity|]. split; [exact Hp|].
      destruct r; reflexivity. }
  unfold updateTrailingStop, strictlyBetter, candidateStop, fgt.
  destruct (Side p =? "buy"); cbn zeta;
    match goal with
    | |- context [if ?b then replaceStop _ _ _ else _] => destruct b
    end;
    try reflexivity; apply Hreplace.
Qed.

End TrailingRun.

(** ** The freshness window of the list *)

Section Freshness.

Context {W : Type} (svc : @Services W).

(** The age test on plain instants: the saturation of the duration plays no
    part. *)
Lemma stalePending_age now_ pos :
  stalePending now_ pos = true
  <-> Status pos = "PENDING" /\ (CreatedAt pos + 86400000000000 < now_)%Z.
Proof.
  unfold stalePending, time.Sub, time.maxDuration, time.minDuration, time.Hour.
  change (2 ^ 63)%Z with 9223372036854775808%Z.
  rewrite andb_true_iff, String.eqb_eq.
  repeat match goal with
         | |- context [if Z.ltb ?a ?b then _ else _] =>
             destruct (Z.ltb_spec a b)
         end;
    rewrite Z.ltb_lt; split; intros [Hst Hage]; (split; [exact Hst|lia]).
Qed.

(** X16.  The list operation reads the clock once and changes nothing.  A
    record of the working set is in the list it returns exactly when it
    passes the filter (the filter is empty or equals its status) and it is
    not a [PENDING] record whose creation time is more than 24 hours before
    that reading of the clock: at 24 hours sharp a [PENDING] record is still
    listed, one nanosecond later it is not, whatever the filter. *)
Theorem ListManagedPositions_hides_stale_pending status pm id pos now_ w :
  positions pm !! id = Some pos ->
  Now (clock svc) (world pm) = (now_, w) ->
  exists l,
    ListManagedPositions svc status pm
    = Ok l {| positions := positions pm; world := w; trace := trace pm |}
    /\ (pos ∈ l
        <-> (status = "" \/ Status pos = status)
            /\ ~ (Status pos = "PENDING"
                  /\ (CreatedAt pos + 86400000000000 < now_)%Z)).
Proof.
  intros Hlook Hnow. unfold ListManagedPositions. unfold_monad. rewrite Hnow.
  eexists. split; [reflexivity|].
  rewrite list_elem_of_In, filter_In, <- list_elem_of_In. unfold listed.
  rewrite andb_true_iff, negb_true_iff, orb_true_iff, !String.eqb_eq,
    <- not_true_iff_false, stalePending_age.
  assert (Hin : pos ∈ (map_to_list (positions pm)).*2).
  { apply list_elem_of_fmap. exists (id, pos). split; [reflexivity|].
    apply elem_of_map_to_list. exact Hlook. }
  tauto.
Qed.

End Freshness.

(** ** Recovery *)

Section RecoveryProofs.

Variable jsonMarshal : list string -> string.
Variable jsonUnmarshal : string -> list string.
Context {W : Type} (reader : PositionReader W).

Lemma loadEach_run rows : forall pm : @PositionManager W,
  exists ps,
    loadEach jsonUnmarshal rows pm
    = Ok tt {| positions := ps; world := world pm; trace := trace pm |}
    /\ (forall id p,
          ps !! id = Some p ->
          positions pm !! id = Some p
          \/ exists row,
               row ∈ rows /\ skipped (models.Status row) = false
               /\ models.PositionID row = id
               /\ p = dbToManagedPosition jsonUnmarshal row)
    /\ (forall id, is_Some (positions pm !! id) -> is_Some (ps !! id))
    /\ (forall row,
          row ∈ rows -> skipped (models.Status row) = false ->
          is_Some (ps !! models.PositionID row)).
Proof.
  induction rows as [|row rest IH]; intros pm.
  - exists (positions pm). cbn. destruct pm. cbn.
    split; [reflexivity|]. split; [auto|]. split; [auto|].
    intros row Hin. inversion Hin.
  - cbn [loadEach]. fold (skipped (models.Status row)).
    destruct (skipped (models.Status row)) eqn:Hskip.
    + destruct (IH pm) as (ps & Hrun & Hfrom & Hmono & Hall).
      exists ps. split; [exact Hrun|]. split; [|split; [exact Hmono|]].
      * intros id p Hp. destruct (Hfrom id p Hp) as [H|(r & Hin & H)]; [auto|].
        right. exists r. split; [right; exact Hin|exact H].
      * intros r Hin Hlive. apply elem_of_cons in Hin as [->|Hin]; [congruence|].
        apply Hall; assumption.
    + unfold storePosition, mbind, M_bind.
      destruct (IH {| positions :=
                        <[ID (dbToManagedPosition jsonUnmarshal row)
                          := dbToManagedPosition jsonUnmarshal row]> (positions pm);
                      world := world pm; trace := trace pm |})
        as (ps & Hrun & Hfrom & Hmono & Hall).
      cbn in Hrun, Hfrom, Hmono.
      exists ps. split; [exact Hrun|]. split; [|split].
      * intros id p Hp. destruct (Hfrom id p Hp) as [H|(r & Hin & H)].
        -- destruct (decide (models.PositionID row = id)) as [E|Hne].
           ++ rewrite <- E in H. rewrite lookup_insert_eq in H.
              injection H as <-. right. exists row.
              split; [left|]. auto.
           ++ rewrite lookup_insert_ne in H by exact Hne. left. exact H.
        -- right. exists r. split; [right; exact Hin|exact H].
      * intros id Hsome. apply Hmono.
        destruct (decide (models.PositionID row = id)) as [E|Hne].
        -- rewrite <- E, lookup_insert_eq. eauto.
        -- rewrite lookup_insert_ne by exact Hne. exact Hsome.
      * intros r Hin Hlive. apply elem_of_cons in Hin as [->|Hin].
        -- apply Hmono. rewrite lookup_insert_eq. eauto.
        -- apply Hall; assumption.
Qed.

(** X17.  Recovery.  When the store answers with rows, the engine starts with
    an empty trace and a working set that holds exactly the rows whose status
    is neither [CLOSED] nor [STOPPED_OUT], failed ones included: every record
    is the conversion of such a row and is stored under that row's position
    id, and every such row has a record under its position id.  No call is
    made to the broker. *)
Theorem recovery_restores_open_rows w rows w' :
  GetAllManagedPositions reader "" w = (inl rows, w') ->
  let pm := NewPositionManager jsonUnmarshal reader w in
  world pm = w' /\ trace pm = []
  /\ wellKeyed pm
  /\ (forall id p,
        positions pm !! id = Some p ->
        skipped (Status p) = false
        /\ exists row, row ∈ rows /\ p = dbToManagedPosition jsonUnmarshal row)
  /\ (forall row,
        row ∈ rows -> skipped (models.Status row) = false ->
        exists p, positions pm !! models.PositionID row = Some p
                  /\ ID p = models.PositionID row).
Proof.
  intros Hread pm. subst pm.
  unfold NewPositionManager, loadPositionsFromDB. cbn. rewrite Hread.
  unfold mbind, M_bind.
  destruct (loadEach_run rows {| positions := ∅; world := w'; trace := [] |})
    as (ps & Hrun & Hfrom & _ & Hall).
  rewrite Hrun. cbn in *.
  assert (Hrows : forall id p, ps !! id = Some p ->
            exists row, row ∈ rows /\ skipped (models.Status row) = false
                        /\ models.PositionID row = id
                        /\ p = dbToManagedPosition jsonUnmarshal row).
  { intros id p Hp. destruct (Hfrom id p Hp) as [H|H]; [|exact H].
    rewrite lookup_empty in H. discriminate. }
  split; [reflexivity|]. split; [reflexivity|]. split; [|split].
  - intros id p Hp. destruct (Hrows id p Hp) as (row & _ & _ & Hid & ->). exact Hid.
  - intros id p Hp. destruct (Hrows id p Hp) as (row & Hin & Hlive & _ & ->).
    split; [exact Hlive|]. eauto.
  - intros row Hin Hlive. destruct (Hall row Hin Hlive) as [p Hp].
    exists p. split; [exact Hp|].
    destruct (Hrows _ p Hp) as (row' & _ & _ & Hid & ->). exact Hid.
Qed.

(** X18.  When the read of the store fails, [loadPositionsFromDB] returns the
    error and loads nothing, and the engine starts all the same, with an
    empty working set. *)
Theorem recovery_read_failure w e w' :
  GetAllManagedPositions reader "" w = (inr e, w') ->
  loadPositionsFromDB jsonUnmarshal reader
    {| positions := ∅; world := w; trace := [] |}
  = Ok (Some e) {| positions := ∅; world := w'; trace := [] |}
  /\ NewPositionManager jsonUnmarshal reader w
     = {| positions := ∅; world := w'; trace := [] |}.
Proof.
  intros Hread. unfold NewPositionManager, loadPositionsFromDB. cbn.
  rewrite Hread. split; reflexivity.
Qed.

(** X19.  Save and reload.  If the codec gives back the two lists of the
    record (and never writes the empty string for them), converting a record
    to its row and the row, under whatever [gorm.Model] the store keeps, back
    to a record returns the record with three differences only: [CreatedAt]
    and [UpdatedAt] are those of the row, since the conversion writes neither
    of them, and a partial-exit configuration that is not enabled is gone. *)
Theorem save_reload_round_trip p m :
  jsonMarshal (PartialExitOrders p) <> "" ->
  jsonUnmarshal (jsonMarshal (PartialExitOrders p)) = PartialExitOrders p ->
  jsonMarshal (Tags p) <> "" ->
  jsonUnmarshal (jsonMarshal (Tags p)) = Tags p ->
  dbToManagedPosition jsonUnmarshal
    (withModel m (managedPositionToDB jsonMarshal p))
  = reloaded m p.
Proof.
  intros Horders Hordersrt Htags Htagsrt.
  unfold dbToManagedPosition, withModel, managedPositionToDB, reloaded. cbn.
  destruct (String.eqb_spec (jsonMarshal (PartialExitOrders p)) "") as [E|_];
    [contradiction|].
  destruct (String.eqb_spec (jsonMarshal (Tags p)) "") as [E|_]; [contradiction|].
  cbn. rewrite Hordersrt, Htagsrt.
  destruct (PartialExit p) as [[enabled pct tpct tprice]|]; cbn; [|reflexivity].
  destruct enabled; reflexivity.
Qed.

End RecoveryProofs.

(** ** The HTTP handlers *)

Section Handlers.

Context {W : Type} (svc : @Services W) (encodes : ManagedPosition -> bool).

(** X20.  The answer to an open request.  A body that does not bind is
    answered 400 and a malformed request 500, both without any call and with
    the working set untouched.  Every other request is answered 500 with the
    working set unchanged, when the quote feed or the broker failed, or 200
    with the created record in the working set under its id.  The body of
    the 200 is the created record when the encoder accepts it and is empty
    when it does not; the record is in the working set either way.  The
    handler never panics. *)
Theorem HandlePlaceManagedPosition_codes bound pm :
  match HandlePlaceManagedPosition svc encodes bound pm with
  | Panic _ => False
  | Ok resp pm' =>
      match bound with
      | inr err =>
          resp = {| code := 400;
                    body := Some (ErrorDetailsBody "Invalid request" err) |}
          /\ pm' = pm
      | inl req =>
          (malformed req -> code resp = 500%Z /\ pm' = pm)
          /\ ((exists p,
                 returned (PlaceManagedPosition svc req pm) = Some (inl p)
                 /\ resp
                    = {| code := 200;
                         body :=
                           if encodes p
                           then Some (CreatedBody
                                        "Managed position created successfully" p)
                           else None |}
                 /\ positions pm' !! ID p = Some p)
              \/ (exists err,
                    returned (PlaceManagedPosition svc req pm) = Some (inr err)
                    /\ resp
                       = {| code := 500;
                            body :=
                              Some (ErrorDetailsBody
                                      "Failed to place managed position" err) |}
                    /\ positions pm' = positions pm))
      end
  end.
Proof.
  unfold HandlePlaceManagedPosition. destruct bound as [req|err].
  2: { cbn. auto. }
  unfold mbind, M_bind.
  destruct (validateRequest req) as [err|] eqn:Hv.
  - unfold PlaceManagedPosition. rewrite Hv. cbn. split; [auto|].
    right. eexists. split; [reflexivity|]. split; reflexivity.
  - assert (Hok : ~ malformed req).
    { intros Hbad. apply validateRequest_malformed in Hbad. contradiction. }
    destruct (PlaceManagedPosition_cases svc req pm Hv)
      as [(e & w & _ & ->)
         |(planned & t & w & _ & _ & _ & _ &
           [(e & w' & _ & ->)|(result & w' & r & w'' & _ & _ & ->)])];
      cbn -[entryOrder].
    + split; [tauto|]. right. eexists. split; [reflexivity|]. split; reflexivity.
    + split; [tauto|]. right. eexists. split; [reflexivity|]. split; reflexivity.
    + split; [tauto|]. left. eexists. split; [reflexivity|].
      split; [reflexivity|]. cbn. apply lookup_insert_eq.
Qed.

(** X21.  The answers to a read and to a manual close of one id.  Without an
    id both answer 400.  For an id that the working set does not hold the read
    answers 404 and the close answers 500; for one that it holds both answer
    200, the close with its message and the read with the record as body when
    the encoder accepts the record and with an empty body when it does not.
    The read never changes anything, and the close changes something only
    when it answers 200. *)
Theorem HandleGet_and_HandleClose_codes positionID pm :
  HandleGetManagedPosition encodes positionID pm
  = Ok (if positionID =? ""
        then {| code := 400; body := Some (ErrorBody "position ID required") |}
        else match positions pm !! positionID with
             | Some p =>
                 {| code := 200;
                    body := if encodes p then Some (PositionBody p) else None |}
             | None =>
                 {| code := 404;
                    body :=
                      Some (ErrorDetailsBody "Position not found"
                              ("position not found: " ++ positionID)%string) |}
             end) pm
  /\ match HandleCloseManagedPosition svc encodes positionID pm with
     | Panic _ => False
     | Ok resp pm' =>
         resp
         = (if positionID =? ""
            then {| code := 400;
                    body := Some (ErrorBody "position ID required") |}
            else match positions pm !! positionID with
                 | Some _ =>
                     {| code := 200;
                        body :=
                          Some (MessageBody "Position closed successfully") |}
                 | None =>
                     {| code := 500;
                        body :=
                          Some (ErrorDetailsBody "Failed to close position"
                                  ("position not found: " ++ positionID)%string) |}
                 end)
         /\ (code resp <> 200%Z -> pm' = pm)
     end.
Proof.
  unfold HandleGetManagedPosition, HandleCloseManagedPosition.
  destruct (positionID =? "").
  { cbn. split; [reflexivity|]. auto. }
  split.
  - unfold GetManagedPosition, getPositions, mbind, M_bind.
    destruct (positions pm !! positionID); reflexivity.
  - unfold mbind, M_bind.
    destruct (positions pm !! positionID) as [p|] eqn:Hlook.
    + destruct (CloseManagedPosition_run svc positionID pm p Hlook)
        as (pm' & t & -> & _).
      cbn. split; [reflexivity|]. intros H. contradiction H. reflexivity.
    + unfold CloseManagedPosition, getPositions, mbind, M_bind. rewrite Hlook.
      cbn. auto.
Qed.

(** The list handler always answers 200; the body is the count and the
    listed records when the encoder accepts every one of them, and is empty
    as soon as it refuses one. *)
Lemma HandleListManagedPositions_body status pm :
  exists now_ w,
    Now (clock svc) (world pm) = (now_, w)
    /\ let l := List.filter (listed now_ status) ((map_to_list (positions pm)).*2) in
       HandleListManagedPositions svc encodes status pm
       = Ok {| code := 200;
               body := if forallb encodes l then Some (ListBody (length l) l)
                       else None |}
            {| positions := positions pm; world := w; trace := trace pm |}.
Proof.
  unfold HandleListManagedPositions, ListManagedPositions. unfold_monad.
  destruct (Now (clock svc) (world pm)) as [now_ w].
  exists now_, w. split; reflexivity.
Qed.

End Handlers.

(** ** The orders of a pass *)

Section OrdersOfAPass.

Context {W : Type} (svc : @Services W).



Ltac split_sum :=
  match goal with
  | r : (_ + _)%type |- _ => destruct r
  end.





End OrdersOfAPass.

(** ** The further properties on the stub *)

Lemma PlaceManagedPosition_rejects_malformed_witness :
  malformed StubStore.noStop
  /\ exists err,
       validateRequest StubStore.noStop = Some err
       /\ PlaceManagedPosition Stub.svc StubStore.noStop (Stub.start Stub.quiet)
          = Ok (inr ("invalid request: " ++ err)%string) (Stub.start Stub.quiet).
Proof.
  assert (Hbad : malformed StubStore.noStop).
  { right. right. left. split; reflexivity. }
  split; [exact Hbad|].
  apply (PlaceManagedPosition_rejects_malformed Stub.svc StubStore.noStop
           (Stub.start Stub.quiet) Hbad).
Defined.

Lemma ListManagedPositions_hides_stale_pending_witness :
  exists l,
    ListManagedPositions Stub.svc "PENDING"
      (Stub.holding [Stub.stale; Stub.pending] Stub.quiet)
    = Ok l {| positions :=
                positions (Stub.holding [Stub.stale; Stub.pending] Stub.quiet);
              world := (Now (clock Stub.svc) Stub.quiet).2;
              trace := [] |}
    /\ (Stub.stale ∈ l
        <-> ("PENDING" = "" \/ Status Stub.stale = "PENDING")
            /\ ~ (Status Stub.stale = "PENDING"
                  /\ (CreatedAt Stub.stale + 86400000000000 < 1000)%Z)).
Proof.
  apply (ListManagedPositions_hides_stale_pending Stub.svc "PENDING"
           (Stub.holding [Stub.stale; Stub.pending] Stub.quiet)
           "pos_0" Stub.stale 1000%Z (Now (clock Stub.svc) Stub.quiet).2).
  - vm_compute. reflexivity.
  - reflexivity.
Defined.

Lemma get_after_place_witness :
  GetManagedPosition (ID StubStore.placedRecord) StubStore.placedState
  = Ok (inl StubStore.placedRecord) StubStore.placedState
  /\ forall id,
       id <> ID StubStore.placedRecord ->
       positions StubStore.placedState !! id
       = positions (Stub.start Stub.quiet) !! id.
Proof.
  apply (get_after_place Stub.svc (Stub.longSPY 1000) (Stub.start Stub.quiet)
           StubStore.placedRecord StubStore.placedState).
  vm_compute. reflexivity.
Defined.

Lemma unknown_position_witness :
  GetManagedPosition "pos_9" (Stub.holding [Stub.active] Stub.quiet)
  = Ok (inr "position not found: pos_9") (Stub.holding [Stub.active] Stub.quiet)
  /\ CloseManagedPosition Stub.svc "pos_9" (Stub.holding [Stub.active] Stub.quiet)
     = Ok (Some "position not found: pos_9")
          (Stub.holding [Stub.active] Stub.quiet).
Proof.
  apply (unknown_position Stub.svc "pos_9" (Stub.holding [Stub.active] Stub.quiet)).
  vm_compute. reflexivity.
Defined.


Lemma working_set_keyed_by_id_witness :
  wellKeyed (Stub.holding [Stub.active] Stub.partialFilled)
  /\ wellKeyed (final (checkPositionsIn Stub.svc ["pos_1"]
                         (Stub.holding [Stub.active] Stub.partialFilled)))
  /\ wellKeyed (final (CloseManagedPosition Stub.svc "pos_1"
                         (Stub.holding [Stub.active] Stub.partialFilled)))
  /\ wellKeyed (final (PlaceManagedPosition Stub.svc (Stub.longSPY 1000)
                         (Stub.holding [Stub.active] Stub.partialFilled))).
Proof.
  assert (Hkeyed : wellKeyed (Stub.holding [Stub.active] Stub.partialFilled)).
  { intros id p H. cbn in H.
    apply lookup_insert_Some in H as [[<- <-]|[_ H]]; [reflexivity|].
    rewrite lookup_empty in H. discriminate. }
  split; [exact Hkeyed|].
  apply (working_set_keyed_by_id Stub.svc
           (Stub.holding [Stub.active] Stub.partialFilled) ["pos_1"]
           "pos_1" (Stub.longSPY 1000) Hkeyed).
Defined.

Lemma plan_never_rewritten_witness :
  (exists p',
     positions (final (checkPositionsIn Stub.svc ["pos_1"]
                         (Stub.holding [Stub.active] Stub.partialFilled)))
       !! "pos_1" = Some p'
     /\ plan p' = plan Stub.active)
  /\ (exists p',
        positions (final (CloseManagedPosition Stub.svc "pos_1"
                            (Stub.holding [Stub.active] Stub.partialFilled)))
          !! "pos_1" = Some p'
        /\ plan p' = plan Stub.active).
Proof.
  apply (plan_never_rewritten Stub.svc ["pos_1"]
           (Stub.holding [Stub.active] Stub.partialFilled) "pos_1" Stub.active).
  vm_compute. reflexivity.
Defined.

Lemma pass_over_closed_working_set_witness :
  checkPositionsIn Stub.svc ["pos_1"]
    (Stub.holding [set_Status "CLOSED" Stub.active] Stub.stopAndTakeFilled)
  = Ok tt (Stub.holding [set_Status "CLOSED" Stub.active] Stub.stopAndTakeFilled)
  /\ checkPositions Stub.svc
       (Stub.holding [set_Status "CLOSED" Stub.active] Stub.stopAndTakeFilled)
     = Ok tt (Stub.holding [set_Status "CLOSED" Stub.active] Stub.stopAndTakeFilled).
Proof.
  apply (pass_over_closed_working_set Stub.svc ["pos_1"]
           (Stub.holding [set_Status "CLOSED" Stub.active] Stub.stopAndTakeFilled)).
  intros id p H. cbn in H.
  apply lookup_insert_Some in H as [[_ <-]|[_ H]]; [reflexivity|].
  rewrite lookup_empty in H. discriminate.
Defined.

Lemma pass_without_trailing_submits_nothing_witness :
  Status Stub.active <> "PENDING"
  /\ satisfies (W := Stub.World) quotePollOrSave False
       (fun p' => StopLossOrderID p' = StopLossOrderID Stub.active
                  /\ TakeProfitOrderID p' = TakeProfitOrderID Stub.active
                  /\ PartialExitOrders p' = PartialExitOrders Stub.active)
       (checkPosition Stub.svc Stub.active).
Proof.
  assert (Hst : Status Stub.active <> "PENDING") by (cbn; discriminate).
  split; [exact Hst|].
  apply (pass_without_trailing_submits_nothing Stub.svc Stub.active Hst).
  reflexivity.
Defined.

Lemma pass_over_pending_witness :
  satisfies (W := Stub.World) pollPlaceOrSave True
    (fun p' => Status p' = "PENDING" \/ Status p' = "ACTIVE")
    (checkPosition Stub.svc Stub.pending).
Proof.
  apply (pass_over_pending Stub.svc Stub.pending). reflexivity.
Defined.

Lemma pass_quote_failure_witness :
  checkPosition Stub.svc Stub.active
    (Stub.holding [Stub.active] StubStore.noQuote)
  = Ok Stub.active
       (after (Stub.holding [Stub.active] StubStore.noQuote) StubStore.noQuote
          [EvGetLatestQuote (Symbol Stub.active)]).
Proof.
  apply (pass_quote_failure Stub.svc Stub.active
           (Stub.holding [Stub.active] StubStore.noQuote)
           "no quote" StubStore.noQuote).
  - reflexivity.
  - cbn. discriminate.
  - reflexivity.
Defined.

Lemma pass_entry_poll_failure_witness :
  checkPosition Stub.svc Stub.pending (Stub.holding [Stub.pending] Stub.quiet)
  = Ok Stub.pending
       (after (Stub.holding [Stub.pending] Stub.quiet) Stub.quiet
          [EvGetOrder (EntryOrderID Stub.pending)]).
Proof.
  apply (pass_entry_poll_failure Stub.svc Stub.pending
           (Stub.holding [Stub.pending] Stub.quiet)
           "order not found" Stub.quiet); reflexivity.
Defined.

Lemma manageRiskOrders_take_profit_filled_witness :
  exists t w1 r w2,
    Now (clock Stub.svc) StubStore.takeProfitFilled = (t, w1)
    /\ let p' := set_ClosedAt (Some t) (set_Status "CLOSED" Stub.active) in
       SaveManagedPosition (storageService Stub.svc) p' w1 = (r, w2)
       /\ manageRiskOrders Stub.svc Stub.active
            (Stub.holding [Stub.active] StubStore.takeProfitFilled)
          = Ok p' (after (Stub.holding [Stub.active] StubStore.takeProfitFilled)
                     w2 [EvGetOrder (StopLossOrderID Stub.active);
                         EvGetOrder (TakeProfitOrderID Stub.active);
                         EvSaveManagedPosition p']).
Proof.
  apply (manageRiskOrders_take_profit_filled Stub.svc Stub.active
           (Stub.holding [Stub.active] StubStore.takeProfitFilled)
           (inl (Stub.reported "accepted" 0 None)) StubStore.takeProfitFilled
           (Stub.reported "filled" 10 (Some 110%float))
           StubStore.takeProfitFilled).
  - cbn. discriminate.
  - reflexivity.
  - cbn. discriminate.
  - cbn. discriminate.
  - reflexivity.
  - reflexivity.
Defined.

Lemma recovery_restores_open_rows_witness :
  world (NewPositionManager StubStore.unmarshal
           (StubStore.reader StubStore.rows false) Stub.quiet) = Stub.quiet
  /\ trace (NewPositionManager StubStore.unmarshal
              (StubStore.reader StubStore.rows false) Stub.quiet) = []
  /\ wellKeyed (NewPositionManager StubStore.unmarshal
                  (StubStore.reader StubStore.rows false) Stub.quiet)
  /\ (forall id p,
        positions (NewPositionManager StubStore.unmarshal
                     (StubStore.reader StubStore.rows false) Stub.quiet) !! id
        = Some p ->
        skipped (Status p) = false
        /\ exists row,
             row ∈ StubStore.rows
             /\ p = dbToManagedPosition StubStore.unmarshal row)
  /\ (forall row,
        row ∈ StubStore.rows -> skipped (models.Status row) = false ->
        exists p,
          positions (NewPositionManager StubStore.unmarshal
                       (StubStore.reader StubStore.rows false) Stub.quiet)
            !! models.PositionID row = Some p
          /\ ID p = models.PositionID row).
Proof.
  apply (recovery_restores_open_rows StubStore.unmarshal
           (StubStore.reader StubStore.rows false) Stub.quiet StubStore.rows
           Stub.quiet).
  reflexivity.
Defined.

Lemma recovery_read_failure_witness :
  loadPositionsFromDB StubStore.unmarshal (StubStore.reader StubStore.rows true)
    {| positions := ∅; world := Stub.quiet; trace := [] |}
  = Ok (Some "failed to get managed positions: database is locked")
       {| positions := ∅; world := Stub.quiet; trace := [] |}
  /\ NewPositionManager StubStore.unmarshal (StubStore.reader StubStore.rows true)
       Stub.quiet
     = {| positions := ∅; world := Stub.quiet; trace := [] |}.
Proof.
  apply (recovery_read_failure StubStore.unmarshal
           (StubStore.reader StubStore.rows true) Stub.quiet
           "failed to get managed positions: database is locked" Stub.quiet).
  reflexivity.
Defined.

Lemma save_reload_round_trip_witness :
  StubStore.unmarshal (StubStore.marshal (PartialExitOrders Stub.active))
  = PartialExitOrders Stub.active
  /\ dbToManagedPosition StubStore.unmarshal
       (withModel {| gorm.ID := 7; gorm.CreatedAt := 900%Z;
                     gorm.UpdatedAt := 1000%Z; gorm.DeletedAt := None |}
          (managedPositionToDB StubStore.marshal Stub.active))
     = reloaded {| gorm.ID := 7; gorm.CreatedAt := 900%Z;
                   gorm.UpdatedAt := 1000%Z; gorm.DeletedAt := None |}
         Stub.active.
Proof.
  split; [reflexivity|].
  apply (save_reload_round_trip StubStore.marshal StubStore.unmarshal Stub.active).
  - cbn. discriminate.
  - reflexivity.
  - cbn. discriminate.
  - reflexivity.
Defined.
